(** * Topology assembly of the gem5 configuration scripts

    A shallow embedding of the cluster composers of
    [configs/example/riscv/devices.py] ([CpuClusterRiscV],
    [FastmodelCluster]) and of the system assembler of
    [configs/example/arm/starter_se.py] ([SimpleSeSystem], [get_processes],
    [create], [main]).

    The scripts build a graph of SimObjects by side effect.  The embedding
    threads one [World] through every call: the allocator of object
    identities, the objects constructed so far, the port bindings made so
    far, the bookkeeping of the owning system, the interrupt controller's
    configuration and the module-level tables that [create] rewrites.  A
    Python exception is a [Raise] outcome that keeps the world as the
    statement that raised left it. *)

From Stdlib Require Import ZArith List String Ascii Bool Lia.
From Stdlib Require Import FunctionalExtensionality.
From Stdlib Require HexString DecimalString DecimalZ Finite.
Import ListNotations.
Open Scope Z_scope.

(** ** Python values and exceptions *)

Inductive exn : Type :=
| AssertionError
| AttributeError
| IndexError
| ValueError
| SystemExit (code : Z).

Inductive outcome (A : Type) : Type :=
| Ok (a : A)
| Raise (e : exn).

Arguments Ok {A} a.
Arguments Raise {A} e.

(** [range(n)]: empty when [n <= 0]. *)
Definition range (n : Z) : list Z := map Z.of_nat (seq 0 (Z.to_nat n)).

(** [l[i]] with Python's negative indices. *)
Definition getitem {A : Type} (l : list A) (i : Z) : outcome A :=
  let n := Z.of_nat (List.length l) in
  let j := if i <? 0 then i + n else i in
  if j <? 0 then Raise IndexError
  else match nth_error l (Z.to_nat j) with
       | Some a => Ok a
       | None => Raise IndexError
       end.

(** ['%d' % i] and ['%#x' % i]. *)
Definition fmt_d (i : Z) : string :=
  DecimalString.NilZero.string_of_int (Z.to_int i).

Definition fmt_x (i : Z) : string := HexString.of_Z i.

(** ** SimObject classes, objects and ports *)

Inductive CpuClass : Type :=
| AtomicSimpleCPU | MinorCPU | HPI_HPI | O3CPU | O3_ARM_v7a_3
| ex5_big | ex5_LITTLE | O3_ARM_PostK_3 | ArmV8KvmCPU.

Inductive CacheClass : Type :=
| devices_L1I | devices_L1D | devices_L2
| HPI_ICache | HPI_DCache | HPI_L2
| ex5_big_L1I | ex5_big_L1D | ex5_big_L2
| ex5_LITTLE_L1I | ex5_LITTLE_L1D | ex5_LITTLE_L2
| O3_ARM_PostK_ICache | O3_ARM_PostK_DCache | O3_ARM_PostK_L2.

Inductive FastModelClass : Type :=
| FastModelCortexA76x1 | FastModelCortexA76x2
| FastModelCortexA76x3 | FastModelCortexA76x4.

Inductive BridgeClass : Type :=
| AmbaToTlmBridge64 | TlmToGem5Bridge64
| Gem5ToTlmBridge64 | AmbaFromTlmBridge64.

(** Branch predictor classes: the one starter_se.py names, the one
    O3_PostK.py defines and those the configuration generator returns. *)
Inductive BranchPredClass : Type :=
| O3_ARM_v7a_BP
| O3_ARM_PostK_BP
| generated_BP (tag : Z).

(** An object is known by the reference the allocator gave it. *)
Definition ObjRef := nat.

Inductive ObjKind : Type :=
| K_CpuClusterRiscV
| K_FastmodelCluster
| K_VoltageDomain (voltage : string)
| K_SrcClockDomain (clock : string) (voltage_domain : ObjRef)
| K_Cpu (cls : CpuClass)
| K_Cache (cls : CacheClass)
| K_L2XBar (width : Z) (clk_domain : ObjRef)
| K_SystemXBar
| K_SubSystem
| K_Bridge (cls : BridgeClass)
| K_FastModel (cls : FastModelClass)
| K_FastModelCore
| K_BranchPred (cls : BranchPredClass)
| K_Process (pid : Z)
| K_SEWorkload
| K_SimpleSeSystem
| K_Root.

Inductive PortName : Type :=
| cached_ports      (* the ports [cpu.connectCachedPorts] binds *)
| cpu_side_ports | mem_side_ports
| cpu_side | mem_side
| system_port
| amba | amba_m | amba_s | tlm | gem5.

Definition Port : Type := ObjRef * PortName.

Record Cache : Type := mkCache {
  cache_ref : ObjRef;
  cache_class : CacheClass
}.

Record Process : Type := mkProcess {
  proc_ref : ObjRef;
  pid : Z;
  cwd : string;
  cmd : list string;
  executable : string;
  gid : Z
}.

(** A core, with the attributes the scripts set on it.  [branchPred] is
    the attribute of the instance itself: [None] as long as no statement
    has assigned one, in which case reading [cpu.branchPred] finds what
    the class of the core declares (see [getattr_branchPred]). *)
Record Cpu : Type := mkCpu {
  cpu_ref : ObjRef;
  cpu_class : CpuClass;
  cpu_id : Z;
  cpu_clk_domain : ObjRef;
  threads_created : bool;
  interrupt_controller_created : bool;
  socket_id : option Z;
  icache : option Cache;
  dcache : option Cache;
  branchPred : option ObjRef;
  max_insts_all_threads : option Z;
  simpoint_probe : option Z;
  workload : option Process
}.

(** The bridges grouped under [system.gic_hub]. *)
Record GicHub : Type := mkGicHub {
  gic_a2t : ObjRef;
  gic_t2g : ObjRef;
  gic_g2t : ObjRef;
  gic_g2t_addr_ranges : list (Z * Z);
  gic_t2a : ObjRef;
  a2t : option ObjRef;
  t2g : option ObjRef
}.

Inductive cpu_name : Type :=
| atomic | minor | hpi | ac | o3 | timing | ex5 | ex5l | pk.

(** One entry of [cpu_types]:
    [(cpu_class, l1_icache_class, l1_dcache_class, l2_Cache_class)]. *)
Definition cpu_config : Type :=
  (CpuClass * option CacheClass * option CacheClass * option CacheClass)%type.

(** [entry[0]], [entry[1]], [entry[2]], [entry[3]] *)
Definition entry_0 (e : cpu_config) : CpuClass := fst (fst (fst e)).
Definition entry_1 (e : cpu_config) : option CacheClass := snd (fst (fst e)).
Definition entry_2 (e : cpu_config) : option CacheClass := snd (fst e).
Definition entry_3 (e : cpu_config) : option CacheClass := snd e.

Inductive Printed : Type :=
| info_command (n : Z) (cmd : list string)
| error_cannot_map (n_commands n_cpus : Z).

(** ** The world the scripts mutate *)

Record World : Type := mkWorld {
  next_ref : ObjRef;
  objects : list (ObjRef * ObjKind);
  bindings : list (Port * Port);
  (* bookkeeping of the owning system *)
  _clusters : list ObjRef;
  _num_cpus : Z;
  (* system.realview.gic.sc_gic and system.gic_hub *)
  cpu_affinities : string;
  reg_base_per_redistributor : string;
  gic_hub : option GicHub;
  (* module-level state of starter_se.py and devices.py *)
  cpu_types : cpu_name -> cpu_config;
  L1I_size : string;
  L1D_size : string;
  L2_size : string;
  stdout : list Printed;
  instantiated : bool
}.

Definition set_heap (w : World) (n : ObjRef) (os : list (ObjRef * ObjKind))
  : World :=
  mkWorld n os (bindings w) (_clusters w) (_num_cpus w)
          (cpu_affinities w) (reg_base_per_redistributor w) (gic_hub w)
          (cpu_types w) (L1I_size w) (L1D_size w) (L2_size w)
          (stdout w) (instantiated w).

Definition set_bindings (w : World) (bs : list (Port * Port)) : World :=
  mkWorld (next_ref w) (objects w) bs (_clusters w) (_num_cpus w)
          (cpu_affinities w) (reg_base_per_redistributor w) (gic_hub w)
          (cpu_types w) (L1I_size w) (L1D_size w) (L2_size w)
          (stdout w) (instantiated w).

Definition set_registry (w : World) (cs : list ObjRef) (n : Z) : World :=
  mkWorld (next_ref w) (objects w) (bindings w) cs n
          (cpu_affinities w) (reg_base_per_redistributor w) (gic_hub w)
          (cpu_types w) (L1I_size w) (L1D_size w) (L2_size w)
          (stdout w) (instantiated w).

Definition set_cpu_affinities (w : World) (s : string) : World :=
  mkWorld (next_ref w) (objects w) (bindings w) (_clusters w) (_num_cpus w)
          s (reg_base_per_redistributor w) (gic_hub w)
          (cpu_types w) (L1I_size w) (L1D_size w) (L2_size w)
          (stdout w) (instantiated w).

Definition set_reg_base_per_redistributor (w : World) (s : string) : World :=
  mkWorld (next_ref w) (objects w) (bindings w) (_clusters w) (_num_cpus w)
          (cpu_affinities w) s (gic_hub w)
          (cpu_types w) (L1I_size w) (L1D_size w) (L2_size w)
          (stdout w) (instantiated w).

Definition set_gic_hub (w : World) (h : option GicHub) : World :=
  mkWorld (next_ref w) (objects w) (bindings w) (_clusters w) (_num_cpus w)
          (cpu_affinities w) (reg_base_per_redistributor w) h
          (cpu_types w) (L1I_size w) (L1D_size w) (L2_size w)
          (stdout w) (instantiated w).

Definition set_cpu_types (w : World) (t : cpu_name -> cpu_config) : World :=
  mkWorld (next_ref w) (objects w) (bindings w) (_clusters w) (_num_cpus w)
          (cpu_affinities w) (reg_base_per_redistributor w) (gic_hub w)
          t (L1I_size w) (L1D_size w) (L2_size w)
          (stdout w) (instantiated w).

Definition set_sizes (w : World) (l1i l1d l2 : string) : World :=
  mkWorld (next_ref w) (objects w) (bindings w) (_clusters w) (_num_cpus w)
          (cpu_affinities w) (reg_base_per_redistributor w) (gic_hub w)
          (cpu_types w) l1i l1d l2
          (stdout w) (instantiated w).

Definition set_stdout (w : World) (out : list Printed) : World :=
  mkWorld (next_ref w) (objects w) (bindings w) (_clusters w) (_num_cpus w)
          (cpu_affinities w) (reg_base_per_redistributor w) (gic_hub w)
          (cpu_types w) (L1I_size w) (L1D_size w) (L2_size w)
          out (instantiated w).

Definition set_instantiated (w : World) (b : bool) : World :=
  mkWorld (next_ref w) (objects w) (bindings w) (_clusters w) (_num_cpus w)
          (cpu_affinities w) (reg_base_per_redistributor w) (gic_hub w)
          (cpu_types w) (L1I_size w) (L1D_size w) (L2_size w)
          (stdout w) b.

(** ** The monad of the scripts: state and exceptions *)

Definition M (A : Type) : Type := World -> outcome A * World.

Definition ret {A : Type} (a : A) : M A := fun w => (Ok a, w).

Definition bind {A B : Type} (m : M A) (k : A -> M B) : M B :=
  fun w =>
    match m w with
    | (Ok a, w') => k a w'
    | (Raise e, w') => (Raise e, w')
    end.

Definition raise {A : Type} (e : exn) : M A := fun w => (Raise e, w).

Notation "x <- m ;; k" := (bind m (fun x => k))
  (at level 61, m at next level, right associativity).
Notation "m ;;; k" := (bind m (fun _ => k))
  (at level 61, right associativity).

Definition lift {A : Type} (o : outcome A) : M A := fun w => (o, w).

(** [assert b]. *)
Definition assert (b : bool) : M unit :=
  if b then ret tt else raise AssertionError.

(** [try: body  except AttributeError: handler]. *)
Definition try_except_AttributeError {A : Type} (body handler : M A) : M A :=
  fun w =>
    match body w with
    | (Raise AttributeError, w') => handler w'
    | r => r
    end.

(** [[f(x) for x in l]], left to right. *)
Fixpoint mapM {A B : Type} (f : A -> M B) (l : list A) : M (list B) :=
  match l with
  | [] => ret []
  | x :: l' => y <- f x ;; ys <- mapM f l' ;; ret (y :: ys)
  end.

(** [for x in l: body(x)]. *)
Fixpoint for_each {A : Type} (l : list A) (body : A -> M unit) : M unit :=
  match l with
  | [] => ret tt
  | x :: l' => body x ;;; for_each l' body
  end.

(** Constructing a SimObject: the next reference, recorded with its kind. *)
Definition new (k : ObjKind) : M ObjRef :=
  fun w => (Ok (next_ref w),
            set_heap w (S (next_ref w)) (objects w ++ [(next_ref w, k)])).

(** [a = b] on ports. *)
Definition connect (a b : Port) : M unit :=
  fun w => (Ok tt, set_bindings w (bindings w ++ [(a, b)])).

Definition print (p : Printed) : M unit :=
  fun w => (Ok tt, set_stdout w (stdout w ++ [p])).

(** [m5.instantiate()]: the graph goes to the simulation kernel. *)
Definition instantiate : M unit :=
  fun w => (Ok tt, set_instantiated w true).

(** ** Bookkeeping of the owning system (starter_se.py, SimpleSeSystem) *)

Definition numCpuClusters : M Z :=
  fun w => (Ok (Z.of_nat (List.length (_clusters w))), w).

Definition numCpus : M Z := fun w => (Ok (_num_cpus w), w).

Definition addCpuCluster (cpu_cluster : ObjRef) (num_cpus : Z) : M unit :=
  cs <- (fun w => (Ok (_clusters w), w)) ;;
  assert (negb (existsb (Nat.eqb cpu_cluster) cs)) ;;;
  assert (0 <? num_cpus) ;;;
  fun w => (Ok tt, set_registry w (_clusters w ++ [cpu_cluster])
                                (_num_cpus w + num_cpus)).

(** ** gem5 methods and declarations the scripts call but do not define *)

Record Args : Type := mkArgs {
  commands_to_run : list string;
  cpu : cpu_name;
  cpu_freq : string;
  num_cores : Z;
  mem_size : string;
  l1d_size : string;
  l1i_size : string;
  l2_size : string;
  maxinsts : Z;
  simpoint_profile : bool;
  simpoint_interval : Z;
  checkpoint_at_end : bool;
  restore : option string;
  random : Z
}.

(** Static declarations of the CPU classes ([memory_mode],
    [require_caches]), the process environment, [shlex.split] and the
    configuration generator of module [cfg_generater] are not part of these
    scripts: every definition below takes them as given. *)
Class Gem5 : Type := {
  memory_mode : CpuClass -> string;
  require_caches : CpuClass -> bool;
  shlex_split : string -> outcome (list string);
  os_getcwd : string;
  os_getgid : Z;
  generate_configs : Args -> Z -> Args * BranchPredClass
}.

(** [cpu_type(cpu_id=id, clk_domain=clk)]: a core with nothing attached;
    the call sets the two keyword arguments on the instance and nothing
    else, so every other attribute is still the one of the class. *)
Definition new_cpu (r : ObjRef) (cls : CpuClass) (id : Z) (clk : ObjRef)
  : Cpu :=
  mkCpu r cls id clk false false None None None None None None None.

(** What reading [cpu.branchPred] yields: the object assigned to the core
    or, failing that, the attribute of its class. *)
Inductive BranchPredAttr : Type :=
| assigned_branchPred (r : ObjRef)
| class_branchPred (declared : option BranchPredClass).

(** The class-level declarations of the sources: [O3_ARM_PostK_3] has
    [branchPred = O3_ARM_PostK_BP()] (O3_PostK.py).  The other CPU classes
    are defined outside the sources, which show no declaration for
    them. *)
Definition declared_branchPred (cls : CpuClass) : option BranchPredClass :=
  match cls with
  | O3_ARM_PostK_3 => Some O3_ARM_PostK_BP
  | _ => None
  end.

Definition getattr_branchPred (c : Cpu) : BranchPredAttr :=
  match branchPred c with
  | Some r => assigned_branchPred r
  | None => class_branchPred (declared_branchPred (cpu_class c))
  end.

(** Modelled from the spec: BaseCPU.createThreads is not among the
    sources; the spec has each core initialise its thread bookkeeping, which
    the model records as a flag of the core. *)
Definition createThreads (c : Cpu) : Cpu :=
  mkCpu (cpu_ref c) (cpu_class c) (cpu_id c) (cpu_clk_domain c)
        true (interrupt_controller_created c) (socket_id c)
        (icache c) (dcache c) (branchPred c) (max_insts_all_threads c)
        (simpoint_probe c) (workload c).

(** Modelled from the spec: BaseCPU.createInterruptController is not
    among the sources; the spec has each core initialise its interrupt
    bookkeeping, which the model records as a flag of the core. *)
Definition createInterruptController (c : Cpu) : Cpu :=
  mkCpu (cpu_ref c) (cpu_class c) (cpu_id c) (cpu_clk_domain c)
        (threads_created c) true (socket_id c)
        (icache c) (dcache c) (branchPred c) (max_insts_all_threads c)
        (simpoint_probe c) (workload c).

(** Modelled from the spec: BaseCPU.addPrivateSplitL1Caches is not among
    the sources; the spec has the instances attached to the core they are
    built for and owned by it: the model stores the two arguments, each an
    instance or [None], in the core. *)
Definition addPrivateSplitL1Caches (c : Cpu) (ic dc : option Cache) : Cpu :=
  mkCpu (cpu_ref c) (cpu_class c) (cpu_id c) (cpu_clk_domain c)
        (threads_created c) (interrupt_controller_created c) (socket_id c)
        ic dc (branchPred c) (max_insts_all_threads c)
        (simpoint_probe c) (workload c).

(** Modelled from the spec: BaseCPU.connectCachedPorts is not among the
    sources; the spec counts one connection for each core wired to a bus:
    the model binds the core's cached ports, as one group, to the port
    given. *)
Definition connectCachedPorts (c : Cpu) (p : Port) : M unit :=
  connect (cpu_ref c, cached_ports) p.

(** Modelled from the spec: BaseCPU.addSimPointProbe is not among the
    sources; the spec lists profiling probes among the global overrides:
    the model records the interval in the core. *)
Definition addSimPointProbe (c : Cpu) (interval : Z) : Cpu :=
  mkCpu (cpu_ref c) (cpu_class c) (cpu_id c) (cpu_clk_domain c)
        (threads_created c) (interrupt_controller_created c) (socket_id c)
        (icache c) (dcache c) (branchPred c) (max_insts_all_threads c)
        (Some interval) (workload c).

(** Attribute assignments on a core. *)
Definition set_socket_id (c : Cpu) (s : Z) : Cpu :=
  mkCpu (cpu_ref c) (cpu_class c) (cpu_id c) (cpu_clk_domain c)
        (threads_created c) (interrupt_controller_created c) (Some s)
        (icache c) (dcache c) (branchPred c) (max_insts_all_threads c)
        (simpoint_probe c) (workload c).

Definition set_branchPred (bp : ObjRef) (c : Cpu) : Cpu :=
  mkCpu (cpu_ref c) (cpu_class c) (cpu_id c) (cpu_clk_domain c)
        (threads_created c) (interrupt_controller_created c) (socket_id c)
        (icache c) (dcache c) (Some bp) (max_insts_all_threads c)
        (simpoint_probe c) (workload c).

Definition set_max_insts_all_threads (n : Z) (c : Cpu) : Cpu :=
  mkCpu (cpu_ref c) (cpu_class c) (cpu_id c) (cpu_clk_domain c)
        (threads_created c) (interrupt_controller_created c) (socket_id c)
        (icache c) (dcache c) (branchPred c) (Some n)
        (simpoint_probe c) (workload c).

Definition set_workload (c : Cpu) (p : Process) : Cpu :=
  mkCpu (cpu_ref c) (cpu_class c) (cpu_id c) (cpu_clk_domain c)
        (threads_created c) (interrupt_controller_created c) (socket_id c)
        (icache c) (dcache c) (branchPred c) (max_insts_all_threads c)
        (simpoint_probe c) (Some p).

(** [cache_type()] when a type is configured, [None] otherwise. *)
Definition construct_cache (cache_type : option CacheClass)
  : M (option Cache) :=
  match cache_type with
  | None => ret None
  | Some cls => r <- new (K_Cache cls) ;; ret (Some (mkCache r cls))
  end.

(** ** devices.py: CpuClusterRiscV *)

Module CpuClusterRiscV.

Record t : Type := mk {
  self : ObjRef;
  _cpu_type : CpuClass;
  _l1i_type : option CacheClass;
  _l1d_type : option CacheClass;
  _l2_type : option CacheClass;
  voltage_domain : ObjRef;
  clk_domain : ObjRef;
  cpus : list Cpu;
  toL2Bus : option ObjRef;
  l2 : option Cache
}.

Definition set_cpus (c : t) (cs : list Cpu) : t :=
  mk (self c) (_cpu_type c) (_l1i_type c) (_l1d_type c) (_l2_type c)
     (voltage_domain c) (clk_domain c) cs (toL2Bus c) (l2 c).

Definition set_l2 (c : t) (bus : ObjRef) (cache : Cache) : t :=
  mk (self c) (_cpu_type c) (_l1i_type c) (_l1d_type c) (_l2_type c)
     (voltage_domain c) (clk_domain c) (cpus c) (Some bus) (Some cache).

(** [self.l2]: an AttributeError while the attribute was never set. *)
Definition getattr_l2 (c : t) : M Cache :=
  match l2 c with
  | Some cache => ret cache
  | None => raise AttributeError
  end.

Definition __init__ (num_cpus : Z) (cpu_clock cpu_voltage : string)
           (cpu_type : CpuClass)
           (l1i_type l1d_type l2_type : option CacheClass) : M t :=
  self <- new K_CpuClusterRiscV ;;
  assert (0 <? num_cpus) ;;;
  vd <- new (K_VoltageDomain cpu_voltage) ;;
  cd <- new (K_SrcClockDomain cpu_clock vd) ;;
  cpus <- mapM (fun idx =>
                  n <- numCpus ;;
                  r <- new (K_Cpu cpu_type) ;;
                  ret (new_cpu r cpu_type (n + idx) cd))
               (range num_cpus) ;;
  cpus <- mapM (fun cpu =>
                  let cpu := createThreads cpu in
                  let cpu := createInterruptController cpu in
                  s <- numCpuClusters ;;
                  ret (set_socket_id cpu s))
               cpus ;;
  addCpuCluster self num_cpus ;;;
  ret (mk self cpu_type l1i_type l1d_type l2_type vd cd cpus None None).

Definition requireCaches {G : Gem5} (c : t) : bool :=
  require_caches (_cpu_type c).

Definition memoryMode {G : Gem5} (c : t) : string :=
  memory_mode (_cpu_type c).

Definition addL1 (c : t) : M t :=
  cpus <- mapM (fun cpu =>
                  l1i <- construct_cache (_l1i_type c) ;;
                  l1d <- construct_cache (_l1d_type c) ;;
                  ret (addPrivateSplitL1Caches cpu l1i l1d))
               (cpus c) ;;
  ret (set_cpus c cpus).

Definition addL2 (c : t) (clk_domain : ObjRef) : M t :=
  match _l2_type c with
  | None => ret c
  | Some cls =>
      bus <- new (K_L2XBar 64 clk_domain) ;;
      r <- new (K_Cache cls) ;;
      for_each (cpus c)
               (fun cpu => connectCachedPorts cpu (bus, cpu_side_ports)) ;;;
      connect (bus, mem_side_ports) (r, cpu_side) ;;;
      ret (set_l2 c bus (mkCache r cls))
  end.

Definition connectMemSide (c : t) (bus : ObjRef) : M unit :=
  try_except_AttributeError
    (cache <- getattr_l2 c ;;
     connect (cache_ref cache, mem_side) (bus, cpu_side_ports))
    (for_each (cpus c)
              (fun cpu => connectCachedPorts cpu (bus, cpu_side_ports))).

End CpuClusterRiscV.

(** ** devices.py: FastmodelCluster *)

Module FastmodelCluster.

(** What the constructor reads of [system.realview.gic]. *)
Record Gic : Type := mkGic {
  gic_ref : ObjRef;
  redist_bases : list Z;          (* get_redist_bases() *)
  has_gicv4_1 : bool;             (* sc_gic.has_gicv4_1 *)
  addr_ranges : list (Z * Z);     (* get_addr_ranges() *)
  redistributor : ObjRef
}.

(** What the constructor reads of [system]: the platform and the two
    buses.  The registration it ends with, [system.addCpuCluster], is a
    method of the platform's system class, which the sources do not
    define: [init_with] takes it as a parameter. *)
Record System : Type := mkSystem {
  realview_gic : Gic;
  iobus : ObjRef;
  membus : ObjRef
}.

Record Core : Type := mkCore {
  core_ref : ObjRef;
  semihosting_enable : bool;
  RVBARADDR : Z;
  core_redistributor : ObjRef;
  core_threads_created : bool;
  core_interrupt_controller_created : bool
}.

Record Model : Type := mkModel {
  model_ref : ObjRef;
  model_class : FastModelClass;
  cores : list Core
}.

Record t : Type := mk {
  self : ObjRef;
  voltage_domain : ObjRef;
  clk_domain : ObjRef;
  cpus : list Model
}.

Definition CpuClasses : list FastModelClass :=
  [FastModelCortexA76x1; FastModelCortexA76x2;
   FastModelCortexA76x3; FastModelCortexA76x4].

(** Modelled from the spec: the four FastModelCortexA76xN classes are
    declared outside the sources; the spec calls them the external model's
    provided core-count variants, so the class of name xN has N cores. *)
Definition core_count (cls : FastModelClass) : Z :=
  match cls with
  | FastModelCortexA76x1 => 1
  | FastModelCortexA76x2 => 2
  | FastModelCortexA76x3 => 3
  | FastModelCortexA76x4 => 4
  end.

(** ['0.0.%d.0' % i] *)
Definition fmt_affinity (i : Z) : string :=
  ("0.0." ++ fmt_d i ++ ".0")%string.

Definition redist_frame_size (gic : Gic) : Z :=
  if has_gicv4_1 gic then 0x40000 else 0x20000.

(** The pairs [(i, redist_base + redist_frame_size * i)] that the
    comprehension formats, for [i] in [range(num_cpus)]. *)
Definition reg_base_table (redist_base frame_size num_cpus : Z)
  : list (Z * Z) :=
  map (fun i => (i, redist_base + frame_size * i)) (range num_cpus).

(** ['0.0.%d.0=%#x' % (i, a)] *)
Definition fmt_reg_base (e : Z * Z) : string :=
  ("0.0." ++ fmt_d (fst e) ++ ".0=" ++ fmt_x (snd e))%string.

(** [cpu = CpuClass(GICDISABLE=False)] with the configuration of its
    cores. *)
Definition new_model (cls : FastModelClass) (gic : Gic) : M Model :=
  r <- new (K_FastModel cls) ;;
  cs <- mapM (fun _ => new K_FastModelCore) (range (core_count cls)) ;;
  ret (mkModel r cls
               (map (fun c => mkCore c false 0x10 (redistributor gic)
                                     true true) cs)).

Definition init_with (register : ObjRef -> Z -> M unit)
           (system : System) (num_cpus : Z)
           (cpu_clock cpu_voltage : string) : M t :=
  self <- new K_FastmodelCluster ;;
  (* Setup GIC *)
  let gic := realview_gic system in
  (fun w => (Ok tt,
             set_cpu_affinities w
               (String.concat "," (map fmt_affinity (range num_cpus))))) ;;;
  (* Parse the base address of redistributor. *)
  redist_base <- lift (getitem (redist_bases gic) 0) ;;
  (fun w => (Ok tt,
             set_reg_base_per_redistributor w
               (String.concat ","
                  (map fmt_reg_base
                       (reg_base_table redist_base (redist_frame_size gic)
                                       num_cpus))))) ;;;
  gic_a2t <- new (K_Bridge AmbaToTlmBridge64) ;;
  connect (gic_a2t, amba) (gic_ref gic, amba_m) ;;;
  gic_t2g <- new (K_Bridge TlmToGem5Bridge64) ;;
  connect (gic_t2g, tlm) (gic_a2t, tlm) ;;;
  connect (gic_t2g, gem5) (iobus system, cpu_side_ports) ;;;
  gic_g2t <- new (K_Bridge Gem5ToTlmBridge64) ;;
  connect (gic_g2t, gem5) (membus system, mem_side_ports) ;;;
  gic_t2a <- new (K_Bridge AmbaFromTlmBridge64) ;;
  connect (gic_t2a, tlm) (gic_g2t, tlm) ;;;
  connect (gic_ref gic, amba_s) (gic_t2a, amba) ;;;
  hub <- new K_SubSystem ;;
  (fun w => (Ok tt,
             set_gic_hub w (Some (mkGicHub gic_a2t gic_t2g gic_g2t
                                           (addr_ranges gic) gic_t2a
                                           None None)))) ;;;
  vd <- new (K_VoltageDomain cpu_voltage) ;;
  cd <- new (K_SrcClockDomain cpu_clock vd) ;;
  (* Setup CPU *)
  assert (num_cpus <=? 4) ;;;
  CpuClass <- lift (getitem CpuClasses (num_cpus - 1)) ;;
  cpu <- new_model CpuClass gic ;;
  a2t <- new (K_Bridge AmbaToTlmBridge64) ;;
  connect (a2t, amba) (model_ref cpu, amba) ;;;
  t2g <- new (K_Bridge TlmToGem5Bridge64) ;;
  connect (t2g, tlm) (a2t, tlm) ;;;
  connect (t2g, gem5) (membus system, cpu_side_ports) ;;;
  (fun w => (Ok tt,
             set_gic_hub w (Some (mkGicHub gic_a2t gic_t2g gic_g2t
                                           (addr_ranges gic) gic_t2a
                                           (Some a2t) (Some t2g))))) ;;;
  register self num_cpus ;;;
  ret (mk self vd cd [cpu]).

(** The constructor on a system that keeps its books as the system class
    of starter_se.py does. *)
Definition __init__ : System -> Z -> string -> string -> M t :=
  init_with addCpuCluster.

Definition requireCaches (c : t) : bool := false.

Definition memoryMode (c : t) : string := "atomic_noncaching".

Definition addL1 (c : t) : M t := ret c.

Definition addL2 (c : t) (clk_domain : ObjRef) : M t := ret c.

Definition connectMemSide (c : t) (bus : ObjRef) : M unit := ret tt.

End FastmodelCluster.

(** ** starter_se.py *)

(** The table [cpu_types] as the module defines it. *)
Definition cpu_types0 (n : cpu_name) : cpu_config :=
  match n with
  | atomic => (AtomicSimpleCPU, None, None, None)
  | minor => (MinorCPU, Some devices_L1I, Some devices_L1D, Some devices_L2)
  | hpi => (HPI_HPI, Some HPI_ICache, Some HPI_DCache, Some HPI_L2)
  | ac => (AtomicSimpleCPU,
           Some devices_L1I, Some devices_L1D, Some devices_L2)
  | o3 => (O3CPU, Some devices_L1I, Some devices_L1D, Some devices_L2)
  | timing => (O3_ARM_v7a_3,
               Some devices_L1I, Some devices_L1D, Some devices_L2)
  | ex5 => (ex5_big, Some ex5_big_L1I, Some ex5_big_L1D, Some ex5_big_L2)
  | ex5l => (ex5_LITTLE,
             Some ex5_LITTLE_L1I, Some ex5_LITTLE_L1D, Some ex5_LITTLE_L2)
  | pk => (O3_ARM_PostK_3, Some O3_ARM_PostK_ICache,
           Some O3_ARM_PostK_DCache, Some O3_ARM_PostK_L2)
  end.

Definition cpu_name_eqb (a b : cpu_name) : bool :=
  match a, b with
  | atomic, atomic | minor, minor | hpi, hpi | ac, ac | o3, o3
  | timing, timing | ex5, ex5 | ex5l, ex5l | pk, pk => true
  | _, _ => false
  end.

(** [cpu_types[k] = v] *)
Definition setitem_cpu_types (t : cpu_name -> cpu_config) (k : cpu_name)
           (v : cpu_config) : cpu_name -> cpu_config :=
  fun n => if cpu_name_eqb n k then v else t n.

(** The world when the modules have been loaded and nothing is built. *)
Definition world0 : World :=
  mkWorld 0%nat [] [] [] 0 "" "" None cpu_types0 "48kB" "32kB" "1MB" []
          false.

(** [l[i].attr = v], written as the change [f] of the element. *)
Definition modify_item {A : Type} (l : list A) (i : Z) (f : A -> A)
  : outcome (list A) :=
  match getitem l i with
  | Raise e => Raise e
  | Ok a =>
      let j := if i <? 0 then i + Z.of_nat (List.length l) else i in
      Ok (firstn (Z.to_nat j) l ++ f a :: skipn (S (Z.to_nat j)) l)
  end.

(** A loop that carries the list it mutates. *)
Fixpoint foldM {A S : Type} (body : S -> A -> M S) (l : list A) (s : S)
  : M S :=
  match l with
  | [] => ret s
  | x :: l' => s' <- body s x ;; foldM body l' s'
  end.

(** [enumerate(l)] *)
Definition enumerate {A : Type} (l : list A) : list (Z * A) :=
  combine (range (Z.of_nat (List.length l))) l.

(** [for cpu, workload in zip(cpus, processes): cpu.workload = workload] *)
Fixpoint bind_workloads (cpus : list Cpu) (processes : list Process)
  : list Cpu :=
  match cpus, processes with
  | c :: cs, p :: ps => set_workload c p :: bind_workloads cs ps
  | _, _ => cpus
  end.

Module SimpleSeSystem.

Record t : Type := mk {
  self : ObjRef;
  voltage_domain : ObjRef;
  clk_domain : ObjRef;
  membus : ObjRef;
  cpu_cluster : CpuClusterRiscV.t;
  mem_mode : string;
  mem_ranges : list (Z * string);
  se_workload : option ObjRef
}.

Definition set_cpu_cluster (s : t) (c : CpuClusterRiscV.t) : t :=
  mk (self s) (voltage_domain s) (clk_domain s) (membus s) c
     (mem_mode s) (mem_ranges s) (se_workload s).

Definition set_mem_ranges (s : t) (r : list (Z * string)) : t :=
  mk (self s) (voltage_domain s) (clk_domain s) (membus s) (cpu_cluster s)
     (mem_mode s) r (se_workload s).

Definition set_se_workload (s : t) (wl : ObjRef) : t :=
  mk (self s) (voltage_domain s) (clk_domain s) (membus s) (cpu_cluster s)
     (mem_mode s) (mem_ranges s) (Some wl).

(** [for i in range(n): cluster.cpus[i].attr = v], where [v] may be a
    fresh object. *)
Definition for_cpus (c : CpuClusterRiscV.t) (n : Z)
           (change : M (Cpu -> Cpu)) : M CpuClusterRiscV.t :=
  cs <- foldM (fun cs i => f <- change ;; lift (modify_item cs i f))
              (range n) (CpuClusterRiscV.cpus c) ;;
  ret (CpuClusterRiscV.set_cpus c cs).

(** The class [devices.CpuCluster] that the script names is defined by
    the devices module next to it; the cluster class of these sources is
    [CpuClusterRiscV], with the same constructor arguments. *)
Definition __init__ {G : Gem5} (args : Args) : M t :=
  self <- new K_SimpleSeSystem ;;
  (fun w => (Ok tt, set_registry w [] 0)) ;;;
  vd <- new (K_VoltageDomain "3.3V") ;;
  cd <- new (K_SrcClockDomain "1GHz" vd) ;;
  membus <- new K_SystemXBar ;;
  connect (self, system_port) (membus, cpu_side_ports) ;;;
  entry <- (fun w => (Ok (cpu_types w (cpu args)), w)) ;;
  c <- CpuClusterRiscV.__init__ (num_cores args) (cpu_freq args) "1.2V"
                                (entry_0 entry) (entry_1 entry)
                                (entry_2 entry) (entry_3 entry) ;;
  c <- (if (CpuClusterRiscV.memoryMode c =? "timing")%string then
          c <- CpuClusterRiscV.addL1 c ;;
          CpuClusterRiscV.addL2 c (CpuClusterRiscV.clk_domain c)
        else if cpu_name_eqb (cpu args) ac then
          c <- CpuClusterRiscV.addL1 c ;;
          c <- CpuClusterRiscV.addL2 c (CpuClusterRiscV.clk_domain c) ;;
          for_cpus c (num_cores args)
                   (bp <- new (K_BranchPred O3_ARM_v7a_BP) ;;
                    ret (set_branchPred bp))
        else ret c) ;;
  CpuClusterRiscV.connectMemSide c membus ;;;
  c <- (if negb (maxinsts args =? 0) then
          for_cpus c (num_cores args)
                   (ret (set_max_insts_all_threads (maxinsts args)))
        else ret c) ;;
  c <- (if simpoint_profile args then
          for_cpus c (num_cores args)
                   (ret (fun cpu =>
                           addSimPointProbe cpu (simpoint_interval args)))
        else ret c) ;;
  ret (mk self vd cd membus c (CpuClusterRiscV.memoryMode c) [] None).

End SimpleSeSystem.

Section StarterSe.

Context {G : Gem5}.

Definition get_processes (cmds : list string) : M (list Process) :=
  mapM (fun ic =>
          let idx := fst ic in
          argv <- lift (shlex_split (snd ic)) ;;
          exe <- lift (getitem argv 0) ;;
          r <- new (K_Process (100 + idx)) ;;
          let process := mkProcess r (100 + idx) os_getcwd argv exe
                                   os_getgid in
          print (info_command (idx + 1) (cmd process)) ;;;
          ret process)
       (enumerate cmds).

(** The cache-size overrides at the head of [create]. *)
Definition apply_overrides (args : Args) : M unit :=
  (if negb (l1d_size args =? "")%string then
     fun w => (Ok tt, set_sizes w (L1I_size w) (l1d_size args) (L2_size w))
   else ret tt) ;;;
  (if negb (l1i_size args =? "")%string then
     fun w => (Ok tt, set_sizes w (l1i_size args) (L1D_size w) (L2_size w))
   else ret tt) ;;;
  (if negb (l2_size args =? "")%string then
     if (l2_size args =? "0")%string then
       fun w =>
         let entry := cpu_types w (cpu args) in
         (Ok tt,
          set_cpu_types w
            (setitem_cpu_types (cpu_types w) (cpu args)
               (entry_0 entry, entry_1 entry, entry_2 entry, None)))
     else
       fun w =>
         (Ok tt, set_sizes w (L1I_size w) (L1D_size w) (l2_size args))
   else ret tt).

(** Modelled from the spec: SEWorkload.init_compatible is not among the
    sources; the spec treats workload loading as glue: the model constructs
    one workload object for the executable. *)
Definition init_compatible (path : string) : M ObjRef := new K_SEWorkload.

(** Modelled from the spec: MemConfig.config_mem is not among the sources;
    the spec keeps the memory controllers out of scope: in the model the
    call returns and leaves cores, caches and bookkeeping as they are. *)
Definition config_mem (args : Args) (system : SimpleSeSystem.t) : M unit :=
  ret tt.

(** Modelled from the spec: [system.connect()] is a method the sources do
    not define; like [config_mem] it returns and leaves the clusters as
    they are. *)
Definition system_connect (system : SimpleSeSystem.t) : M unit := ret tt.

(** The tail of [create]: parse the commands, check their number against
    the number of cores, and assign one workload to each CPU. *)
Definition assign_workloads (args : Args) (system : SimpleSeSystem.t)
  : M SimpleSeSystem.t :=
  processes <- get_processes (commands_to_run args) ;;
  (if negb (Z.of_nat (List.length processes) =? num_cores args) then
     print (error_cannot_map (Z.of_nat (List.length processes))
                             (num_cores args)) ;;;
     raise (SystemExit 1)
   else ret tt) ;;;
  p0 <- lift (getitem processes 0) ;;
  wl <- init_compatible (executable p0) ;;
  let system := SimpleSeSystem.set_se_workload system wl in
  (* Assign one workload to each CPU *)
  let c := SimpleSeSystem.cpu_cluster system in
  ret (SimpleSeSystem.set_cpu_cluster system
         (CpuClusterRiscV.set_cpus c
            (bind_workloads (CpuClusterRiscV.cpus c) processes))).

(** [create] from the construction of the system on; [branchPred] is the
    class [generate_configs] returned when it ran. *)
Definition assemble (args : Args) (branchPred : option BranchPredClass)
  : M SimpleSeSystem.t :=
  system <- SimpleSeSystem.__init__ args ;;
  system <- match branchPred with
            | Some cls =>
                if 0 <? random args then
                  c <- SimpleSeSystem.for_cpus
                         (SimpleSeSystem.cpu_cluster system)
                         (num_cores args)
                         (bp <- new (K_BranchPred cls) ;;
                          ret (set_branchPred bp)) ;;
                  ret (SimpleSeSystem.set_cpu_cluster system c)
                else ret system
            | None => ret system
            end ;;
  let system := SimpleSeSystem.set_mem_ranges system
                                              [(0, mem_size args)] in
  (* Configure the off-chip memory system. *)
  config_mem args system ;;;
  (* Wire up the system's memory system *)
  system_connect system ;;;
  assign_workloads args system.

Definition create (args : Args) : M SimpleSeSystem.t :=
  apply_overrides args ;;;
  if 0 <? random args then
    let '(args', branchPred) := generate_configs args (random args - 1) in
    assemble args' (Some branchPred)
  else
    assemble args None.

(** [main] after argument parsing and up to the hand-over to the kernel:
    [m5.instantiate] runs only when [create] has returned. *)
Definition main (args : Args) : M SimpleSeSystem.t :=
  root <- new K_Root ;;
  system <- create args ;;
  instantiate ;;;
  ret system.

End StarterSe.

(** ** Vocabulary of the statements *)

(** Registered clusters are objects the allocator has already handed out. *)
Definition wf_world (w : World) : Prop :=
  Forall (fun r => (r < next_ref w)%nat) (_clusters w).

(** The objects constructed, and the ports bound, between two worlds. *)
Definition constructed_during (w w' : World) : list (ObjRef * ObjKind) :=
  skipn (List.length (objects w)) (objects w').

Definition bound_during (w w' : World) : list (Port * Port) :=
  skipn (List.length (bindings w)) (bindings w').

(** Core objects: native CPUs, external models and their cores. *)
Definition is_core_object (o : ObjRef * ObjKind) : bool :=
  match snd o with
  | K_Cpu _ | K_FastModel _ | K_FastModelCore => true
  | _ => false
  end.

Definition option_list {A : Type} (o : option A) : list A :=
  match o with
  | Some a => [a]
  | None => []
  end.

(** The L1 caches attached to a list of cores, core by core. *)
Definition l1_caches (cpus : list Cpu) : list Cache :=
  flat_map (fun c => option_list (icache c) ++ option_list (dcache c)) cpus.

(** A request for one standard cluster, and a run of such requests on one
    system. *)
Record ClusterRequest : Type := mkRequest {
  req_num_cpus : Z;
  req_cpu_clock : string;
  req_cpu_voltage : string;
  req_cpu_type : CpuClass;
  req_l1i_type : option CacheClass;
  req_l1d_type : option CacheClass;
  req_l2_type : option CacheClass
}.

Definition construct (r : ClusterRequest) : M CpuClusterRiscV.t :=
  CpuClusterRiscV.__init__ (req_num_cpus r) (req_cpu_clock r)
                           (req_cpu_voltage r) (req_cpu_type r)
                           (req_l1i_type r) (req_l1d_type r) (req_l2_type r).

Definition construct_all (rs : list ClusterRequest)
  : M (list CpuClusterRiscV.t) :=
  mapM construct rs.

(** Identifiers as the spec allots them: each cluster takes, in order, the
    next [k] identifiers after those already given out. *)
Fixpoint id_blocks (first : Z) (sizes : list Z) : list (list Z) :=
  match sizes with
  | [] => []
  | k :: ks => map (fun i => first + i) (range k) :: id_blocks (first + k) ks
  end.

Definition total_cores (sizes : list Z) : Z := fold_right Z.add 0 sizes.

(** The arguments [create] works with once the configuration generator has
    had its say. *)
Definition effective_args {G : Gem5} (args : Args) : Args :=
  if 0 <? random args
  then fst (generate_configs args (random args - 1))
  else args.


(** The table [cpu_types] in which [k] never had an L2 class. *)
Definition without_l2 (t : cpu_name -> cpu_config) (k : cpu_name)
  : cpu_name -> cpu_config :=
  setitem_cpu_types t k (entry_0 (t k), entry_1 (t k), entry_2 (t k), None).

Definition cache_object (k : Cache) : ObjRef * ObjKind :=
  (cache_ref k, K_Cache (cache_class k)).

Definition l1_attached (ti td : option CacheClass) (cpu cpu' : Cpu) : Prop :=
  cpu' = addPrivateSplitL1Caches cpu (icache cpu') (dcache cpu')
  /\ option_map cache_class (icache cpu') = ti
  /\ option_map cache_class (dcache cpu') = td.

(** The cores the first loop of the constructor builds, from the next free
    reference [r] and the system's core count [n]. *)
Fixpoint fresh_cpus (cls : CpuClass) (cd : ObjRef) (r : ObjRef) (n : Z)
         (idxs : list Z) : list Cpu :=
  match idxs with
  | [] => []
  | idx :: rest =>
      new_cpu r cls (n + idx) cd :: fresh_cpus cls cd (S r) n rest
  end.

Definition init_core (socket : Z) (cpu : Cpu) : Cpu :=
  set_socket_id (createInterruptController (createThreads cpu)) socket.

(** What a successful construction leaves behind. *)
Record constructed (n : Z) (cls : CpuClass)
       (ti td t2 : option CacheClass) (w : World)
       (c : CpuClusterRiscV.t) (w' : World) : Prop := {
  cons_self : CpuClusterRiscV.self c = next_ref w;
  cons_cpu_type : CpuClusterRiscV._cpu_type c = cls;
  cons_l1i_type : CpuClusterRiscV._l1i_type c = ti;
  cons_l1d_type : CpuClusterRiscV._l1d_type c = td;
  cons_l2_type : CpuClusterRiscV._l2_type c = t2;
  cons_l2 : CpuClusterRiscV.l2 c = None;
  cons_toL2Bus : CpuClusterRiscV.toL2Bus c = None;
  cons_ids : map cpu_id (CpuClusterRiscV.cpus c)
             = map (fun i => _num_cpus w + i) (range n);
  cons_length : Z.of_nat (List.length (CpuClusterRiscV.cpus c)) = n;
  cons_cores : filter is_core_object (constructed_during w w')
               = map (fun cpu => (cpu_ref cpu, K_Cpu cls))
                     (CpuClusterRiscV.cpus c);
  cons_clusters : _clusters w' = _clusters w ++ [next_ref w];
  cons_num_cpus : _num_cpus w' = _num_cpus w + n;
  cons_next_ref : (next_ref w < next_ref w')%nat;
  cons_bindings : bindings w' = bindings w
}.

(** A computation leaves a component of the world alone. *)
Definition preserves {X A : Type} (f : World -> X) (m : M A) : Prop :=
  forall w, f (snd (m w)) = f w.

(** Two clusters have the same cores, by identifier, and the same L2 type;
    where that type is absent they also agree on the L2 and its crossbar. *)
Definition same_shape (c c' : CpuClusterRiscV.t) : Prop :=
  map cpu_id (CpuClusterRiscV.cpus c') = map cpu_id (CpuClusterRiscV.cpus c)
  /\ CpuClusterRiscV._l2_type c' = CpuClusterRiscV._l2_type c
  /\ (CpuClusterRiscV._l2_type c = None ->
      CpuClusterRiscV.l2 c' = CpuClusterRiscV.l2 c
      /\ CpuClusterRiscV.toL2Bus c' = CpuClusterRiscV.toL2Bus c).

(** Every command splits into a program and its arguments. *)
Definition commands_parse {G : Gem5} (cmds : list string) : Prop :=
  Forall (fun c => exists exe argv, shlex_split c = Ok (exe :: argv)) cmds.

(** A change of attribute that always goes through and keeps the core's
    identifier. *)
Definition harmless (change : M (Cpu -> Cpu)) : Prop :=
  forall w, exists f w',
    change w = (Ok f, w') /\ forall cpu, cpu_id (f cpu) = cpu_id cpu.


(** ** Sample inputs *)

Definition two_cores : ClusterRequest :=
  mkRequest 2 "2GHz" "1.2V" MinorCPU
            (Some devices_L1I) (Some devices_L1D) (Some devices_L2).

(** A platform whose interrupt controller has one redistributor region. *)
Definition gicv4_1 : FastmodelCluster.Gic :=
  FastmodelCluster.mkGic 1%nat [0x2f100000] true
                         [(0x2f000000, 0x2f200000)] 2%nat.

Definition realview0 : FastmodelCluster.System :=
  FastmodelCluster.mkSystem gicv4_1 3%nat 4%nat.

(** The world in which that platform exists and nothing else. *)
Definition world_fs : World :=
  mkWorld 5%nat [] [] [] 0 "" "" None cpu_types0 "48kB" "32kB" "1MB" []
          false.

(** A word-splitter without quoting, and the defaults of a gem5 build for
    Arm. *)
Fixpoint split_words (s : string) (word : string) : list string :=
  match s with
  | EmptyString =>
      if (word =? "")%string then [] else [word]
  | String c rest =>
      if Ascii.eqb c " "%char then
        (if (word =? "")%string then [] else [word]) ++ split_words rest ""
      else split_words rest (word ++ String c "")
  end.

Definition sample_gem5 : Gem5 :=
  Build_Gem5
    (fun cls => match cls with
                | AtomicSimpleCPU => "atomic"
                | ArmV8KvmCPU => "atomic_noncaching"
                | _ => "timing"
                end%string)
    (fun cls => match cls with
                | AtomicSimpleCPU | ArmV8KvmCPU => false
                | _ => true
                end)
    (fun s => Ok (split_words s ""))
    "/work" 1000
    (fun args r => (args, generated_BP r)).

Definition sample_args (cmds : list string) (l2 : string) : Args :=
  mkArgs cmds minor "2GHz" 2 "2GB" "" "" l2 0 false 10000000 false None 0.

(** ** Vocabulary of the further properties *)

(** The registry of a system: no cluster twice, and at least one core for
    every cluster. *)
Definition registry_ok (w : World) : Prop :=
  NoDup (_clusters w)
  /\ Z.of_nat (List.length (_clusters w)) <= _num_cpus w.

(** A core as the cluster constructor leaves it: nothing is attached or
    assigned, so that reading [branchPred] finds the declaration of the
    class. *)
Definition fresh_core (cls : CpuClass) (clk : ObjRef) (socket : Z)
           (cpu : Cpu) : Prop :=
  cpu_class cpu = cls
  /\ cpu_clk_domain cpu = clk
  /\ threads_created cpu = true
  /\ interrupt_controller_created cpu = true
  /\ socket_id cpu = Some socket
  /\ icache cpu = None
  /\ dcache cpu = None
  /\ getattr_branchPred cpu = class_branchPred (declared_branchPred cls)
  /\ max_insts_all_threads cpu = None
  /\ simpoint_probe cpu = None
  /\ workload cpu = None.

(** An external core as the constructor configures it. *)
Definition configured_core (gic : FastmodelCluster.Gic)
           (core : FastmodelCluster.Core) : Prop :=
  FastmodelCluster.semihosting_enable core = false
  /\ FastmodelCluster.RVBARADDR core = 0x10
  /\ FastmodelCluster.core_redistributor core
     = FastmodelCluster.redistributor gic
  /\ FastmodelCluster.core_threads_created core = true
  /\ FastmodelCluster.core_interrupt_controller_created core = true.

(** ** Vocabulary of the cache hierarchy and of the registration *)


(** The crossbar and the L2 of a cluster, when it has them. *)
Definition l2_objects (c : CpuClusterRiscV.t) : list (ObjRef * ObjKind) :=
  match CpuClusterRiscV.toL2Bus c, CpuClusterRiscV.l2 c with
  | Some xbar, Some cache =>
      [(xbar, K_L2XBar 64 (CpuClusterRiscV.clk_domain c));
       cache_object cache]
  | _, _ => []
  end.




(** Modelled from the spec: the registration of a cluster with the system
    of a full platform is not among the sources; the spec has the owning
    system append the cluster to its list and add the cores to its
    tally. *)
Definition register_cluster (cluster : ObjRef) (num_cpus : Z) : M unit :=
  fun w => (Ok tt, set_registry w (_clusters w ++ [cluster])
                                (_num_cpus w + num_cpus)).

(** ** Vocabulary of the assembled system *)

(** The core [cpu] with the attributes the assembly of a system sets:
    the L1 caches, the branch predictor, the instruction limit and the
    SimPoint probe. *)
Definition with_attributes (cpu : Cpu) (ic dc : option Cache)
           (bp : option ObjRef) (mi sp : option Z) : Cpu :=
  mkCpu (cpu_ref cpu) (cpu_class cpu) (cpu_id cpu) (cpu_clk_domain cpu)
        (threads_created cpu) (interrupt_controller_created cpu)
        (socket_id cpu) ic dc bp mi sp (workload cpu).

(** [cpu'] is [cpu] with L1 caches of the classes [ti] and [td], the
    instruction limit [mi], the probe [sp] and some branch predictor or
    none; everything else is as in [cpu]. *)
Definition settled (ti td : option CacheClass) (mi sp : option Z)
           (cpu cpu' : Cpu) : Prop :=
  cpu' = with_attributes cpu (icache cpu') (dcache cpu') (branchPred cpu')
                         mi sp
  /\ option_map cache_class (icache cpu') = ti
  /\ option_map cache_class (dcache cpu') = td.

(** The branch predictors set on a list of cores, core by core. *)
Definition predictors (cpus : list Cpu) : list ObjRef :=
  flat_map (fun c => option_list (branchPred c)) cpus.

(** The two tests of [SimpleSeSystem.__init__] on the chosen CPU type:
    does the cluster get caches, and do its cores get the branch predictor
    of the ["ac"] configuration. *)
Definition builds_caches {G : Gem5} (w : World) (args : Args) : bool :=
  (memory_mode (entry_0 (cpu_types w (cpu args))) =? "timing")%string
  || cpu_name_eqb (cpu args) ac.

Definition sets_branchPred {G : Gem5} (w : World) (args : Args) : bool :=
  negb (memory_mode (entry_0 (cpu_types w (cpu args))) =? "timing")%string
  && cpu_name_eqb (cpu args) ac.

(** ** devices.py: CpuClusterRiscV.addPMUs *)

(** [ArmPPI(num=n)] and [ArmSPI(num=n)]. *)
Inductive ArmInterrupt : Type :=
| ArmPPI (num : Z)
| ArmSPI (num : Z).

(** gem5's ArmPMU is not among the sources, nor are the ISA objects and
    the translation buffers of a core.  They are taken as given: the
    constructor of the PMU, its two methods, each returning the PMU it
    was called on as the call leaves it, and the three attributes of a
    core. *)
Class PMUs : Type := {
  ArmPMU : Type;
  Event : Type;
  new_ArmPMU : ArmInterrupt -> ArmPMU;
  addArchEvents : ArmPMU -> Cpu -> ObjRef -> ObjRef -> option Cache ->
                  option Cache -> option Cache -> ArmPMU;
  addEvent : ArmPMU -> Event -> ArmPMU;
  isa : Cpu -> list ObjRef;
  mmu_itb : Cpu -> ObjRef;
  mmu_dtb : Cpu -> ObjRef
}.

(** [addPMUs(ints, events)]; the result lists the assignments
    [isa.pmu = ...] in the order they are made.  [getattr(cpu, 'icache',
    None)] is the optional attribute of the core, [getattr(self, 'l2',
    None)] that of the cluster. *)
Definition CpuClusterRiscV_addPMUs {P : PMUs} (c : CpuClusterRiscV.t)
           (ints : list Z) (events : list Event)
  : M (list (ObjRef * ArmPMU)) :=
  assert (Nat.eqb (List.length ints)
                  (List.length (CpuClusterRiscV.cpus c))) ;;;
  foldM (fun pmus cp =>
           let cpu := fst cp in
           let pint := snd cp in
           let int_cls := if pint <? 32 then ArmPPI else ArmSPI in
           foldM (fun pmus i =>
                    let pmu := new_ArmPMU (int_cls pint) in
                    let pmu := addArchEvents pmu cpu (mmu_itb cpu)
                                             (mmu_dtb cpu) (icache cpu)
                                             (dcache cpu)
                                             (CpuClusterRiscV.l2 c) in
                    let pmu := fold_left addEvent events pmu in
                    ret (pmus ++ [(i, pmu)]))
                 (isa cpu) pmus)
        (combine (CpuClusterRiscV.cpus c) ints) [].

(** The PMU an ISA of the core [cpu] ends up with, for the interrupt
    number [pint]: a private peripheral interrupt below 32, a shared one
    from 32 on. *)
Definition pmu_for {P : PMUs} (c : CpuClusterRiscV.t) (events : list Event)
           (cpu : Cpu) (pint : Z) : ArmPMU :=
  fold_left addEvent events
            (addArchEvents
               (new_ArmPMU (if pint <? 32 then ArmPPI pint else ArmSPI pint))
               cpu (mmu_itb cpu) (mmu_dtb cpu) (icache cpu) (dcache cpu)
               (CpuClusterRiscV.l2 c)).

(** * Proofs *)

(** ** The monad *)

Lemma bind_Ok {A B : Type} (m : M A) (k : A -> M B) w a w1 :
  m w = (Ok a, w1) -> bind m k w = k a w1.
Proof. intros E. unfold bind. now rewrite E. Qed.

Lemma bind_Raise {A B : Type} (m : M A) (k : A -> M B) w e w1 :
  m w = (Raise e, w1) -> bind m k w = (Raise e, w1).
Proof. intros E. unfold bind. now rewrite E. Qed.

Lemma bind_Ok_inv {A B : Type} (m : M A) (k : A -> M B) w b w2 :
  bind m k w = (Ok b, w2) ->
  exists a w1, m w = (Ok a, w1) /\ k a w1 = (Ok b, w2).
Proof.
  unfold bind. destruct (m w) as [[a|e] w1]; intros E.
  - now exists a, w1.
  - discriminate.
Qed.

(** Read a component of a world written as a stack of assignments. *)
Ltac world_simpl :=
  cbn [next_ref objects bindings _clusters _num_cpus cpu_affinities
       reg_base_per_redistributor gic_hub cpu_types L1I_size L1D_size L2_size
       stdout instantiated set_heap set_bindings set_registry
       set_cpu_affinities set_reg_base_per_redistributor set_gic_hub
       set_cpu_types set_sizes set_stdout set_instantiated].

(** Run the first statement of a block, when it returns and when it
    raises; the world is kept in normal form, one record of components. *)
Ltac step := erewrite bind_Ok; [|reflexivity]; cbv beta; world_simpl.
Ltac step_raise := erewrite bind_Raise; [|reflexivity]; world_simpl.

Lemma world_eta w :
  mkWorld (next_ref w) (objects w) (bindings w) (_clusters w) (_num_cpus w)
          (cpu_affinities w) (reg_base_per_redistributor w) (gic_hub w)
          (cpu_types w) (L1I_size w) (L1D_size w) (L2_size w)
          (stdout w) (instantiated w) = w.
Proof. now destruct w. Qed.

Lemma skipn_length_app {A : Type} (l d : list A) :
  skipn (List.length l) (l ++ d) = d.
Proof. induction l; simpl; auto. Qed.

Lemma range_length n : 0 <= n -> Z.of_nat (List.length (range n)) = n.
Proof. intros H. unfold range. rewrite length_map, length_seq. lia. Qed.

Lemma range_nonpos n : n <= 0 -> range n = [].
Proof.
  intros H. unfold range. replace (Z.to_nat n) with 0%nat by lia. reflexivity.
Qed.

(** ** Wiring a list of cores to one port *)

Lemma for_each_connectCachedPorts (p : Port) (cpus : list Cpu) (w : World) :
  for_each cpus (fun cpu => connectCachedPorts cpu p) w
  = (Ok tt,
     set_bindings w
       (bindings w ++ map (fun cpu => ((cpu_ref cpu, cached_ports), p)) cpus)).
Proof.
  revert w. induction cpus as [|c cs IH]; intros w; simpl.
  - unfold ret, set_bindings. rewrite app_nil_r. now rewrite world_eta.
  - unfold bind, connectCachedPorts, connect. rewrite IH.
    unfold set_bindings; simpl. now rewrite <- app_assoc.
Qed.

(** C2. [connectMemSide(bus)] always returns, constructs nothing, and binds
    to the bus exactly one port when the cluster has an L2 (the L2's
    [mem_side]), and otherwise exactly one port group per core, in core
    order: as many bindings as the cluster has cores. *)
Theorem connectMemSide_upstream_ports
        (c : CpuClusterRiscV.t) (bus : ObjRef) (w : World) :
  exists w',
    CpuClusterRiscV.connectMemSide c bus w = (Ok tt, w')
    /\ constructed_during w w' = []
    /\ match CpuClusterRiscV.l2 c with
       | Some cache =>
           bound_during w w'
           = [((cache_ref cache, mem_side), (bus, cpu_side_ports))]
       | None =>
           bound_during w w'
           = map (fun cpu => ((cpu_ref cpu, cached_ports),
                              (bus, cpu_side_ports)))
                 (CpuClusterRiscV.cpus c)
           /\ List.length (bound_during w w')
              = List.length (CpuClusterRiscV.cpus c)
       end.
Proof.
  unfold CpuClusterRiscV.connectMemSide, try_except_AttributeError,
    CpuClusterRiscV.getattr_l2, constructed_during, bound_during.
  destruct (CpuClusterRiscV.l2 c) as [cache|].
  - eexists. split; [reflexivity|]. simpl. split.
    + rewrite <- (app_nil_r (objects w)) at 2. apply skipn_length_app.
    + apply skipn_length_app.
  - unfold bind, raise. rewrite for_each_connectCachedPorts.
    eexists. split; [reflexivity|]. simpl. split.
    + rewrite <- (app_nil_r (objects w)) at 2. apply skipn_length_app.
    + rewrite skipn_length_app. split; [reflexivity|apply length_map].
Qed.

(** C5. With an L2 type configured, [addL2(clk_domain)] constructs exactly
    two objects, one crossbar and one L2 instance of the configured class,
    binds every core's cached ports to the crossbar's [cpu_side_ports] and
    then the crossbar's [mem_side_ports] to the L2's [cpu_side], and records
    both in the cluster.  With no L2 type configured it returns the cluster
    and the world as they were. *)
Theorem addL2_one_shared_instance
        (c : CpuClusterRiscV.t) (clk_domain : ObjRef) (w : World) :
  match CpuClusterRiscV._l2_type c with
  | Some cls =>
      let bus := next_ref w in
      let cache := mkCache (S (next_ref w)) cls in
      exists w',
        CpuClusterRiscV.addL2 c clk_domain w
        = (Ok (CpuClusterRiscV.set_l2 c bus cache), w')
        /\ constructed_during w w'
           = [(bus, K_L2XBar 64 clk_domain); (cache_ref cache, K_Cache cls)]
        /\ bound_during w w'
           = map (fun cpu => ((cpu_ref cpu, cached_ports),
                              (bus, cpu_side_ports)))
                 (CpuClusterRiscV.cpus c)
             ++ [((bus, mem_side_ports), (cache_ref cache, cpu_side))]
  | None =>
      CpuClusterRiscV.addL2 c clk_domain w = (Ok c, w)
  end.
Proof.
  unfold CpuClusterRiscV.addL2.
  destruct (CpuClusterRiscV._l2_type c) as [cls|]; [|reflexivity].
  unfold bind at 1. unfold new at 1. unfold bind at 1. unfold new at 1.
  unfold bind at 1. rewrite for_each_connectCachedPorts.
  unfold bind, connect, ret, constructed_during, bound_during.
  eexists. split; [reflexivity|]. simpl. split.
  - rewrite <- app_assoc. apply skipn_length_app.
  - rewrite <- app_assoc. apply skipn_length_app.
Qed.

(** ** Private L1 caches *)

Lemma construct_cache_spec (t : option CacheClass) (w : World) :
  exists k w',
    construct_cache t w = (Ok k, w')
    /\ option_map cache_class k = t
    /\ map cache_ref (option_list k)
       = seq (next_ref w) (List.length (option_list k))
    /\ next_ref w' = (next_ref w + List.length (option_list k))%nat
    /\ objects w' = objects w ++ map cache_object (option_list k)
    /\ bindings w' = bindings w.
Proof.
  destruct t as [cls|]; simpl.
  - unfold bind, new, ret. eexists _, _. split; [reflexivity|]. simpl.
    repeat split; auto. lia.
  - unfold ret. eexists _, _. split; [reflexivity|]. simpl.
    repeat split; auto using app_nil_r; try lia; now rewrite app_nil_r.
Qed.

Lemma addL1_loop (ti td : option CacheClass) (cpus : list Cpu) (w : World) :
  exists cpus' w',
    mapM (fun cpu =>
            l1i <- construct_cache ti ;;
            l1d <- construct_cache td ;;
            ret (addPrivateSplitL1Caches cpu l1i l1d)) cpus w
    = (Ok cpus', w')
    /\ Forall2 (l1_attached ti td) cpus cpus'
    /\ map cache_ref (l1_caches cpus')
       = seq (next_ref w) (List.length (l1_caches cpus'))
    /\ next_ref w' = (next_ref w + List.length (l1_caches cpus'))%nat
    /\ objects w' = objects w ++ map cache_object (l1_caches cpus')
    /\ bindings w' = bindings w.
Proof.
  revert w. induction cpus as [|cpu cs IH]; intros w.
  - exists [], w. simpl. repeat split; auto using app_nil_r; try lia;
      now rewrite app_nil_r.
  - cbn [mapM].
    destruct (construct_cache_spec ti w) as (ic & w1 & E1 & C1 & R1 & N1 & O1 & B1).
    destruct (construct_cache_spec td w1) as (dc & w2 & E2 & C2 & R2 & N2 & O2 & B2).
    destruct (IH w2) as (cs' & w3 & E3 & F3 & R3 & N3 & O3 & B3).
    rewrite (bind_Ok _ _ _ _ _
               (eq_trans (bind_Ok _ _ _ _ _ E1) (bind_Ok _ _ _ _ _ E2))).
    rewrite (bind_Ok _ _ _ _ _ E3).
    eexists _, w3. split; [reflexivity|].
    split; [constructor; [now repeat split|exact F3]|].
    cbn [l1_caches flat_map icache dcache addPrivateSplitL1Caches].
    fold (l1_caches cs').
    repeat split.
    + rewrite !map_app, !length_app, !seq_app, R1, R2, R3, N2, N1.
      now rewrite Nat.add_assoc.
    + rewrite N3, N2, N1, !length_app. lia.
    + rewrite O3, O2, O1, !map_app, <- !app_assoc. reflexivity.
    + congruence.
Qed.

(** ** Construction of a standard cluster *)

Lemma fresh_cpus_ids cls cd r n idxs :
  map cpu_id (fresh_cpus cls cd r n idxs) = map (fun i => n + i) idxs.
Proof.
  revert r. induction idxs as [|i rest IH]; intros r; simpl; [easy|].
  now rewrite IH.
Qed.

Lemma fresh_cpus_refs cls cd r n idxs :
  map cpu_ref (fresh_cpus cls cd r n idxs) = seq r (List.length idxs).
Proof.
  revert r. induction idxs as [|i rest IH]; intros r; simpl; [easy|].
  now rewrite IH.
Qed.

Lemma filter_cpu_objects cls (l : list ObjRef) :
  filter is_core_object (map (fun x => (x, K_Cpu cls)) l)
  = map (fun x => (x, K_Cpu cls)) l.
Proof. induction l as [|x l IH]; simpl; [easy|]. now rewrite IH. Qed.

Lemma init_cpus_loop cls cd idxs w :
  mapM (fun idx =>
          n <- numCpus ;;
          r <- new (K_Cpu cls) ;;
          ret (new_cpu r cls (n + idx) cd)) idxs w
  = (Ok (fresh_cpus cls cd (next_ref w) (_num_cpus w) idxs),
     set_heap w (List.length idxs + next_ref w)%nat
              (objects w
               ++ map (fun x => (x, K_Cpu cls))
                      (seq (next_ref w) (List.length idxs)))).
Proof.
  revert w. induction idxs as [|i rest IH]; intros w.
  - simpl. unfold ret, set_heap. now rewrite app_nil_r, world_eta.
  - cbn [mapM]. erewrite bind_Ok; [|reflexivity].
    erewrite bind_Ok; [|apply IH]. unfold ret, set_heap. simpl.
    now rewrite Nat.add_succ_r, <- app_assoc.
Qed.

Lemma init_socket_loop cpus w :
  mapM (fun cpu =>
          let cpu := createThreads cpu in
          let cpu := createInterruptController cpu in
          s <- numCpuClusters ;;
          ret (set_socket_id cpu s)) cpus w
  = (Ok (map (init_core (Z.of_nat (List.length (_clusters w)))) cpus), w).
Proof.
  induction cpus as [|c cs IH]; [reflexivity|].
  cbn [mapM]. erewrite bind_Ok; [|reflexivity].
  erewrite bind_Ok; [|apply IH]. reflexivity.
Qed.

Lemma wf_world_fresh w :
  wf_world w -> existsb (Nat.eqb (next_ref w)) (_clusters w) = false.
Proof.
  unfold wf_world. induction 1 as [|r rs Hr _ IH]; simpl; [easy|].
  rewrite IH, orb_false_r. apply Nat.eqb_neq. lia.
Qed.

Lemma init_spec n clock voltage cls ti td t2 w :
  0 < n ->
  existsb (Nat.eqb (next_ref w)) (_clusters w) = false ->
  exists c w',
    CpuClusterRiscV.__init__ n clock voltage cls ti td t2 w = (Ok c, w')
    /\ constructed n cls ti td t2 w c w'.
Proof.
  intros Hn Hfresh. unfold CpuClusterRiscV.__init__.
  unfold bind at 1. unfold new at 1. unfold bind at 1.
  replace (0 <? n) with true by (symmetry; now apply Z.ltb_lt).
  unfold assert at 1. unfold ret at 1.
  unfold bind at 1. unfold new at 1. unfold bind at 1. unfold new at 1.
  unfold bind at 1. rewrite init_cpus_loop.
  unfold bind at 1. rewrite init_socket_loop.
  unfold bind at 1. unfold addCpuCluster.
  unfold bind at 1. unfold bind at 1. cbn [_clusters set_heap next_ref].
  rewrite Hfresh. cbn [negb assert]. unfold ret at 1.
  unfold bind at 1. replace (0 <? n) with true by (symmetry; now apply Z.ltb_lt).
  cbn [assert]. unfold ret.
  eexists _, _. split; [reflexivity|].
  assert (Hlen : Z.of_nat (List.length (range n)) = n)
    by (apply range_length; lia).
  constructor; cbn [CpuClusterRiscV.self CpuClusterRiscV._cpu_type
    CpuClusterRiscV._l1i_type CpuClusterRiscV._l1d_type
    CpuClusterRiscV._l2_type CpuClusterRiscV.l2 CpuClusterRiscV.toL2Bus
    CpuClusterRiscV.cpus set_registry set_heap _clusters _num_cpus next_ref
    bindings objects]; auto.
  - rewrite map_map. cbn [init_core set_socket_id cpu_id createThreads
      createInterruptController]. simpl. apply fresh_cpus_ids.
  - rewrite length_map.
    rewrite <- (length_map cpu_id), fresh_cpus_ids, length_map. exact Hlen.
  - unfold constructed_during. cbn [objects set_registry set_heap].
    rewrite <- !app_assoc, skipn_length_app.
    cbn [app filter is_core_object snd].
    rewrite filter_cpu_objects.
    rewrite <- (fresh_cpus_refs cls (S (S (next_ref w))) _ (_num_cpus w)).
    now rewrite !map_map.
  - lia.
Qed.

Lemma init_rejects n clock voltage cls ti td t2 w :
  n <= 0 ->
  CpuClusterRiscV.__init__ n clock voltage cls ti td t2 w
  = (Raise AssertionError,
     set_heap w (S (next_ref w))
              (objects w ++ [(next_ref w, K_CpuClusterRiscV)])).
Proof.
  intros Hn. unfold CpuClusterRiscV.__init__.
  unfold bind at 1. unfold new at 1. unfold bind at 1.
  replace (0 <? n) with false by (symmetry; apply Z.ltb_ge; lia).
  reflexivity.
Qed.

(** C9. On a system whose registered clusters are objects already
    allocated, constructing a standard cluster with a core count of zero or
    less raises AssertionError with only the cluster object itself
    constructed: no core exists and the system has registered nothing.
    With a core count above zero the construction returns a cluster of
    exactly that many cores, and these are the core objects constructed. *)
Theorem CpuClusterRiscV_core_count_validated
        (w : World) (Hwf : wf_world w)
        (num_cpus : Z) (cpu_clock cpu_voltage : string) (cpu_type : CpuClass)
        (l1i_type l1d_type l2_type : option CacheClass) :
  (num_cpus <= 0 ->
   exists w',
     CpuClusterRiscV.__init__ num_cpus cpu_clock cpu_voltage cpu_type
                              l1i_type l1d_type l2_type w
     = (Raise AssertionError, w')
     /\ constructed_during w w' = [(next_ref w, K_CpuClusterRiscV)]
     /\ _clusters w' = _clusters w
     /\ _num_cpus w' = _num_cpus w)
  /\ (0 < num_cpus ->
      exists c w',
        CpuClusterRiscV.__init__ num_cpus cpu_clock cpu_voltage cpu_type
                                 l1i_type l1d_type l2_type w
        = (Ok c, w')
        /\ Z.of_nat (List.length (CpuClusterRiscV.cpus c)) = num_cpus
        /\ filter is_core_object (constructed_during w w')
           = map (fun cpu => (cpu_ref cpu, K_Cpu cpu_type))
                 (CpuClusterRiscV.cpus c)).
Proof.
  split; intros Hn.
  - rewrite init_rejects by exact Hn. eexists. split; [reflexivity|].
    unfold constructed_during. cbn [set_heap objects _clusters _num_cpus].
    now rewrite skipn_length_app.
  - destruct (init_spec num_cpus cpu_clock cpu_voltage cpu_type
                        l1i_type l1d_type l2_type w Hn
                        (wf_world_fresh w Hwf)) as (c & w' & E & C).
    exists c, w'. split; [exact E|]. split; [apply C|apply C].
Qed.

(** ** Global core identifiers *)

Lemma constructed_wf n cls ti td t2 w c w' :
  wf_world w -> constructed n cls ti td t2 w c w' -> wf_world w'.
Proof.
  unfold wf_world. intros Hwf C. rewrite (cons_clusters _ _ _ _ _ _ _ _ C).
  pose proof (cons_next_ref _ _ _ _ _ _ _ _ C) as Hlt.
  apply Forall_app. split.
  - eapply Forall_impl; [|exact Hwf]. simpl. intros. lia.
  - constructor; [exact Hlt|constructor].
Qed.

Lemma map_of_nat_seq s n :
  map Z.of_nat (seq s n)
  = map (fun i => Z.of_nat s + i) (map Z.of_nat (seq 0 n)).
Proof.
  revert s. induction n as [|n IH]; intros s; [reflexivity|].
  cbn [seq map]. rewrite (IH (S s)), (IH 1%nat), !map_map. f_equal; [lia|].
  apply map_ext. intros. lia.
Qed.

Lemma range_app a b :
  0 <= a -> 0 <= b ->
  range (a + b) = range a ++ map (fun i => a + i) (range b).
Proof.
  intros Ha Hb. unfold range.
  rewrite Z2Nat.inj_add, seq_app, map_app by assumption. f_equal.
  cbn [Nat.add]. rewrite map_of_nat_seq. apply map_ext. intros. lia.
Qed.

Lemma id_blocks_concat first sizes :
  Forall (fun k => 0 <= k) sizes ->
  List.concat (id_blocks first sizes)
  = map (fun i => first + i) (range (total_cores sizes)).
Proof.
  intros H. revert first.
  induction H as [|k ks Hk Hks IH]; intros first; [reflexivity|].
  assert (Ht : 0 <= total_cores ks).
  { clear -Hks. induction Hks; simpl; lia. }
  cbn [id_blocks List.concat total_cores fold_right]. fold (total_cores ks).
  rewrite IH, range_app, map_app, map_map by assumption. f_equal.
  apply map_ext. intros. lia.
Qed.

Lemma NoDup_consecutive first n : NoDup (map (fun i => first + i) (range n)).
Proof.
  unfold range. rewrite map_map.
  apply Finite.Injective_map_NoDup; [|apply seq_NoDup].
  intros x y. lia.
Qed.

(** C1. On a system whose registered clusters are objects already
    allocated, every run of cluster constructions with core counts of at
    least one succeeds; the cores of each cluster carry, in order, the
    system's core count before that construction plus their index
    ([id_blocks]), each construction raises the count by the cluster's size,
    and so the identifiers handed out over the whole run are the
    consecutive numbers from the initial count on, without repetition. *)
Theorem global_core_ids_consecutive
        (w : World) (Hwf : wf_world w) (rs : list ClusterRequest)
        (Hpos : Forall (fun r => 1 <= req_num_cpus r) rs) :
  exists cs w',
    construct_all rs w = (Ok cs, w')
    /\ map (fun c => map cpu_id (CpuClusterRiscV.cpus c)) cs
       = id_blocks (_num_cpus w) (map req_num_cpus rs)
    /\ List.concat (map (fun c => map cpu_id (CpuClusterRiscV.cpus c)) cs)
       = map (fun i => _num_cpus w + i)
             (range (total_cores (map req_num_cpus rs)))
    /\ NoDup (List.concat (map (fun c => map cpu_id (CpuClusterRiscV.cpus c)) cs))
    /\ _num_cpus w' = _num_cpus w + total_cores (map req_num_cpus rs)
    /\ wf_world w'.
Proof.
  assert (Hmain : exists cs w',
             construct_all rs w = (Ok cs, w')
             /\ map (fun c => map cpu_id (CpuClusterRiscV.cpus c)) cs
                = id_blocks (_num_cpus w) (map req_num_cpus rs)
             /\ _num_cpus w' = _num_cpus w + total_cores (map req_num_cpus rs)
             /\ wf_world w').
  { revert w Hwf. induction Hpos as [|r rest Hr _ IH]; intros w Hwf.
    - exists [], w. cbn. repeat split; auto. lia.
    - unfold construct_all. cbn [mapM].
      destruct (init_spec (req_num_cpus r) (req_cpu_clock r)
                  (req_cpu_voltage r) (req_cpu_type r) (req_l1i_type r)
                  (req_l1d_type r) (req_l2_type r) w ltac:(lia)
                  (wf_world_fresh w Hwf)) as (c & w1 & E & C).
      destruct (IH w1 (constructed_wf _ _ _ _ _ _ _ _ Hwf C))
        as (cs & w2 & E2 & B2 & N2 & W2).
      unfold construct at 1. rewrite (bind_Ok _ _ _ _ _ E).
      unfold construct_all in E2. rewrite (bind_Ok _ _ _ _ _ E2).
      exists (c :: cs), w2. split; [reflexivity|].
      cbn [map id_blocks total_cores fold_right].
      fold (total_cores (map req_num_cpus rest)).
      rewrite B2, N2, (cons_ids _ _ _ _ _ _ _ _ C),
        (cons_num_cpus _ _ _ _ _ _ _ _ C).
      repeat split; auto. lia. }
  destruct Hmain as (cs & w' & E & B & N & W).
  exists cs, w'. split; [exact E|]. split; [exact B|].
  assert (Hc : List.concat (map (fun c => map cpu_id (CpuClusterRiscV.cpus c)) cs)
               = map (fun i => _num_cpus w + i)
                     (range (total_cores (map req_num_cpus rs)))).
  { rewrite B. apply id_blocks_concat. rewrite Forall_map.
    eapply Forall_impl; [|exact Hpos]. simpl. intros. lia. }
  split; [exact Hc|]. split; [rewrite Hc; apply NoDup_consecutive|].
  split; assumption.
Qed.

Lemma global_core_ids_consecutive_witness :
  exists cs w',
    construct_all [two_cores; two_cores] world0 = (Ok cs, w')
    /\ map (fun c => map cpu_id (CpuClusterRiscV.cpus c)) cs
       = [[0; 1]; [2; 3]]
    /\ _num_cpus w' = 4.
Proof.
  destruct (global_core_ids_consecutive world0 (Forall_nil _)
              [two_cores; two_cores]
              ltac:(repeat constructor; simpl; lia))
    as (cs & w' & E & B & _ & _ & N & _).
  exists cs, w'. split; [exact E|]. split; [exact B|exact N].
Defined.

Lemma CpuClusterRiscV_core_count_validated_witness :
  (exists w',
      CpuClusterRiscV.__init__ 0 "2GHz" "1.2V" MinorCPU None None None world0
      = (Raise AssertionError, w')
      /\ constructed_during world0 w' = [(0%nat, K_CpuClusterRiscV)])
  /\ (exists c w',
         CpuClusterRiscV.__init__ 3 "2GHz" "1.2V" MinorCPU None None None
                                  world0
         = (Ok c, w')
         /\ Z.of_nat (List.length (CpuClusterRiscV.cpus c)) = 3).
Proof.
  destruct (CpuClusterRiscV_core_count_validated world0 (Forall_nil _)
              0 "2GHz" "1.2V" MinorCPU None None None) as [H0 _].
  destruct (CpuClusterRiscV_core_count_validated world0 (Forall_nil _)
              3 "2GHz" "1.2V" MinorCPU None None None) as [_ H3].
  split.
  - destruct (H0 ltac:(lia)) as (w' & E & O & _). exists w'. now split.
  - destruct (H3 ltac:(lia)) as (c & w' & E & L & _). exists c, w'.
    now split.
Defined.

(** ** Frames: what a computation does not touch *)

Section Frames.

Context {X : Type} (f : World -> X).

Lemma preserves_ret {A : Type} (a : A) : preserves f (ret a).
Proof. intros w. reflexivity. Qed.

Lemma preserves_raise {A : Type} (e : exn) : preserves f (@raise A e).
Proof. intros w. reflexivity. Qed.

Lemma preserves_lift {A : Type} (o : outcome A) : preserves f (lift o).
Proof. intros w. reflexivity. Qed.

Lemma preserves_assert (b : bool) : preserves f (assert b).
Proof. intros w. now destruct b. Qed.

Lemma preserves_bind {A B : Type} (m : M A) (k : A -> M B) :
  preserves f m -> (forall a, preserves f (k a)) -> preserves f (bind m k).
Proof.
  intros Hm Hk w. unfold bind. specialize (Hm w).
  destruct (m w) as [[a|e] w1]; simpl in *.
  - now rewrite Hk.
  - exact Hm.
Qed.

(** After [m], a continuation that preserves [f] changes nothing more. *)
Lemma preserves_tail {A B : Type} (m : M A) (k : A -> M B) w :
  (forall a, preserves f (k a)) ->
  f (snd (bind m k w)) = f (snd (m w)).
Proof.
  intros Hk. unfold bind. destruct (m w) as [[a|e] w1]; simpl.
  - apply Hk.
  - reflexivity.
Qed.

Lemma preserves_mapM {A B : Type} (g : A -> M B) (l : list A) :
  (forall a, preserves f (g a)) -> preserves f (mapM g l).
Proof.
  intros Hg. induction l as [|x l IH]; simpl.
  - apply preserves_ret.
  - apply preserves_bind; [apply Hg|]. intros y.
    apply preserves_bind; [exact IH|]. intros ys. apply preserves_ret.
Qed.

Lemma preserves_for_each {A : Type} (l : list A) (body : A -> M unit) :
  (forall a, preserves f (body a)) -> preserves f (for_each l body).
Proof.
  intros Hb. induction l as [|x l IH]; simpl.
  - apply preserves_ret.
  - apply preserves_bind; [apply Hb|]. intros _. exact IH.
Qed.

Lemma preserves_foldM {A S : Type} (body : S -> A -> M S) (l : list A)
      (s : S) :
  (forall s a, preserves f (body s a)) -> preserves f (foldM body l s).
Proof.
  intros Hb. revert s. induction l as [|x l IH]; intros s; simpl.
  - apply preserves_ret.
  - apply preserves_bind; [apply Hb|]. intros s'. apply IH.
Qed.

Lemma preserves_try {A : Type} (body handler : M A) :
  preserves f body -> preserves f handler ->
  preserves f (try_except_AttributeError body handler).
Proof.
  intros Hb Hh w. unfold try_except_AttributeError. specialize (Hb w).
  destruct (body w) as [[a|[]] w1]; simpl in *; auto.
  now rewrite Hh.
Qed.

End Frames.

(** Decompose a goal [preserves f m] along the structure of [m]; what is
    left are the steps that write to the world, closed by computation when
    they leave [f] alone. *)
Create HintDb script discriminated.

#[local] Hint Unfold
  addCpuCluster construct_cache connectCachedPorts
  CpuClusterRiscV.__init__ CpuClusterRiscV.addL1 CpuClusterRiscV.addL2
  CpuClusterRiscV.connectMemSide CpuClusterRiscV.getattr_l2
  FastmodelCluster.__init__ FastmodelCluster.init_with
  FastmodelCluster.new_model
  SimpleSeSystem.__init__ SimpleSeSystem.for_cpus
  get_processes apply_overrides assign_workloads assemble create : script.

Ltac frame_step :=
  lazymatch goal with
  | |- preserves _ (ret _) => apply preserves_ret
  | |- preserves _ (raise _) => apply preserves_raise
  | |- preserves _ (lift _) => apply preserves_lift
  | |- preserves _ (assert _) => apply preserves_assert
  | |- preserves _ (bind _ _) => apply preserves_bind; [|intro]
  | |- preserves _ (mapM _ _) => apply preserves_mapM; intro
  | |- preserves _ (for_each _ _) => apply preserves_for_each; intro
  | |- preserves _ (foldM _ _ _) => apply preserves_foldM; intros
  | |- preserves _ (try_except_AttributeError _ _) => apply preserves_try
  | |- preserves _ (if ?b then _ else _) => destruct b
  | |- preserves _ (match ?x with _ => _ end) => destruct x
  | |- preserves _ _ =>
      first [ progress autounfold with script | intro; reflexivity ]
  end.

Ltac frame := repeat frame_step.

(** ** The externally-modelled cluster *)

Lemma reg_base_table_fst base fs n :
  map fst (FastmodelCluster.reg_base_table base fs n) = range n.
Proof.
  unfold FastmodelCluster.reg_base_table. rewrite map_map. apply map_id.
Qed.

Lemma reg_base_table_snd base fs n :
  map snd (FastmodelCluster.reg_base_table base fs n)
  = map (fun i => base + fs * i) (range n).
Proof.
  unfold FastmodelCluster.reg_base_table. now rewrite map_map.
Qed.

Lemma NoDup_strided base fs n :
  0 < fs -> NoDup (map (fun i => base + fs * i) (range n)).
Proof.
  intros Hfs. unfold range. rewrite map_map.
  apply Finite.Injective_map_NoDup; [|apply seq_NoDup].
  intros x y H. nia.
Qed.

(** C6. For every core count and both frame sizes (0x40000 with the
    controller's GICv4.1 flag, 0x20000 without), the table the constructor
    serialises into the controller's [reg_base_per_redistributor] pairs
    each core index [i] of [range(num_cpus)] with
    [redist_base + frame_size * i], and the addresses of the table are
    pairwise distinct. *)
Theorem redistributor_bases_strided_distinct
        (system : FastmodelCluster.System) (num_cpus : Z)
        (cpu_clock cpu_voltage : string) (w : World)
        (redist_base : Z) (others : list Z)
        (Hbase : FastmodelCluster.redist_bases
                   (FastmodelCluster.realview_gic system)
                 = redist_base :: others) :
  let gic := FastmodelCluster.realview_gic system in
  let frame_size := FastmodelCluster.redist_frame_size gic in
  let table := FastmodelCluster.reg_base_table redist_base frame_size
                                               num_cpus in
  frame_size = (if FastmodelCluster.has_gicv4_1 gic then 0x40000 else 0x20000)
  /\ reg_base_per_redistributor
       (snd (FastmodelCluster.__init__ system num_cpus cpu_clock cpu_voltage
                                       w))
     = String.concat "," (map FastmodelCluster.fmt_reg_base table)
  /\ map fst table = range num_cpus
  /\ map snd table = map (fun i => redist_base + frame_size * i)
                         (range num_cpus)
  /\ Z.of_nat (List.length table) = Z.max 0 num_cpus
  /\ NoDup (map snd table).
Proof.
  intros gic frame_size table. split; [reflexivity|].
  split; [|split; [apply reg_base_table_fst|split;
                   [apply reg_base_table_snd|split]]].
  - unfold FastmodelCluster.__init__, FastmodelCluster.init_with.
    unfold bind at 1. unfold new at 1. unfold bind at 1. unfold bind at 1.
    rewrite Hbase. unfold lift at 1, getitem at 1. cbn [List.length nth_error
      Z.of_nat Z.ltb Z.compare Z.to_nat Pos.of_succ_nat].
    etransitivity;
      [apply (preserves_tail reg_base_per_redistributor); intros _; frame|].
    reflexivity.
  - unfold table, FastmodelCluster.reg_base_table.
    rewrite length_map. unfold range. rewrite length_map, length_seq. lia.
  - unfold table. rewrite reg_base_table_snd. apply NoDup_strided.
    unfold frame_size, FastmodelCluster.redist_frame_size.
    destruct (FastmodelCluster.has_gicv4_1 gic); lia.
Qed.

Lemma redistributor_bases_strided_distinct_witness :
  reg_base_per_redistributor
    (snd (FastmodelCluster.__init__ realview0 4 "1GHz" "1.0V" world_fs))
  = "0.0.0.0=0x2f100000,0.0.1.0=0x2f140000,0.0.2.0=0x2f180000,0.0.3.0=0x2f1c0000"%string
  /\ NoDup [0x2f100000; 0x2f140000; 0x2f180000; 0x2f1c0000].
Proof.
  destruct (redistributor_bases_strided_distinct
              realview0 4 "1GHz" "1.0V" world_fs 0x2f100000 [] eq_refl)
    as (_ & S & _ & _ & _ & N).
  split; [rewrite S; reflexivity|exact N].
Defined.

(** C8. With more than four cores the externally-modelled cluster is never
    constructed: the constructor raises (AssertionError whenever the
    controller has a redistributor base to offer), before any external
    model or core object exists, with nothing registered at the system and
    nothing handed to the kernel. *)
Theorem FastmodelCluster_rejects_more_than_four
        (system : FastmodelCluster.System) (num_cpus : Z)
        (cpu_clock cpu_voltage : string) (w : World)
        (Hmany : 4 < num_cpus) :
  exists e w',
    FastmodelCluster.__init__ system num_cpus cpu_clock cpu_voltage w
    = (Raise e, w')
    /\ (FastmodelCluster.redist_bases (FastmodelCluster.realview_gic system)
        <> [] -> e = AssertionError)
    /\ filter is_core_object (constructed_during w w') = []
    /\ _clusters w' = _clusters w
    /\ _num_cpus w' = _num_cpus w
    /\ instantiated w' = instantiated w.
Proof.
  assert (Hle : (num_cpus <=? 4) = false) by (apply Z.leb_gt; lia).
  unfold FastmodelCluster.__init__, FastmodelCluster.init_with, constructed_during. rewrite Hle.
  destruct (FastmodelCluster.redist_bases
              (FastmodelCluster.realview_gic system)) as [|base others] eqn:Hb.
  - do 2 step. step_raise.
    eexists _, _. split; [reflexivity|]. world_simpl.
    rewrite skipn_length_app. repeat split; auto. congruence.
  - do 18 step. step_raise.
    eexists _, _. split; [reflexivity|]. world_simpl.
    rewrite <- !app_assoc, skipn_length_app. now repeat split.
Qed.

Lemma FastmodelCluster_rejects_more_than_four_witness :
  exists w',
    FastmodelCluster.__init__ realview0 5 "1GHz" "1.0V" world_fs
    = (Raise AssertionError, w')
    /\ filter is_core_object (constructed_during world_fs w') = []
    /\ instantiated w' = false.
Proof.
  destruct (FastmodelCluster_rejects_more_than_four
              realview0 5 "1GHz" "1.0V" world_fs ltac:(lia))
    as (e & w' & E & A & C & _ & _ & I).
  exists w'. rewrite <- (A ltac:(discriminate)). now repeat split.
Defined.

Lemma addCpuCluster_rejects (cluster : ObjRef) (n : Z) (w : World) :
  n <= 0 -> addCpuCluster cluster n w = (Raise AssertionError, w).
Proof.
  intros Hn. unfold addCpuCluster. step.
  replace (0 <? n) with false by (symmetry; apply Z.ltb_ge; lia).
  destruct (existsb (Nat.eqb cluster) (_clusters w)); reflexivity.
Qed.

(** ** Shape of a cluster through the cache wiring *)

Lemma same_shape_refl c : same_shape c c.
Proof. unfold same_shape. auto. Qed.

Lemma same_shape_trans c1 c2 c3 :
  same_shape c1 c2 -> same_shape c2 c3 -> same_shape c1 c3.
Proof.
  unfold same_shape. intros (I1 & T1 & L1) (I2 & T2 & L2).
  split; [congruence|]. split; [congruence|]. intros H.
  destruct (L1 H) as [A1 B1]. destruct (L2 ltac:(congruence)) as [A2 B2].
  split; congruence.
Qed.

Lemma same_shape_set_cpus c cs :
  map cpu_id cs = map cpu_id (CpuClusterRiscV.cpus c) ->
  same_shape c (CpuClusterRiscV.set_cpus c cs).
Proof. unfold same_shape. simpl. auto. Qed.

Lemma connectMemSide_returns c bus w :
  exists w', CpuClusterRiscV.connectMemSide c bus w = (Ok tt, w').
Proof.
  unfold CpuClusterRiscV.connectMemSide, try_except_AttributeError,
    CpuClusterRiscV.getattr_l2.
  destruct (CpuClusterRiscV.l2 c) as [cache|].
  - eexists. reflexivity.
  - unfold bind, raise. rewrite for_each_connectCachedPorts. eexists.
    reflexivity.
Qed.

Lemma addL1_shape c w :
  exists c' w', CpuClusterRiscV.addL1 c w = (Ok c', w') /\ same_shape c c'.
Proof.
  unfold CpuClusterRiscV.addL1.
  destruct (addL1_loop (CpuClusterRiscV._l1i_type c)
                       (CpuClusterRiscV._l1d_type c)
                       (CpuClusterRiscV.cpus c) w) as (cs & w' & E & F & _).
  rewrite (bind_Ok _ _ _ _ _ E). eexists _, _. split; [reflexivity|].
  apply same_shape_set_cpus. clear E.
  induction F as [|x y l l' (Hy & _) _ IH]; simpl; [easy|].
  rewrite IH, Hy. reflexivity.
Qed.

Lemma addL2_shape c clk w :
  exists c' w',
    CpuClusterRiscV.addL2 c clk w = (Ok c', w') /\ same_shape c c'.
Proof.
  unfold CpuClusterRiscV.addL2.
  destruct (CpuClusterRiscV._l2_type c) as [cls|] eqn:Ht.
  - do 2 step. rewrite (bind_Ok _ _ _ _ _ (for_each_connectCachedPorts _ _ _)).
    step. eexists _, _. split; [reflexivity|].
    unfold same_shape. simpl. rewrite Ht. repeat split; auto; discriminate.
  - eexists _, _. split; [reflexivity|]. apply same_shape_refl.
Qed.

Lemma modify_item_ok {A : Type} (l : list A) (i : Z) (f : A -> A) :
  0 <= i < Z.of_nat (List.length l) ->
  exists a,
    nth_error l (Z.to_nat i) = Some a
    /\ modify_item l i f
       = Ok (firstn (Z.to_nat i) l ++ f a :: skipn (S (Z.to_nat i)) l).
Proof.
  intros Hi. unfold modify_item, getitem.
  assert (Hf : (i <? 0) = false) by (apply Z.ltb_ge; lia).
  cbv zeta. repeat (rewrite Hf; cbv iota).
  destruct (nth_error l (Z.to_nat i)) as [a|] eqn:E.
  - exists a. split; reflexivity.
  - apply nth_error_None in E. lia.
Qed.

Lemma map_replace {A B : Type} (g : A -> B) (f : A -> A) (l : list A)
      (k : nat) (a : A) :
  nth_error l k = Some a -> g (f a) = g a ->
  map g (firstn k l ++ f a :: skipn (S k) l) = map g l.
Proof.
  intros E Hg. revert l E. induction k as [|k IH]; intros [|x l] E;
    try discriminate; simpl in *.
  - injection E as ->. now rewrite Hg.
  - now rewrite IH.
Qed.

Lemma range_bounds n : Forall (fun i => 0 <= i < n) (range n).
Proof.
  unfold range. apply Forall_map, Forall_forall. intros x Hx.
  apply in_seq in Hx. lia.
Qed.

Lemma foldM_modify change (Hch : harmless change) idxs :
  forall cs w,
    Forall (fun i => 0 <= i < Z.of_nat (List.length cs)) idxs ->
    exists cs' w',
      foldM (fun cs i => f <- change ;; lift (modify_item cs i f)) idxs cs w
      = (Ok cs', w')
      /\ map cpu_id cs' = map cpu_id cs.
Proof.
  induction idxs as [|i rest IH]; intros cs w H.
  - exists cs, w. now split.
  - inversion H as [|? ? Hi Hrest]; subst. cbn [foldM].
    destruct (Hch w) as (f & w1 & E & Hf).
    destruct (modify_item_ok cs i f Hi) as (a & Ea & Em).
    assert (Hmap : map cpu_id (firstn (Z.to_nat i) cs
                               ++ f a :: skipn (S (Z.to_nat i)) cs)
                   = map cpu_id cs) by (apply map_replace; auto).
    destruct (IH (firstn (Z.to_nat i) cs ++ f a :: skipn (S (Z.to_nat i)) cs)
                 w1) as (cs' & w' & E' & Hm').
    { rewrite <- (length_map cpu_id), Hmap, length_map. exact Hrest. }
    erewrite bind_Ok;
      [|erewrite bind_Ok; [|exact E]; unfold lift; rewrite Em; reflexivity].
    rewrite E'. exists cs', w'. split; [reflexivity|congruence].
Qed.

Lemma for_cpus_shape c n change (Hch : harmless change) w :
  Z.of_nat (List.length (CpuClusterRiscV.cpus c)) = n ->
  exists c' w',
    SimpleSeSystem.for_cpus c n change w = (Ok c', w') /\ same_shape c c'.
Proof.
  intros Hn. unfold SimpleSeSystem.for_cpus.
  destruct (foldM_modify change Hch (range n) (CpuClusterRiscV.cpus c) w)
    as (cs & w' & E & Hm).
  { rewrite Hn. apply range_bounds. }
  rewrite (bind_Ok _ _ _ _ _ E). eexists _, _. split; [reflexivity|].
  now apply same_shape_set_cpus.
Qed.

Lemma harmless_branchPred cls :
  harmless (bp <- new (K_BranchPred cls) ;; ret (set_branchPred bp)).
Proof. intros w. eexists _, _. split; reflexivity. Qed.

Lemma harmless_ret f :
  (forall cpu, cpu_id (f cpu) = cpu_id cpu) -> harmless (ret f).
Proof. intros Hf w. exists f, w. now split. Qed.

Lemma same_shape_length c c' :
  same_shape c c' ->
  List.length (CpuClusterRiscV.cpus c')
  = List.length (CpuClusterRiscV.cpus c).
Proof.
  intros (H & _). rewrite <- (length_map cpu_id), H. apply length_map.
Qed.

(** ** Assembly of the system *)

Section SystemAssembly.

Context {G : Gem5}.

Lemma range_from_zero n : map (fun i => 0 + i) (range n) = range n.
Proof. rewrite <- (map_id (range n)) at 2. now apply map_ext. Qed.

Lemma SimpleSeSystem_init_returns (args : Args) (w : World) :
  0 < num_cores args ->
  exists sys w',
    SimpleSeSystem.__init__ args w = (Ok sys, w')
    /\ map cpu_id (CpuClusterRiscV.cpus (SimpleSeSystem.cpu_cluster sys))
       = range (num_cores args)
    /\ CpuClusterRiscV._l2_type (SimpleSeSystem.cpu_cluster sys)
       = entry_3 (cpu_types w (cpu args))
    /\ (entry_3 (cpu_types w (cpu args)) = None ->
        CpuClusterRiscV.l2 (SimpleSeSystem.cpu_cluster sys) = None
        /\ CpuClusterRiscV.toL2Bus (SimpleSeSystem.cpu_cluster sys) = None).
Proof.
  intros Hn. unfold SimpleSeSystem.__init__. do 7 step.
  match goal with
  | |- context [bind (CpuClusterRiscV.__init__ ?n ?ck ?v ?cls ?ti ?td ?t2)
                       _ ?W] =>
      destruct (init_spec n ck v cls ti td t2 W Hn eq_refl)
        as (c & w1 & E & C)
  end.
  rewrite (bind_Ok _ _ _ _ _ E).
  pose proof (cons_length _ _ _ _ _ _ _ _ C) as Hlen.
  (* the cache hierarchy *)
  match goal with
  | |- context [bind ?m _ _] =>
      assert (H1 : exists c1 w2, m w1 = (Ok c1, w2) /\ same_shape c c1)
  end.
  { destruct (CpuClusterRiscV.memoryMode c =? "timing")%string.
    - destruct (addL1_shape c w1) as (ca & wa & Ea & Sa).
      rewrite (bind_Ok _ _ _ _ _ Ea).
      destruct (addL2_shape ca (CpuClusterRiscV.clk_domain ca) wa)
        as (cb & wb & Eb & Sb).
      exists cb, wb. split; [exact Eb|]. eapply same_shape_trans; eauto.
    - destruct (cpu_name_eqb (cpu args) ac).
      + destruct (addL1_shape c w1) as (ca & wa & Ea & Sa).
        rewrite (bind_Ok _ _ _ _ _ Ea).
        destruct (addL2_shape ca (CpuClusterRiscV.clk_domain ca) wa)
          as (cb & wb & Eb & Sb).
        rewrite (bind_Ok _ _ _ _ _ Eb).
        destruct (for_cpus_shape cb (num_cores args) _
                                 (harmless_branchPred O3_ARM_v7a_BP) wb) as (cc & wc & Ec & Sc).
        { rewrite (same_shape_length _ _ Sb), (same_shape_length _ _ Sa).
          exact Hlen. }
        exists cc, wc. split; [exact Ec|].
        eapply same_shape_trans; [|exact Sc].
        eapply same_shape_trans; eauto.
      + exists c, w1. split; [reflexivity|apply same_shape_refl]. }
  destruct H1 as (c1 & w2 & E1 & S1). rewrite (bind_Ok _ _ _ _ _ E1).
  match goal with
  | |- context [bind (CpuClusterRiscV.connectMemSide _ ?b) _ _] =>
      destruct (connectMemSide_returns c1 b w2) as (w3 & E3)
  end.
  rewrite (bind_Ok _ _ _ _ _ E3).
  (* the instruction limit *)
  match goal with
  | |- context [bind ?m _ _] =>
      assert (H2 : exists c2 w4, m w3 = (Ok c2, w4) /\ same_shape c1 c2)
  end.
  { destruct (negb (maxinsts args =? 0)).
    - apply for_cpus_shape; [now apply harmless_ret|].
      now rewrite (same_shape_length _ _ S1).
    - exists c1, w3. split; [reflexivity|apply same_shape_refl]. }
  destruct H2 as (c2 & w4 & E2 & S2). rewrite (bind_Ok _ _ _ _ _ E2).
  (* the SimPoint probes *)
  match goal with
  | |- context [bind ?m _ _] =>
      assert (H3 : exists c3 w5, m w4 = (Ok c3, w5) /\ same_shape c2 c3)
  end.
  { destruct (simpoint_profile args).
    - apply for_cpus_shape; [now apply harmless_ret|].
      now rewrite (same_shape_length _ _ S2), (same_shape_length _ _ S1).
    - exists c2, w4. split; [reflexivity|apply same_shape_refl]. }
  destruct H3 as (c3 & w5 & E3' & S3). rewrite (bind_Ok _ _ _ _ _ E3').
  eexists _, _. split; [reflexivity|]. cbn [SimpleSeSystem.cpu_cluster].
  pose proof (same_shape_trans _ _ _ (same_shape_trans _ _ _ S1 S2) S3)
    as (Hids & Ht & Hl2).
  rewrite (cons_l2_type _ _ _ _ _ _ _ _ C) in Ht, Hl2.
  rewrite (cons_l2 _ _ _ _ _ _ _ _ C),
    (cons_toL2Bus _ _ _ _ _ _ _ _ C) in Hl2.
  split; [|split; [exact Ht|exact Hl2]].
  rewrite Hids, (cons_ids _ _ _ _ _ _ _ _ C). world_simpl.
  apply range_from_zero.
Qed.

Lemma SimpleSeSystem_init_rejects (args : Args) (w : World) :
  num_cores args <= 0 ->
  exists w', SimpleSeSystem.__init__ args w = (Raise AssertionError, w').
Proof.
  intros Hn. unfold SimpleSeSystem.__init__. do 7 step.
  erewrite bind_Raise; [|apply init_rejects; exact Hn].
  eexists. reflexivity.
Qed.

End SystemAssembly.

(** ** Workloads *)

Lemma mapM_length {A B : Type} (f : A -> M B) (l : list A) :
  forall w ys w', mapM f l w = (Ok ys, w') -> List.length ys = List.length l.
Proof.
  induction l as [|x l IH]; intros w ys w' E; simpl in E.
  - injection E as <- _. reflexivity.
  - apply bind_Ok_inv in E. destruct E as (y & w1 & _ & E).
    apply bind_Ok_inv in E. destruct E as (ys' & w2 & E & R).
    injection R as <- _. simpl. f_equal. eapply IH; eauto.
Qed.

Lemma enumerate_length {A : Type} (l : list A) :
  List.length (enumerate l) = List.length l.
Proof.
  unfold enumerate, range.
  rewrite length_combine, length_map, length_seq. lia.
Qed.

Lemma map_fst_combine {A B : Type} (l : list A) (l' : list B) :
  List.length l = List.length l' -> map fst (combine l l') = l.
Proof.
  revert l'. induction l as [|x l IH]; intros [|y l'] H; simpl in *;
    try discriminate; [reflexivity|]. f_equal. apply IH. lia.
Qed.

Lemma map_snd_combine {A B : Type} (l : list A) (l' : list B) :
  List.length l = List.length l' -> map snd (combine l l') = l'.
Proof.
  revert l'. induction l as [|x l IH]; intros [|y l'] H; simpl in *;
    try discriminate; [reflexivity|]. f_equal. apply IH. lia.
Qed.

Lemma bind_workloads_spec (cpus : list Cpu) (ps : list Process) :
  List.length ps = List.length cpus ->
  map workload (bind_workloads cpus ps) = map Some ps
  /\ map cpu_id (bind_workloads cpus ps) = map cpu_id cpus.
Proof.
  revert ps. induction cpus as [|c cs IH]; intros [|p ps] H; simpl in *;
    try discriminate; [now split|].
  destruct (IH ps ltac:(lia)) as [H1 H2]. now rewrite H1, H2.
Qed.

Section Workloads.

Context {G : Gem5}.

Lemma get_processes_loop (ics : list (Z * string)) (w : World) :
  commands_parse (map snd ics) ->
  exists ps w',
    mapM (fun ic =>
            let idx := fst ic in
            argv <- lift (shlex_split (snd ic)) ;;
            exe <- lift (getitem argv 0) ;;
            r <- new (K_Process (100 + idx)) ;;
            let process := mkProcess r (100 + idx) os_getcwd argv exe
                                     os_getgid in
            print (info_command (idx + 1) (cmd process)) ;;;
            ret process) ics w
    = (Ok ps, w')
    /\ map pid ps = map (fun ic => 100 + fst ic) ics
    /\ map (fun p => Ok (cmd p)) ps = map (fun ic => shlex_split (snd ic)) ics.
Proof.
  revert w. induction ics as [|[idx c] rest IH]; intros w H.
  - exists [], w. now repeat split.
  - inversion H as [|? ? (exe & argv & Hc) Hrest]; subst.
    destruct (IH (set_stdout
                    (set_heap w (S (next_ref w))
                       (objects w ++ [(next_ref w, K_Process (100 + idx))]))
                    (stdout w ++ [info_command (idx + 1) (exe :: argv)]))
                 Hrest) as (ps & w' & E & Hp & Hcmd).
    cbn [mapM fst snd]. simpl in Hc. rewrite Hc.
    erewrite bind_Ok; [|reflexivity]. cbv beta.
    erewrite bind_Ok; [|exact E].
    eexists _, _. split; [reflexivity|]. cbn [map pid cmd fst snd].
    now rewrite Hp, Hcmd, Hc.
Qed.

Lemma get_processes_returns (cmds : list string) (w : World) :
  commands_parse cmds ->
  exists ps w',
    get_processes cmds w = (Ok ps, w')
    /\ map pid ps
       = map (fun i => 100 + i) (range (Z.of_nat (List.length cmds)))
    /\ map (fun p => Ok (cmd p)) ps = map shlex_split cmds.
Proof.
  intros H. unfold get_processes.
  assert (Hlen : List.length (range (Z.of_nat (List.length cmds)))
                 = List.length cmds).
  { unfold range. rewrite length_map, length_seq. lia. }
  destruct (get_processes_loop (enumerate cmds) w) as (ps & w' & E & P & C).
  { unfold enumerate. now rewrite map_snd_combine. }
  exists ps, w'. split; [exact E|]. split.
  - rewrite P. unfold enumerate.
    rewrite <- (map_map fst (fun i => 100 + i)), map_fst_combine; auto.
  - rewrite C. unfold enumerate.
    rewrite <- (map_map snd shlex_split), map_snd_combine; auto.
Qed.

Lemma get_processes_length cmds w ps w' :
  get_processes cmds w = (Ok ps, w') ->
  List.length ps = List.length cmds.
Proof.
  intros E. apply mapM_length in E. now rewrite E, enumerate_length.
Qed.

(** A number of commands other than the number of cores stops
    [assign_workloads]. *)
Lemma assign_workloads_mismatch args system w :
  Z.of_nat (List.length (commands_to_run args)) <> num_cores args ->
  exists e w',
    assign_workloads args system w = (Raise e, w')
    /\ (commands_parse (commands_to_run args) -> e = SystemExit 1).
Proof.
  intros Hne. unfold assign_workloads.
  destruct (get_processes (commands_to_run args) w) as [[ps|e] w1] eqn:E.
  - rewrite (bind_Ok _ _ _ _ _ E).
    rewrite (get_processes_length _ _ _ _ E).
    replace (Z.of_nat (List.length (commands_to_run args))
             =? num_cores args) with false
      by (symmetry; now apply Z.eqb_neq).
    cbn [negb]. erewrite bind_Raise; [|reflexivity].
    eexists _, _. split; [reflexivity|auto].
  - rewrite (bind_Raise _ _ _ _ _ E). exists e, w1. split; [reflexivity|].
    intros Hp. destruct (get_processes_returns _ w Hp) as (ps & w' & E' & _).
    congruence.
Qed.

Lemma assign_workloads_returns args system w :
  commands_parse (commands_to_run args) ->
  Z.of_nat (List.length (commands_to_run args)) = num_cores args ->
  0 < num_cores args ->
  exists sys processes w',
    assign_workloads args system w = (Ok sys, w')
    /\ SimpleSeSystem.cpu_cluster sys
       = CpuClusterRiscV.set_cpus
           (SimpleSeSystem.cpu_cluster system)
           (bind_workloads
              (CpuClusterRiscV.cpus (SimpleSeSystem.cpu_cluster system))
              processes)
    /\ Z.of_nat (List.length processes) = num_cores args
    /\ map pid processes
       = map (fun i => 100 + i) (range (num_cores args))
    /\ map (fun p => Ok (cmd p)) processes
       = map shlex_split (commands_to_run args).
Proof.
  intros Hp Hlen Hn. unfold assign_workloads.
  destruct (get_processes_returns _ w Hp) as (ps & w1 & E & P & C).
  rewrite (bind_Ok _ _ _ _ _ E).
  pose proof (get_processes_length _ _ _ _ E) as Hl.
  rewrite Hl, Hlen, Z.eqb_refl. cbn [negb]. step.
  destruct ps as [|p0 ps]; [simpl in Hl; lia|].
  do 2 step. eexists _, (p0 :: ps), _. split; [reflexivity|].
  cbn [SimpleSeSystem.cpu_cluster SimpleSeSystem.set_cpu_cluster
       SimpleSeSystem.set_se_workload].
  split; [reflexivity|]. split; [now rewrite Hl|].
  split; [now rewrite <- Hlen|exact C].
Qed.


End Workloads.

(** ** [create] and [main] *)

Lemma cpu_name_eqb_refl k : cpu_name_eqb k k = true.
Proof. now destruct k. Qed.


Section Create.

Context {G : Gem5}.

Lemma assemble_prefix args bp w :
  0 < num_cores args ->
  exists sys1 w1,
    assemble args bp w = assign_workloads args sys1 w1
    /\ map cpu_id (CpuClusterRiscV.cpus (SimpleSeSystem.cpu_cluster sys1))
       = range (num_cores args)
    /\ CpuClusterRiscV._l2_type (SimpleSeSystem.cpu_cluster sys1)
       = entry_3 (cpu_types w (cpu args))
    /\ (entry_3 (cpu_types w (cpu args)) = None ->
        CpuClusterRiscV.l2 (SimpleSeSystem.cpu_cluster sys1) = None
        /\ CpuClusterRiscV.toL2Bus (SimpleSeSystem.cpu_cluster sys1)
           = None).
Proof.
  intros Hn. unfold assemble.
  destruct (SimpleSeSystem_init_returns args w Hn)
    as (sys0 & w0 & E0 & I0 & T0 & L0).
  rewrite (bind_Ok _ _ _ _ _ E0).
  assert (Hlen : Z.of_nat (List.length (CpuClusterRiscV.cpus
                                          (SimpleSeSystem.cpu_cluster sys0)))
                 = num_cores args).
  { rewrite <- (length_map cpu_id), I0. apply range_length. lia. }
  destruct bp as [cls|]; [destruct (0 <? random args)|].
  - destruct (for_cpus_shape (SimpleSeSystem.cpu_cluster sys0)
                (num_cores args) _ (harmless_branchPred cls) w0 Hlen)
      as (c1 & w1 & E1 & (S1 & S2 & S3)).
    erewrite bind_Ok; [|rewrite (bind_Ok _ _ _ _ _ E1); reflexivity].
    cbv beta zeta. eexists _, _. split; [reflexivity|].
    cbn [SimpleSeSystem.cpu_cluster SimpleSeSystem.set_cpu_cluster
         SimpleSeSystem.set_mem_ranges].
    rewrite S1, S2. split; [exact I0|]. split; [exact T0|].
    intros H. destruct (L0 H) as [A B].
    destruct (S3 ltac:(congruence)) as [A' B']. split; congruence.
  - step. cbv zeta. eexists _, _. split; [reflexivity|].
    cbn [SimpleSeSystem.cpu_cluster SimpleSeSystem.set_mem_ranges]. auto.
  - step. cbv zeta. eexists _, _. split; [reflexivity|].
    cbn [SimpleSeSystem.cpu_cluster SimpleSeSystem.set_mem_ranges]. auto.
Qed.

Lemma assemble_rejects args bp w :
  num_cores args <= 0 ->
  exists w', assemble args bp w = (Raise AssertionError, w').
Proof.
  intros Hn. unfold assemble.
  destruct (SimpleSeSystem_init_rejects args w Hn) as (w' & E).
  rewrite (bind_Raise _ _ _ _ _ E). now exists w'.
Qed.

Lemma apply_overrides_returns args w :
  exists w1,
    apply_overrides args w = (Ok tt, w1)
    /\ cpu_types w1
       = if (l2_size args =? "0")%string
         then without_l2 (cpu_types w) (cpu args)
         else cpu_types w.
Proof.
  unfold apply_overrides.
  destruct (l2_size args =? "")%string eqn:E1;
    destruct (l2_size args =? "0")%string eqn:E2;
    try (apply String.eqb_eq in E1, E2; congruence);
    destruct (negb (l1d_size args =? "")%string);
    destruct (negb (l1i_size args =? "")%string);
    cbn [negb]; do 2 step; eexists; split; reflexivity.
Qed.

Lemma create_unfold args :
  exists bp, forall w,
    create args w
    = (apply_overrides args ;;; assemble (effective_args args) bp) w.
Proof.
  unfold create, effective_args. destruct (0 <? random args).
  - destruct (generate_configs args (random args - 1)) as [args' cls].
    now exists (Some cls).
  - now exists None.
Qed.

Lemma create_preserves_instantiated args :
  preserves instantiated (create args).
Proof. frame. Qed.

End Create.

(** C3. The number of commands must equal the number of cores, both taken
    from the arguments [create] works with.  When they differ, [main] raises
    before [m5.instantiate] is reached, so nothing is handed to the kernel;
    when the cluster could be built and the commands parse, the exception is
    [sys.exit(1)].  When they are equal (with at least one core, and
    commands that parse), [create] returns a system in which core [i] has
    identifier [i] and holds workload [i], the process of pid [100 + i]
    made from command [i]: no command is dropped and none is invented. *)
Theorem workloads_bound_one_to_one {G : Gem5} (args : Args) (w : World) :
  let a := effective_args args in
  let cmds := commands_to_run a in
  (Z.of_nat (List.length cmds) <> num_cores a ->
   exists e w',
     main args w = (Raise e, w')
     /\ instantiated w' = instantiated w
     /\ (0 < num_cores a -> commands_parse cmds -> e = SystemExit 1))
  /\ (Z.of_nat (List.length cmds) = num_cores a ->
      0 < num_cores a ->
      commands_parse cmds ->
      exists sys processes w',
        create args w = (Ok sys, w')
        /\ map cpu_id
               (CpuClusterRiscV.cpus (SimpleSeSystem.cpu_cluster sys))
           = range (num_cores a)
        /\ map workload
               (CpuClusterRiscV.cpus (SimpleSeSystem.cpu_cluster sys))
           = map Some processes
        /\ map pid processes = map (fun i => 100 + i) (range (num_cores a))
        /\ map (fun p => Ok (cmd p)) processes = map shlex_split cmds).
Proof.
  intros a cmds. destruct (create_unfold args) as (bp & Hc).
  assert (Hcreate : forall w0, exists w1, create args w0 = assemble a bp w1).
  { intros w0. destruct (apply_overrides_returns args w0) as (w1 & E1 & _).
    exists w1. rewrite Hc. unfold bind. now rewrite E1. }
  split.
  - intros Hne.
    assert (Hraise : forall w0, exists e w',
               create args w0 = (Raise e, w')
               /\ (0 < num_cores a -> commands_parse cmds ->
                   e = SystemExit 1)).
    { intros w0. destruct (Hcreate w0) as (w1 & ->).
      destruct (Z_lt_le_dec 0 (num_cores a)) as [Hn|Hn].
      - destruct (assemble_prefix a bp w1 Hn) as (sys1 & w2 & E2 & _).
        rewrite E2.
        destruct (assign_workloads_mismatch a sys1 w2 Hne)
          as (e & w' & E & He).
        exists e, w'. split; [exact E|auto].
      - destruct (assemble_rejects a bp w1 Hn) as (w' & E).
        exists AssertionError, w'. split; [exact E|]. intros. lia. }
    unfold main. step.
    match goal with
    | |- context [bind (create args) _ ?W] =>
        destruct (Hraise W) as (e & w' & E & He);
        pose proof (create_preserves_instantiated args W) as Hf
    end.
    exists e, w'. split; [|split; [|exact He]].
    + apply (bind_Raise _ _ _ _ _ E).
    + rewrite E in Hf. exact Hf.
  - intros Hlen Hn Hparse. destruct (Hcreate w) as (w1 & ->).
    destruct (assemble_prefix a bp w1 Hn) as (sys1 & w2 & E2 & I2 & _).
    rewrite E2.
    destruct (assign_workloads_returns a sys1 w2 Hparse Hlen Hn)
      as (sys & ps & w' & E & Hcl & Hl & Hp & Hcm).
    exists sys, ps, w'. split; [exact E|]. rewrite Hcl.
    cbn [CpuClusterRiscV.cpus CpuClusterRiscV.set_cpus].
    destruct (bind_workloads_spec
                (CpuClusterRiscV.cpus (SimpleSeSystem.cpu_cluster sys1)) ps)
      as [Hw Hi].
    { apply Nat2Z.inj. rewrite Hl, <- (length_map cpu_id), I2.
      symmetry. apply range_length. lia. }
    rewrite Hw, Hi. now repeat split.
Qed.

Lemma map_Ok_inj {A : Type} (l l' : list A) :
  map (fun x => Ok x) l = map (fun x => Ok x) l' -> l = l'.
Proof.
  revert l'. induction l as [|x l IH]; intros [|y l'] Hm; cbn [map] in Hm;
    try discriminate Hm; [reflexivity|].
  injection Hm as -> Hm. f_equal. now apply IH.
Qed.

Lemma workloads_bound_one_to_one_witness :
  (exists w',
      main (G := sample_gem5) (sample_args ["ls"]%string "") world0
      = (Raise (SystemExit 1), w')
      /\ instantiated w' = false)
  /\ (exists sys processes w',
         create (G := sample_gem5) (sample_args ["ls -l"; "pwd"]%string "") world0
         = (Ok sys, w')
         /\ map cpu_id
                (CpuClusterRiscV.cpus (SimpleSeSystem.cpu_cluster sys))
            = [0; 1]
         /\ map workload
                (CpuClusterRiscV.cpus (SimpleSeSystem.cpu_cluster sys))
            = map Some processes
         /\ map pid processes = [100; 101]
         /\ map cmd processes = [["ls"; "-l"]; ["pwd"]]%string).
Proof.
  split.
  - destruct (workloads_bound_one_to_one (G := sample_gem5)
                (sample_args ["ls"]%string "") world0) as [H _].
    destruct (H ltac:(vm_compute; discriminate)) as (e & w' & E & I & He).
    exists w'.
    assert (He' : e = SystemExit 1).
    { apply He; [reflexivity|]. repeat constructor.
      now exists "ls"%string, []. }
    subst e. split; [exact E|exact I].
  - destruct (workloads_bound_one_to_one (G := sample_gem5)
                (sample_args ["ls -l"; "pwd"]%string "") world0) as [_ H].
    destruct H as (sys & ps & w' & E & I & W & P & C).
    + reflexivity.
    + reflexivity.
    + repeat constructor; [now exists "ls"%string, ["-l"%string]
                          |now exists "pwd"%string, []].
    + exists sys, ps, w'. split; [exact E|]. split; [exact I|].
      split; [exact W|]. split; [exact P|].
      apply map_Ok_inj. rewrite map_map. exact C.
Defined.

(** * Further properties of the scripts *)

(** ** The registry of clusters *)

Lemma existsb_eqb_In (c : ObjRef) (cs : list ObjRef) :
  existsb (Nat.eqb c) cs = true <-> In c cs.
Proof.
  rewrite existsb_exists. split.
  - intros (x & Hx & E). apply Nat.eqb_eq in E. now subst.
  - intros H. exists c. split; [exact H|apply Nat.eqb_refl].
Qed.

(** X1. [addCpuCluster] returns exactly when the cluster is not registered
    yet and brings at least one core; it then appends the cluster and adds
    its cores to the count.  Otherwise it raises AssertionError and leaves
    the registry as it was.  Either way a registry without duplicates and
    with at least one core per cluster stays so. *)
Theorem addCpuCluster_append_only
        (cluster : ObjRef) (num_cpus : Z) (w : World)
        (Hok : registry_ok w) :
  (~ In cluster (_clusters w) /\ 0 < num_cpus ->
   exists w',
     addCpuCluster cluster num_cpus w = (Ok tt, w')
     /\ _clusters w' = _clusters w ++ [cluster]
     /\ _num_cpus w' = _num_cpus w + num_cpus
     /\ registry_ok w')
  /\ (In cluster (_clusters w) \/ num_cpus <= 0 ->
      addCpuCluster cluster num_cpus w = (Raise AssertionError, w)).
Proof.
  destruct Hok as [Hnd Hle]. unfold addCpuCluster. split.
  - intros [Hin Hn]. step.
    assert (Hf : existsb (Nat.eqb cluster) (_clusters w) = false).
    { destruct (existsb (Nat.eqb cluster) (_clusters w)) eqn:E; auto.
      apply existsb_eqb_In in E. contradiction. }
    rewrite Hf.
    replace (0 <? num_cpus) with true by (symmetry; now apply Z.ltb_lt).
    do 2 step. eexists. split; [reflexivity|]. world_simpl.
    split; [reflexivity|]. split; [reflexivity|]. split; world_simpl.
    + apply NoDup_app; [exact Hnd|repeat constructor; auto|].
      intros x Hx [<-|[]]. contradiction.
    + rewrite length_app. cbn [List.length]. lia.
  - intros H. step.
    destruct (existsb (Nat.eqb cluster) (_clusters w)) eqn:E.
    + reflexivity.
    + destruct H as [H|H].
      * apply existsb_eqb_In in H. congruence.
      * replace (0 <? num_cpus) with false
          by (symmetry; apply Z.ltb_ge; lia).
        reflexivity.
Qed.

Lemma addCpuCluster_append_only_witness :
  (exists w',
      addCpuCluster 7%nat 2 world0 = (Ok tt, w')
      /\ _clusters w' = [7%nat] /\ _num_cpus w' = 2
      /\ addCpuCluster 7%nat 2 w' = (Raise AssertionError, w')).
Proof.
  destruct (addCpuCluster_append_only 7%nat 2 world0) as [H _].
  { split; [constructor|]. simpl. lia. }
  destruct H as (w' & E & C & N & R).
  { split; [intros []|lia]. }
  exists w'. split; [exact E|]. split; [exact C|]. split; [exact N|].
  destruct (addCpuCluster_append_only 7%nat 2 w' R) as [_ H2].
  apply H2. left. rewrite C. now left.
Defined.

(** ** The cores of a standard cluster *)

Lemma addCpuCluster_fresh (cluster : ObjRef) (n : Z) (w : World) :
  existsb (Nat.eqb cluster) (_clusters w) = false ->
  0 < n ->
  addCpuCluster cluster n w
  = (Ok tt, set_registry w (_clusters w ++ [cluster]) (_num_cpus w + n)).
Proof.
  intros Hf Hn. unfold addCpuCluster. step. rewrite Hf.
  replace (0 <? n) with true by (symmetry; now apply Z.ltb_lt).
  do 2 step. reflexivity.
Qed.

Lemma init_explicit n clock voltage cls ti td t2 w :
  0 < n ->
  existsb (Nat.eqb (next_ref w)) (_clusters w) = false ->
  exists w',
    CpuClusterRiscV.__init__ n clock voltage cls ti td t2 w
    = (Ok (CpuClusterRiscV.mk
             (next_ref w) cls ti td t2
             (S (next_ref w)) (S (S (next_ref w)))
             (map (init_core (Z.of_nat (List.length (_clusters w))))
                  (fresh_cpus cls (S (S (next_ref w)))
                              (S (S (S (next_ref w)))) (_num_cpus w)
                              (range n)))
             None None), w')
    /\ objects w'
       = objects w
         ++ [(next_ref w, K_CpuClusterRiscV);
             (S (next_ref w), K_VoltageDomain voltage);
             (S (S (next_ref w)), K_SrcClockDomain clock (S (next_ref w)))]
         ++ map (fun x => (x, K_Cpu cls))
                (seq (S (S (S (next_ref w)))) (List.length (range n)))
    /\ bindings w' = bindings w
    /\ _clusters w' = _clusters w ++ [next_ref w]
    /\ _num_cpus w' = _num_cpus w + n
    /\ next_ref w' = (List.length (range n) + S (S (S (next_ref w))))%nat.
Proof.
  intros Hn Hfresh. unfold CpuClusterRiscV.__init__.
  assert (Hlt : (0 <? n) = true) by now apply Z.ltb_lt.
  rewrite Hlt. do 4 step.
  rewrite (bind_Ok _ _ _ _ _ (init_cpus_loop _ _ _ _)). world_simpl.
  rewrite (bind_Ok _ _ _ _ _ (init_socket_loop _ _)). world_simpl.
  erewrite bind_Ok;
    [|apply addCpuCluster_fresh; [exact Hfresh|exact Hn]].
  eexists. split; [reflexivity|]. world_simpl.
  rewrite <- !app_assoc. now repeat split.
Qed.

Lemma fresh_cpus_fresh cls cd r n idxs socket :
  Forall (fresh_core cls cd socket)
         (map (init_core socket) (fresh_cpus cls cd r n idxs)).
Proof.
  revert r. induction idxs as [|i rest IH]; intros r; cbn [fresh_cpus map].
  - constructor.
  - constructor; [|apply IH]. unfold fresh_core. cbn. now repeat split.
Qed.

(** X2. The cores of a freshly constructed cluster are uniform: all of the
    configured CPU class, all on the cluster's one clock domain (itself on
    the cluster's one voltage domain), with threads and interrupt controller
    created, with the number of clusters registered before as socket id,
    and with no cache, instruction limit, probe or workload yet.  No
    branch predictor has been assigned to a core: reading [branchPred]
    finds what the CPU class declares, which is the O3_ARM_PostK_BP of
    O3_PostK.py for O3_ARM_PostK_3.  The cores are distinct objects, and
    the constructor binds no port. *)
Theorem constructed_cores_uniform
        (w : World) (Hwf : wf_world w)
        (num_cpus : Z) (cpu_clock cpu_voltage : string) (cpu_type : CpuClass)
        (l1i_type l1d_type l2_type : option CacheClass)
        (Hn : 0 < num_cpus) :
  exists c w',
    CpuClusterRiscV.__init__ num_cpus cpu_clock cpu_voltage cpu_type
                             l1i_type l1d_type l2_type w
    = (Ok c, w')
    /\ Forall (fresh_core cpu_type (CpuClusterRiscV.clk_domain c)
                          (Z.of_nat (List.length (_clusters w))))
              (CpuClusterRiscV.cpus c)
    /\ NoDup (map cpu_ref (CpuClusterRiscV.cpus c))
    /\ In (CpuClusterRiscV.clk_domain c,
           K_SrcClockDomain cpu_clock (CpuClusterRiscV.voltage_domain c))
          (constructed_during w w')
    /\ In (CpuClusterRiscV.voltage_domain c, K_VoltageDomain cpu_voltage)
          (constructed_during w w')
    /\ bound_during w w' = [].
Proof.
  destruct (init_explicit num_cpus cpu_clock cpu_voltage cpu_type
              l1i_type l1d_type l2_type w Hn (wf_world_fresh w Hwf))
    as (w' & E & O & B & _).
  eexists _, w'. split; [exact E|].
  cbn [CpuClusterRiscV.cpus CpuClusterRiscV.clk_domain
       CpuClusterRiscV.voltage_domain].
  unfold constructed_during, bound_during. rewrite O, B, skipn_length_app.
  split; [apply fresh_cpus_fresh|]. split; [|split; [|split]].
  - rewrite map_map.
    rewrite <- (map_ext cpu_ref (fun x => cpu_ref (init_core _ x)))
      by reflexivity.
    rewrite fresh_cpus_refs. apply seq_NoDup.
  - cbn. auto.
  - cbn. auto.
  - rewrite <- (app_nil_r (bindings w)) at 2. apply skipn_length_app.
Qed.

Lemma constructed_cores_uniform_witness :
  exists c w',
    CpuClusterRiscV.__init__ 2 "2GHz" "1.2V" MinorCPU None None None world0
    = (Ok c, w')
    /\ map socket_id (CpuClusterRiscV.cpus c) = [Some 0; Some 0]
    /\ map cpu_clk_domain (CpuClusterRiscV.cpus c) = [2%nat; 2%nat]
    /\ CpuClusterRiscV.clk_domain c = 2%nat.
Proof.
  destruct (constructed_cores_uniform world0 (Forall_nil _) 2 "2GHz" "1.2V"
              MinorCPU None None None ltac:(lia))
    as (c & w' & E & _).
  exists c, w'. split; [exact E|].
  vm_compute in E. injection E as <- _. now repeat split.
Defined.

(** X3. Over a run of cluster constructions on one system, the cores of the
    [j]-th cluster carry as socket id the number of clusters registered
    before the run plus [j]: socket ids number the clusters in order of
    construction.  The registry grows by exactly the constructed clusters,
    in that order. *)
Theorem socket_ids_number_clusters
        (w : World) (Hwf : wf_world w) (rs : list ClusterRequest)
        (Hpos : Forall (fun r => 1 <= req_num_cpus r) rs) :
  exists cs w',
    construct_all rs w = (Ok cs, w')
    /\ (forall j c,
           nth_error cs j = Some c ->
           Forall (fun cpu =>
                     socket_id cpu
                     = Some (Z.of_nat (List.length (_clusters w) + j)))
                  (CpuClusterRiscV.cpus c))
    /\ _clusters w' = _clusters w ++ map CpuClusterRiscV.self cs
    /\ List.length cs = List.length rs.
Proof.
  revert w Hwf. induction Hpos as [|r rest Hr _ IH]; intros w Hwf.
  - exists [], w. split; [reflexivity|]. split; [|split].
    + intros [|j] c H; discriminate H.
    + cbn. now rewrite app_nil_r.
    + reflexivity.
  - unfold construct_all. cbn [mapM]. unfold construct at 1.
    destruct (init_explicit (req_num_cpus r) (req_cpu_clock r)
                (req_cpu_voltage r) (req_cpu_type r) (req_l1i_type r)
                (req_l1d_type r) (req_l2_type r) w ltac:(lia)
                (wf_world_fresh w Hwf))
      as (w1 & E & _ & _ & C1 & _ & N1).
    assert (Hwf1 : wf_world w1).
    { unfold wf_world in *. rewrite C1, N1. apply Forall_app. split.
      - eapply Forall_impl; [|exact Hwf]. cbn. intros. lia.
      - repeat constructor. lia. }
    destruct (IH w1 Hwf1) as (cs & w2 & E2 & S2 & C2 & L2).
    rewrite (bind_Ok _ _ _ _ _ E).
    unfold construct_all in E2. rewrite (bind_Ok _ _ _ _ _ E2).
    eexists (_ :: cs), w2. split; [reflexivity|]. split; [|split].
    + intros [|j] c H; cbn [nth_error] in H.
      * injection H as <-. cbn [CpuClusterRiscV.cpus].
        rewrite Nat.add_0_r.
        eapply Forall_impl; [|apply fresh_cpus_fresh].
        intros cpu Hc. apply Hc.
      * specialize (S2 j c H). rewrite C1, length_app in S2.
        cbn [List.length] in S2.
        replace (List.length (_clusters w) + S j)%nat
          with (List.length (_clusters w) + 1 + j)%nat by lia.
        exact S2.
    + rewrite C2, C1, <- app_assoc. reflexivity.
    + cbn [List.length]. now rewrite L2.
Qed.

Lemma socket_ids_number_clusters_witness :
  exists cs w',
    construct_all [two_cores; two_cores] world0 = (Ok cs, w')
    /\ map (fun c => map socket_id (CpuClusterRiscV.cpus c)) cs
       = [[Some 0; Some 0]; [Some 1; Some 1]]
    /\ _clusters w' = [0%nat; 5%nat].
Proof.
  destruct (socket_ids_number_clusters world0 (Forall_nil _)
              [two_cores; two_cores]
              ltac:(repeat constructor; cbn; lia))
    as (cs & w' & E & _).
  exists cs, w'. split; [exact E|].
  vm_compute in E. injection E as <- <-. split; reflexivity.
Defined.

(** ** The path from the cores to the bus *)

(** X4. On a cluster with an L2 type, [addL2] followed by [connectMemSide]
    builds the chain cores - crossbar - L2 - bus: every core's cached ports
    go to the new crossbar, the crossbar to the L2's [cpu_side], and the
    L2's [mem_side] to the bus.  For a bus that existed before the call,
    that last binding is the only one that reaches the bus: no core is
    wired to it directly. *)
Theorem addL2_then_connectMemSide
        (c : CpuClusterRiscV.t) (clk_domain bus : ObjRef) (w : World)
        (cls : CacheClass)
        (Htype : CpuClusterRiscV._l2_type c = Some cls)
        (Hbus : (bus < next_ref w)%nat) :
  let xbar := next_ref w in
  let l2 := mkCache (S (next_ref w)) cls in
  exists w',
    (c' <- CpuClusterRiscV.addL2 c clk_domain ;;
     CpuClusterRiscV.connectMemSide c' bus ;;;
     ret c') w
    = (Ok (CpuClusterRiscV.set_l2 c xbar l2), w')
    /\ bound_during w w'
       = map (fun cpu => ((cpu_ref cpu, cached_ports),
                          (xbar, cpu_side_ports)))
             (CpuClusterRiscV.cpus c)
         ++ [((xbar, mem_side_ports), (cache_ref l2, cpu_side));
             ((cache_ref l2, mem_side), (bus, cpu_side_ports))]
    /\ filter (fun b => Nat.eqb (fst (snd b)) bus) (bound_during w w')
       = [((cache_ref l2, mem_side), (bus, cpu_side_ports))].
Proof.
  intros xbar l2. unfold CpuClusterRiscV.addL2. rewrite Htype.
  erewrite bind_Ok.
  2:{ do 2 step.
      rewrite (bind_Ok _ _ _ _ _ (for_each_connectCachedPorts _ _ _)).
      step. reflexivity. }
  unfold CpuClusterRiscV.connectMemSide, try_except_AttributeError,
    CpuClusterRiscV.getattr_l2.
  cbn [CpuClusterRiscV.l2 CpuClusterRiscV.set_l2]. step.
  eexists. split; [reflexivity|]. unfold bound_during. world_simpl.
  rewrite <- !app_assoc, skipn_length_app. split; [reflexivity|].
  rewrite filter_app.
  assert (Hnone : forall l : list Cpu,
             filter (fun b : Port * Port => Nat.eqb (fst (snd b)) bus)
                    (map (fun cpu => ((cpu_ref cpu, cached_ports),
                                      (next_ref w, cpu_side_ports))) l)
             = []).
  { induction l as [|x l IH]; [reflexivity|]. cbn [map filter fst snd].
    replace (Nat.eqb (next_ref w) bus) with false
      by (symmetry; apply Nat.eqb_neq; lia).
    exact IH. }
  rewrite Hnone. cbn [app filter fst snd cache_ref].
  replace (Nat.eqb (S (next_ref w)) bus) with false
    by (symmetry; apply Nat.eqb_neq; lia).
  now rewrite Nat.eqb_refl.
Qed.

Lemma addL2_then_connectMemSide_witness :
  exists c c' w1 w',
    construct two_cores world0 = (Ok c, w1)
    /\ (c' <- CpuClusterRiscV.addL2 c (CpuClusterRiscV.clk_domain c) ;;
        CpuClusterRiscV.connectMemSide c' 0%nat ;;;
        ret c') w1
       = (Ok c', w')
    /\ bound_during w1 w'
       = [((3%nat, cached_ports), (5%nat, cpu_side_ports));
          ((4%nat, cached_ports), (5%nat, cpu_side_ports));
          ((5%nat, mem_side_ports), (6%nat, cpu_side));
          ((6%nat, mem_side), (0%nat, cpu_side_ports))].
Proof.
  destruct (construct two_cores world0) as [[c|e] w1] eqn:E;
    [|vm_compute in E; discriminate E].
  vm_compute in E. injection E as <- <-.
  match goal with
  | |- exists c c' w1 w', (Ok ?c0, ?w0) = _ /\ _ =>
      destruct (addL2_then_connectMemSide c0 2%nat 0%nat w0 devices_L2
                  eq_refl ltac:(cbn; lia)) as (w' & E' & B & _);
      exists c0; eexists; exists w0, w'
  end.
  split; [reflexivity|]. split; [exact E'|exact B].
Defined.

(** ** The externally-modelled cluster, count by count *)

(** X5. For one to four cores the externally-modelled cluster is
    constructed: the class chosen is the one at index [num_cpus - 1] of the
    table, the cluster holds that single model (its [cpus] list has one
    element whatever the count) whose cores are all configured alike, the
    system registers the cluster with [num_cpus] cores, the controller is
    told [num_cpus] affinities, and the hub ends up with all six bridges. *)
Theorem FastmodelCluster_supported_counts
        (system : FastmodelCluster.System) (num_cpus : Z)
        (cpu_clock cpu_voltage : string) (w : World)
        (redist_base : Z) (others : list Z)
        (Hbase : FastmodelCluster.redist_bases
                   (FastmodelCluster.realview_gic system)
                 = redist_base :: others)
        (Hwf : wf_world w)
        (Hrange : 1 <= num_cpus <= 4) :
  exists c model w',
    FastmodelCluster.__init__ system num_cpus cpu_clock cpu_voltage w
    = (Ok c, w')
    /\ FastmodelCluster.cpus c = [model]
    /\ getitem FastmodelCluster.CpuClasses (num_cpus - 1)
       = Ok (FastmodelCluster.model_class model)
    /\ Z.of_nat (List.length (FastmodelCluster.cores model)) = num_cpus
    /\ Forall (configured_core (FastmodelCluster.realview_gic system))
              (FastmodelCluster.cores model)
    /\ _clusters w' = _clusters w ++ [FastmodelCluster.self c]
    /\ _num_cpus w' = _num_cpus w + num_cpus
    /\ cpu_affinities w'
       = String.concat "," (map FastmodelCluster.fmt_affinity
                                (range num_cpus))
    /\ (exists hub, gic_hub w' = Some hub
                    /\ a2t hub <> None /\ t2g hub <> None).
Proof.
  pose proof (wf_world_fresh w Hwf) as Hfresh.
  assert (Hcases : num_cpus = 1 \/ num_cpus = 2 \/ num_cpus = 3
                   \/ num_cpus = 4) by lia.
  unfold FastmodelCluster.__init__, FastmodelCluster.init_with. rewrite Hbase.
  destruct Hcases as [-> | [-> | [-> | ->]]];
    (do 27 step;
     erewrite bind_Ok;
       [|apply addCpuCluster_fresh; [exact Hfresh|reflexivity]];
     eexists _, _, _; split; [reflexivity|];
     cbn [FastmodelCluster.cpus FastmodelCluster.model_class
          FastmodelCluster.cores FastmodelCluster.self map List.length];
     world_simpl;
     repeat split;
     try (repeat constructor; reflexivity);
     eexists; repeat split; discriminate).
Qed.

Lemma FastmodelCluster_supported_counts_witness :
  exists c model w',
    FastmodelCluster.__init__ realview0 3 "1GHz" "1.0V" world_fs
    = (Ok c, w')
    /\ FastmodelCluster.cpus c = [model]
    /\ FastmodelCluster.model_class model = FastModelCortexA76x3
    /\ _num_cpus w' = 3
    /\ cpu_affinities w' = "0.0.0.0,0.0.1.0,0.0.2.0"%string.
Proof.
  destruct (FastmodelCluster_supported_counts
              realview0 3 "1GHz" "1.0V" world_fs 0x2f100000 [] eq_refl
              (Forall_nil _) ltac:(lia))
    as (c & model & w' & E & C & G & _ & _ & _ & N & A & _).
  exists c, model, w'. split; [exact E|]. split; [exact C|].
  split; [|split; [exact N|exact A]].
  change (Ok FastModelCortexA76x3
          = Ok (FastmodelCluster.model_class model)) in G.
  now injection G as <-.
Defined.

Lemma getitem_below {A : Type} (l : list A) (i : Z) :
  i < - Z.of_nat (List.length l) -> getitem l i = Raise IndexError.
Proof.
  intros H. unfold getitem. cbv zeta.
  replace (i <? 0) with true by (symmetry; apply Z.ltb_lt; lia).
  replace (i + Z.of_nat (List.length l) <? 0) with true
    by (symmetry; apply Z.ltb_lt; lia).
  reflexivity.
Qed.

(** ** The command lines *)

Lemma mapM_app_raise {A B : Type} (f : A -> M B) (l1 : list A) (x : A)
      (l2 : list A) :
  forall w bs w1 e w2,
    mapM f l1 w = (Ok bs, w1) -> f x w1 = (Raise e, w2) ->
    mapM f (l1 ++ x :: l2) w = (Raise e, w2).
Proof.
  induction l1 as [|a l1 IH]; intros w bs w1 e w2 E1 E2.
  - injection E1 as <- <-. cbn [app mapM]. unfold bind. now rewrite E2.
  - cbn [app mapM] in *. apply bind_Ok_inv in E1.
    destruct E1 as (b & wa & Ea & E1). apply bind_Ok_inv in E1.
    destruct E1 as (bs' & wb & Eb & Er). injection Er as _ <-.
    rewrite (bind_Ok _ _ _ _ _ Ea).
    now rewrite (bind_Raise _ _ _ _ _ (IH _ _ _ _ _ Eb E2)).
Qed.

Lemma combine_app_cons {A B : Type} (r : list A) (i : A) (r2 : list A)
      (l1 : list B) (x : B) (l2 : list B) :
  List.length r = List.length l1 ->
  combine (r ++ i :: r2) (l1 ++ x :: l2)
  = combine r l1 ++ (i, x) :: combine r2 l2.
Proof.
  revert l1. induction r as [|a r IH]; intros [|b l1] H;
    try discriminate H; [reflexivity|].
  cbn [app combine]. f_equal. apply IH. now injection H.
Qed.

Lemma enumerate_app_cons {A : Type} (l1 : list A) (x : A) (l2 : list A) :
  exists rest,
    enumerate (l1 ++ x :: l2)
    = enumerate l1 ++ (Z.of_nat (List.length l1), x) :: rest.
Proof.
  unfold enumerate. rewrite length_app, Nat2Z.inj_add, range_app by lia.
  cbn [List.length]. rewrite Nat2Z.inj_succ, <- Z.add_1_l.
  rewrite (range_app 1) by lia.
  replace (range 1) with [0] by reflexivity. cbn [map app].
  rewrite Z.add_0_r. eexists. apply combine_app_cons.
  unfold range. rewrite length_map, length_seq. lia.
Qed.

Section CommandLines.

Context {G : Gem5}.

Lemma get_processes_loop_inv (ics : list (Z * string)) :
  forall w ps w',
    mapM (fun ic =>
            let idx := fst ic in
            argv <- lift (shlex_split (snd ic)) ;;
            exe <- lift (getitem argv 0) ;;
            r <- new (K_Process (100 + idx)) ;;
            let process := mkProcess r (100 + idx) os_getcwd argv exe
                                     os_getgid in
            print (info_command (idx + 1) (cmd process)) ;;;
            ret process) ics w
    = (Ok ps, w') ->
    commands_parse (map snd ics)
    /\ Forall (fun p => getitem (cmd p) 0 = Ok (executable p)
                        /\ cwd p = os_getcwd /\ gid p = os_getgid) ps
    /\ map proc_ref ps = seq (next_ref w) (List.length ics)
    /\ objects w'
       = objects w ++ map (fun p => (proc_ref p, K_Process (pid p))) ps
    /\ stdout w'
       = stdout w ++ map (fun p => info_command (pid p - 99) (cmd p)) ps
    /\ bindings w' = bindings w.
Proof.
  induction ics as [|[idx c] rest IH]; intros w ps w' E.
  - injection E as <- <-. cbn [map List.length seq].
    rewrite !app_nil_r. repeat split; constructor.
  - cbn [mapM fst snd] in E. apply bind_Ok_inv in E.
    destruct E as (p & w1 & Ep & E). apply bind_Ok_inv in E.
    destruct E as (ps' & w2 & Eps & E). injection E as <- <-.
    remember (100 + idx) as n eqn:Hn in Ep.
    destruct (shlex_split c) as [[|exe argv]|e] eqn:Hc;
      [discriminate Ep|..|discriminate Ep].
    injection Ep as <- <-. subst n.
    destruct (IH _ _ _ Eps) as (Hparse & Hfields & Hrefs & Hobj & Hout & Hb).
    revert Hrefs Hobj Hout Hb. world_simpl. intros Hrefs Hobj Hout Hb.
    split; [constructor; [now exists exe, argv|exact Hparse]|].
    split; [constructor; [now repeat split|exact Hfields]|].
    cbn [map List.length seq proc_ref pid cmd].
    split; [now rewrite Hrefs|].
    split; [now rewrite Hobj, <- app_assoc|].
    split; [|exact Hb].
    rewrite Hout, <- app_assoc. cbn [app]. do 3 f_equal. lia.
Qed.

End CommandLines.

(** X8. [get_processes] returns if and only if every command splits into
    a program and its arguments.  The list it returns has one process per
    command, in order, with pid 100 plus the position of the command, the
    words of the command as [cmd], its first word as executable, the
    working directory and group of the script; the processes are exactly
    the objects the call constructs, each a fresh one, and one line is
    printed per command, numbered from 1.  No port is bound. *)
Theorem get_processes_one_process_per_command
        {G : Gem5} (cmds : list string) (w : World) :
  ((exists ps w', get_processes cmds w = (Ok ps, w'))
   <-> commands_parse cmds)
  /\ forall ps w',
      get_processes cmds w = (Ok ps, w') ->
      map pid ps
      = map (fun i => 100 + i) (range (Z.of_nat (List.length cmds)))
      /\ map (fun p => Ok (cmd p)) ps = map shlex_split cmds
      /\ Forall (fun p => getitem (cmd p) 0 = Ok (executable p)
                          /\ cwd p = os_getcwd /\ gid p = os_getgid) ps
      /\ constructed_during w w'
         = map (fun p => (proc_ref p, K_Process (pid p))) ps
      /\ NoDup (map proc_ref ps)
      /\ stdout w'
         = stdout w ++ map (fun p => info_command (pid p - 99) (cmd p)) ps
      /\ bound_during w w' = [].
Proof.
  assert (Hinv : forall ps w',
             get_processes cmds w = (Ok ps, w') -> commands_parse cmds).
  { intros ps w' E. apply get_processes_loop_inv in E.
    destruct E as (H & _). unfold enumerate in H.
    rewrite map_snd_combine in H; [exact H|].
    unfold range. rewrite length_map, length_seq. lia. }
  split.
  - split.
    + intros (ps & w' & E). eapply Hinv; eauto.
    + intros H. destruct (get_processes_returns cmds w H) as (ps & w' & E & _).
      now exists ps, w'.
  - intros ps w' E.
    destruct (get_processes_returns cmds w (Hinv _ _ E))
      as (ps0 & w0 & E0 & Hpid & Hcmd).
    rewrite E in E0. injection E0 as <- <-.
    apply get_processes_loop_inv in E.
    destruct E as (_ & Hfields & Hrefs & Hobj & Hout & Hb).
    split; [exact Hpid|]. split; [exact Hcmd|]. split; [exact Hfields|].
    split; [unfold constructed_during; rewrite Hobj;
            apply skipn_length_app|].
    split; [rewrite Hrefs; apply seq_NoDup|]. split; [exact Hout|].
    unfold bound_during. rewrite Hb.
    rewrite <- (app_nil_r (bindings w)) at 2. apply skipn_length_app.
Qed.

(** X9. The first command that does not split into a program and its
    arguments stops [get_processes]: with the error of [shlex.split], or
    with IndexError at [argv[0]] when the command has no word at all.
    The commands before it have been handled by then, their processes
    constructed and their lines printed; nothing of the commands after it
    is. *)
Theorem get_processes_first_failure
        {G : Gem5} (good rest : list string) (c : string) (e : exn)
        (w : World)
        (Hgood : commands_parse good)
        (Hbad : shlex_split c = Raise e
                \/ (shlex_split c = Ok [] /\ e = IndexError)) :
  get_processes (good ++ c :: rest) w
  = (Raise e, snd (get_processes good w)).
Proof.
  destruct (get_processes_returns good w Hgood) as (ps & w1 & E & _).
  rewrite E. cbn [snd]. unfold get_processes in *.
  destruct (enumerate_app_cons good c rest) as (tail & ->).
  eapply mapM_app_raise; [exact E|]. cbn [fst snd].
  destruct Hbad as [Hc|(Hc & ->)]; rewrite Hc; reflexivity.
Qed.

Lemma get_processes_first_failure_witness :
  @get_processes sample_gem5 ["ls -l"; ""; "pwd"]%string world0
  = (Raise IndexError,
     snd (@get_processes sample_gem5 ["ls -l"]%string world0)).
Proof.
  apply (@get_processes_first_failure sample_gem5 ["ls -l"%string]
           ["pwd"%string] ""%string IndexError world0).
  - constructor; [|constructor].
    exists "ls"%string, ["-l"%string]. reflexivity.
  - right. split; reflexivity.
Defined.

(** ** The cache-size overrides *)

Lemma cpu_name_eqb_neq k k' : k <> k' -> cpu_name_eqb k k' = false.
Proof. destruct k, k'; intros H; try reflexivity; now elim H. Qed.

(** X10. The overrides at the head of [create] always go through and
    touch only module state: an L1 size is replaced only by a non-empty
    argument, the L2 size only by an argument that is neither empty nor
    ["0"], and the table of CPU types changes only for [--l2_size 0],
    only in the entry of the chosen CPU, and only in its L2 class, which
    becomes None.  No entry ever gets an L2 class back, and no object is
    constructed, no port bound, nothing registered or printed. *)
Theorem apply_overrides_scope (args : Args) (w : World) :
  exists w',
    apply_overrides args w = (Ok tt, w')
    /\ (forall k, k <> cpu args -> cpu_types w' k = cpu_types w k)
    /\ cpu_types w' (cpu args)
       = (if (l2_size args =? "0")%string
          then (entry_0 (cpu_types w (cpu args)),
                entry_1 (cpu_types w (cpu args)),
                entry_2 (cpu_types w (cpu args)), None)
          else cpu_types w (cpu args))
    /\ (forall k, entry_3 (cpu_types w k) = None ->
                  entry_3 (cpu_types w' k) = None)
    /\ L1D_size w'
       = (if (l1d_size args =? "")%string then L1D_size w
          else l1d_size args)
    /\ L1I_size w'
       = (if (l1i_size args =? "")%string then L1I_size w
          else l1i_size args)
    /\ L2_size w'
       = (if ((l2_size args =? "") || (l2_size args =? "0"))%string
          then L2_size w else l2_size args)
    /\ objects w' = objects w
    /\ bindings w' = bindings w
    /\ _clusters w' = _clusters w
    /\ _num_cpus w' = _num_cpus w
    /\ stdout w' = stdout w
    /\ instantiated w' = instantiated w.
Proof.
  unfold apply_overrides.
  destruct (l1d_size args =? "")%string, (l1i_size args =? "")%string;
    cbn [negb]; unfold bind, ret; world_simpl;
    (destruct (String.eqb_spec (l2_size args) "0") as [H0|H0];
     [rewrite H0; cbn [String.eqb Ascii.eqb Bool.eqb negb orb]
     |destruct (l2_size args =? "")%string; cbn [negb orb]]);
    world_simpl; eexists; (split; [reflexivity|]); world_simpl;
    repeat match goal with
           | |- _ /\ _ => split
           end;
    try reflexivity;
    try (intros k Hk; unfold setitem_cpu_types;
         first [rewrite (cpu_name_eqb_neq _ _ Hk); reflexivity
               |destruct (cpu_name_eqb k (cpu args)); [reflexivity|exact Hk]
               |exact Hk]);
    try (unfold setitem_cpu_types; now rewrite cpu_name_eqb_refl).
Qed.

(** ** Loops over the cores by index *)

Lemma range_succ (k : nat) :
  range (Z.of_nat (S k)) = 0 :: map (fun i => 1 + i) (range (Z.of_nat k)).
Proof.
  rewrite Nat2Z.inj_succ, <- Z.add_1_l, (range_app 1) by lia. reflexivity.
Qed.

Lemma modify_item_middle {A : Type} (done : list A) (a : A) (rest : list A)
      (f : A -> A) :
  modify_item (done ++ a :: rest) (Z.of_nat (List.length done) + 0) f
  = Ok (done ++ f a :: rest).
Proof.
  destruct (modify_item_ok (done ++ a :: rest)
                           (Z.of_nat (List.length done) + 0) f)
    as (x & Ex & ->).
  { rewrite length_app. cbn [List.length]. lia. }
  rewrite Z.add_0_r, Nat2Z.id in *.
  rewrite nth_error_app2, Nat.sub_diag in Ex by lia. injection Ex as <-.
  f_equal. induction done as [|d done IH]; [reflexivity|].
  cbn [List.length firstn skipn app] in *. now rewrite IH.
Qed.

(** The loop by index is a loop over the cores it reaches. *)
Lemma foldM_modify_prefix (change : M (Cpu -> Cpu)) (todo : list Cpu) :
  forall (done tail : list Cpu) (w : World),
    foldM (fun cs i => f <- change ;; lift (modify_item cs i f))
          (map (fun i => Z.of_nat (List.length done) + i)
               (range (Z.of_nat (List.length todo))))
          (done ++ todo ++ tail) w
    = (cs <- mapM (fun cpu => f <- change ;; ret (f cpu)) todo ;;
       ret (done ++ cs ++ tail)) w.
Proof.
  induction todo as [|a todo IH]; intros done tail w.
  - reflexivity.
  - cbn [List.length]. rewrite range_succ. cbn [map foldM mapM app].
    destruct (change w) as [[f|e] w1] eqn:E.
    + assert (EL : bind change
                        (fun f0 => lift (modify_item
                                           (done ++ a :: todo ++ tail)
                                           (Z.of_nat (List.length done) + 0)
                                           f0)) w
                   = (Ok ((done ++ [f a]) ++ todo ++ tail), w1)).
      { rewrite (bind_Ok _ _ _ _ _ E). unfold lift.
        rewrite modify_item_middle. now rewrite <- app_assoc. }
      rewrite (bind_Ok _ _ _ _ _ EL). rewrite map_map.
      rewrite (map_ext _ (fun i => Z.of_nat (List.length (done ++ [f a]))
                                   + i))
        by (intros i; rewrite length_app; cbn [List.length]; lia).
      rewrite IH.
      assert (ER : bind change (fun f0 => ret (f0 a)) w = (Ok (f a), w1))
        by (now rewrite (bind_Ok _ _ _ _ _ E)).
      destruct (mapM (fun cpu => f0 <- change ;; ret (f0 cpu)) todo w1)
        as [[cs|e] w2] eqn:E2.
      * rewrite (bind_Ok _ _ _ _ _ E2). symmetry.
        erewrite bind_Ok;
          [|rewrite (bind_Ok _ _ _ _ _ ER), (bind_Ok _ _ _ _ _ E2);
            reflexivity].
        unfold ret. now rewrite <- app_assoc.
      * rewrite (bind_Raise _ _ _ _ _ E2). symmetry.
        erewrite bind_Raise; [reflexivity|].
        rewrite (bind_Ok _ _ _ _ _ ER).
        now rewrite (bind_Raise _ _ _ _ _ E2).
    + erewrite bind_Raise; [|apply bind_Raise; exact E]. symmetry.
      erewrite bind_Raise; [reflexivity|].
      apply bind_Raise. apply bind_Raise. exact E.
Qed.

Lemma for_cpus_prefix (c : CpuClusterRiscV.t) (n : Z)
      (change : M (Cpu -> Cpu)) (w : World) :
  n <= Z.of_nat (List.length (CpuClusterRiscV.cpus c)) ->
  SimpleSeSystem.for_cpus c n change w
  = (cs <- mapM (fun cpu => f <- change ;; ret (f cpu))
                (firstn (Z.to_nat n) (CpuClusterRiscV.cpus c)) ;;
     ret (CpuClusterRiscV.set_cpus
            c (cs ++ skipn (Z.to_nat n) (CpuClusterRiscV.cpus c)))) w.
Proof.
  intros Hn. unfold SimpleSeSystem.for_cpus.
  pose proof (foldM_modify_prefix
                change (firstn (Z.to_nat n) (CpuClusterRiscV.cpus c))
                [] (skipn (Z.to_nat n) (CpuClusterRiscV.cpus c)) w) as H.
  cbn [app List.length] in H. rewrite firstn_skipn in H.
  rewrite length_firstn, Nat.min_l in H by lia.
  rewrite (map_ext _ (fun i => i)), map_id in H by reflexivity.
  assert (Hr : range (Z.of_nat (Z.to_nat n)) = range n).
  { unfold range. now rewrite Nat2Z.id. }
  rewrite Hr in H. unfold bind at 1. rewrite H. unfold bind, ret.
  destruct (mapM _ _ w) as [[cs|e] w1]; reflexivity.
Qed.

Lemma mapM_pure (f : Cpu -> Cpu) (l : list Cpu) (w : World) :
  mapM (fun cpu => g <- ret f ;; ret (g cpu)) l w = (Ok (map f l), w).
Proof.
  induction l as [|a l IH]; [reflexivity|]. cbn [mapM map].
  rewrite (bind_Ok _ _ w (f a) w) by reflexivity.
  now rewrite (bind_Ok _ _ _ _ _ IH).
Qed.

Lemma foldM_app {A S : Type} (body : S -> A -> M S) (l1 l2 : list A) :
  forall s w,
    foldM body (l1 ++ l2) s w = (s' <- foldM body l1 s ;; foldM body l2 s') w.
Proof.
  induction l1 as [|x l1 IH]; intros s w; [reflexivity|].
  cbn [app foldM]. destruct (body s x w) as [[s1|e] w1] eqn:E.
  - rewrite (bind_Ok _ _ _ _ _ E), IH. symmetry.
    unfold bind at 1. rewrite (bind_Ok _ _ _ _ _ E). reflexivity.
  - rewrite (bind_Raise _ _ _ _ _ E). symmetry.
    unfold bind at 1. now rewrite (bind_Raise _ _ _ _ _ E).
Qed.

(** X11. The index loop of the script, [for i in range(n):
    cpus[i].attr = v] with a value that needs no construction, sets the
    attribute of the first [n] cores and of no other, in place, and
    changes nothing in the world; it is the identity for [n <= 0], and it
    raises IndexError, at index [len(cpus)], when [n] exceeds the number
    of cores. *)
Theorem for_cpus_sets_first_n
        (c : CpuClusterRiscV.t) (n : Z) (f : Cpu -> Cpu) (w : World) :
  SimpleSeSystem.for_cpus c n (ret f) w
  = (if n <=? Z.of_nat (List.length (CpuClusterRiscV.cpus c))
     then Ok (CpuClusterRiscV.set_cpus
                c (map f (firstn (Z.to_nat n) (CpuClusterRiscV.cpus c))
                   ++ skipn (Z.to_nat n) (CpuClusterRiscV.cpus c)))
     else Raise IndexError,
     w).
Proof.
  destruct (Z.leb_spec n (Z.of_nat (List.length (CpuClusterRiscV.cpus c))))
    as [Hn|Hn].
  - rewrite for_cpus_prefix by exact Hn.
    now rewrite (bind_Ok _ _ _ _ _ (mapM_pure f _ w)).
  - unfold SimpleSeSystem.for_cpus.
    pose proof (for_cpus_prefix
                  c (Z.of_nat (List.length (CpuClusterRiscV.cpus c)))
                  (ret f) w (Z.le_refl _)) as H.
    unfold SimpleSeSystem.for_cpus in H.
    rewrite Nat2Z.id, firstn_all, skipn_all in H.
    rewrite (bind_Ok _ _ _ _ _ (mapM_pure f _ w)), app_nil_r in H.
    set (len := Z.of_nat (List.length (CpuClusterRiscV.cpus c))) in *.
    replace n with (len + (1 + (n - len - 1))) by lia.
    rewrite (range_app len), (range_app 1) by lia.
    replace (range 1) with [0] by reflexivity. cbn [map app].
    destruct (foldM (fun cs i => g <- ret f ;; lift (modify_item cs i g))
                    (range len) (CpuClusterRiscV.cpus c) w)
      as [[cs|e] w1] eqn:E;
      [|rewrite (bind_Raise _ _ _ _ _ E) in H; discriminate H].
    rewrite (bind_Ok _ _ _ _ _ E) in H. injection H as Hcs <-.
    erewrite bind_Raise; [reflexivity|].
    rewrite foldM_app. rewrite (bind_Ok _ _ _ _ _ E). cbn [foldM].
    erewrite bind_Raise; [reflexivity|].
    rewrite (bind_Ok _ _ w1 f w1) by reflexivity.
    unfold lift, modify_item, getitem. cbv zeta.
    assert (Hlen : Z.of_nat (List.length cs) = len).
    { rewrite Hcs, length_map. reflexivity. }
    assert (Hf : (len + 0 <? 0) = false) by (apply Z.ltb_ge; lia).
    repeat (rewrite Hf; cbv iota).
    replace (nth_error cs (Z.to_nat (len + 0))) with (@None Cpu);
      [reflexivity|].
    symmetry. apply nth_error_None. lia.
Qed.

(** ** The assembly of the system, step by step *)

Lemma Forall2_map_r {A B C : Type} (R : A -> B -> Prop) (R' : A -> C -> Prop)
      (f : B -> C) (l0 : list A) (l : list B) :
  Forall2 R l0 l -> (forall x y, R x y -> R' x (f y)) ->
  Forall2 R' l0 (map f l).
Proof. intros F H. induction F; constructor; auto. Qed.

Lemma Forall2_compose {A B C : Type} (R1 : A -> B -> Prop)
      (R2 : B -> C -> Prop) (R3 : A -> C -> Prop) (l0 : list A) :
  forall l1 l2,
    Forall2 R1 l0 l1 -> Forall2 R2 l1 l2 ->
    (forall x y z, R1 x y -> R2 y z -> R3 x z) -> Forall2 R3 l0 l2.
Proof.
  induction l0 as [|x l0 IH]; intros l1 l2 F1 F2 H;
    inversion F1; subst; inversion F2; subst; constructor; eauto.
Qed.

Ltac settle :=
  repeat match goal with
         | H : settled _ _ _ _ _ _ |- _ => destruct H as (? & ? & ?)
         | H : l1_attached _ _ _ _ |- _ => destruct H as (? & ? & ?)
         end;
  repeat match goal with
         | x : Cpu |- _ => destruct x
         end;
  unfold settled, with_attributes, addPrivateSplitL1Caches, set_branchPred,
    set_max_insts_all_threads, addSimPointProbe in *;
  cbn [cpu_ref cpu_class cpu_id cpu_clk_domain threads_created
       interrupt_controller_created socket_id icache dcache branchPred
       max_insts_all_threads simpoint_probe workload] in *;
  repeat match goal with
         | H : mkCpu _ _ _ _ _ _ _ _ _ _ _ _ _ = mkCpu _ _ _ _ _ _ _ _ _ _ _ _ _
           |- _ => injection H as ?; subst
         end;
  repeat split; try reflexivity; try assumption; try congruence.

Lemma settled_addL1 a b mi sp ti td x y z :
  settled a b mi sp x y -> l1_attached ti td y z -> settled ti td mi sp x z.
Proof. intros H1 H2. settle. Qed.

Lemma settled_branchPred a b mi sp bp x y :
  settled a b mi sp x y -> settled a b mi sp x (set_branchPred bp y).
Proof. intros H. settle. Qed.

Lemma settled_max_insts a b mi sp n x y :
  settled a b mi sp x y ->
  settled a b (Some n) sp x (set_max_insts_all_threads n y).
Proof. intros H. settle. Qed.

Lemma settled_simpoint a b mi sp n x y :
  settled a b mi sp x y -> settled a b mi (Some n) x (addSimPointProbe y n).
Proof. intros H. settle. Qed.

Lemma fresh_core_branchPred cls clk socket x :
  fresh_core cls clk socket x -> branchPred x = None.
Proof.
  intros (_ & _ & _ & _ & _ & _ & _ & H & _). unfold getattr_branchPred in H.
  destruct (branchPred x); [discriminate H|reflexivity].
Qed.

Lemma settled_fresh cls clk socket x :
  fresh_core cls clk socket x -> settled None None None None x x.
Proof.
  intros (_ & _ & _ & _ & _ & Hi & Hd & _ & Hm & Hs & _).
  destruct x. unfold settled, with_attributes. cbn in *. subst.
  repeat split.
Qed.

Lemma addL1_settles (c : CpuClusterRiscV.t) (l0 : list Cpu) a b mi sp
      (w : World) :
  Forall2 (settled a b mi sp) l0 (CpuClusterRiscV.cpus c) ->
  exists cs w',
    CpuClusterRiscV.addL1 c w = (Ok (CpuClusterRiscV.set_cpus c cs), w')
    /\ Forall2 (settled (CpuClusterRiscV._l1i_type c)
                        (CpuClusterRiscV._l1d_type c) mi sp) l0 cs
    /\ map branchPred cs = map branchPred (CpuClusterRiscV.cpus c)
    /\ bindings w' = bindings w
    /\ objects w' = objects w ++ map cache_object (l1_caches cs)
    /\ _clusters w' = _clusters w
    /\ _num_cpus w' = _num_cpus w.
Proof.
  intros F.
  assert (P1 : preserves _clusters (CpuClusterRiscV.addL1 c)) by frame.
  assert (P2 : preserves _num_cpus (CpuClusterRiscV.addL1 c)) by frame.
  specialize (P1 w). specialize (P2 w). revert P1 P2.
  unfold CpuClusterRiscV.addL1.
  destruct (addL1_loop (CpuClusterRiscV._l1i_type c)
                       (CpuClusterRiscV._l1d_type c)
                       (CpuClusterRiscV.cpus c) w)
    as (cs & w' & E & F1 & _ & _ & O & B).
  rewrite (bind_Ok _ _ _ _ _ E). cbn [snd ret]. intros P1 P2.
  exists cs, w'. split; [reflexivity|].
  split; [eapply Forall2_compose; [exact F|exact F1|]; intros x y z;
          apply settled_addL1|].
  split.
  { clear -F1. induction F1 as [|x y l l' (H & _) _ IH]; [reflexivity|].
    cbn [map]. rewrite IH, H. reflexivity. }
  split; [exact B|]. split; [exact O|]. split; assumption.
Qed.

Lemma addL2_explicit (c : CpuClusterRiscV.t) (clk : ObjRef) (w : World) :
  exists w',
    CpuClusterRiscV.addL2 c clk w
    = (Ok (match CpuClusterRiscV._l2_type c with
           | Some cls =>
               CpuClusterRiscV.set_l2 c (next_ref w)
                                      (mkCache (S (next_ref w)) cls)
           | None => c
           end), w')
    /\ bindings w'
       = bindings w
         ++ match CpuClusterRiscV._l2_type c with
            | Some cls =>
                map (fun cpu => ((cpu_ref cpu, cached_ports),
                                 (next_ref w, cpu_side_ports)))
                    (CpuClusterRiscV.cpus c)
                ++ [((next_ref w, mem_side_ports),
                     (S (next_ref w), cpu_side))]
            | None => []
            end
    /\ objects w'
       = objects w
         ++ match CpuClusterRiscV._l2_type c with
            | Some cls =>
                [(next_ref w, K_L2XBar 64 clk);
                 (S (next_ref w), K_Cache cls)]
            | None => []
            end
    /\ _clusters w' = _clusters w
    /\ _num_cpus w' = _num_cpus w.
Proof.
  unfold CpuClusterRiscV.addL2.
  destruct (CpuClusterRiscV._l2_type c) as [cls|].
  - do 2 step. rewrite (bind_Ok _ _ _ _ _ (for_each_connectCachedPorts _ _ _)).
    step. eexists. split; [reflexivity|]. world_simpl.
    split; [now rewrite <- app_assoc|].
    split; [now rewrite <- app_assoc|]. now split.
  - exists w. split; [reflexivity|]. rewrite !app_nil_r.
    now repeat split.
Qed.

Lemma connectMemSide_explicit (c : CpuClusterRiscV.t) (bus : ObjRef)
      (w : World) :
  CpuClusterRiscV.connectMemSide c bus w
  = (Ok tt,
     set_bindings w
       (bindings w
        ++ match CpuClusterRiscV.l2 c with
           | Some cache =>
               [((cache_ref cache, mem_side), (bus, cpu_side_ports))]
           | None =>
               map (fun cpu => ((cpu_ref cpu, cached_ports),
                                (bus, cpu_side_ports)))
                   (CpuClusterRiscV.cpus c)
           end)).
Proof.
  unfold CpuClusterRiscV.connectMemSide, try_except_AttributeError,
    CpuClusterRiscV.getattr_l2.
  destruct (CpuClusterRiscV.l2 c) as [cache|].
  - reflexivity.
  - unfold bind, raise. now rewrite for_each_connectCachedPorts.
Qed.

Lemma branchPred_loop (cls : BranchPredClass) (l : list Cpu) :
  forall w,
  exists w',
    mapM (fun cpu =>
            f <- (bp <- new (K_BranchPred cls) ;; ret (set_branchPred bp)) ;;
            ret (f cpu)) l w
    = (Ok (map (fun rc => set_branchPred (fst rc) (snd rc))
               (combine (seq (next_ref w) (List.length l)) l)), w')
    /\ objects w'
       = objects w
         ++ map (fun r => (r, K_BranchPred cls))
                (seq (next_ref w) (List.length l))
    /\ bindings w' = bindings w
    /\ _clusters w' = _clusters w
    /\ _num_cpus w' = _num_cpus w.
Proof.
  induction l as [|a l IH]; intros w.
  - exists w. split; [reflexivity|]. cbn [List.length seq map].
    rewrite app_nil_r. now repeat split.
  - cbn [mapM List.length seq combine map fst snd].
    destruct (IH (set_heap w (S (next_ref w))
                           (objects w ++ [(next_ref w, K_BranchPred cls)])))
      as (w' & E & O & B & C & N).
    revert E O B C N. world_simpl. intros E O B C N.
    erewrite bind_Ok; [|reflexivity]. cbv beta.
    rewrite (bind_Ok _ _ _ _ _ E).
    exists w'. split; [reflexivity|]. rewrite O, <- app_assoc.
    now repeat split.
Qed.

Lemma settled_predictors a b mi sp (l0 l : list Cpu) :
  Forall2 (settled a b mi sp) l0 l ->
  forall r,
    Forall2 (settled a b mi sp) l0
            (map (fun rc => set_branchPred (fst rc) (snd rc))
                 (combine (seq r (List.length l)) l)).
Proof.
  induction 1 as [|x y l0 l H _ IH]; intros r; [constructor|].
  cbn [List.length seq combine map fst snd].
  constructor; [now apply settled_branchPred|apply IH].
Qed.

Lemma branchPred_predictors (l : list Cpu) :
  forall r,
    map branchPred (map (fun rc => set_branchPred (fst rc) (snd rc))
                        (combine (seq r (List.length l)) l))
    = map Some (seq r (List.length l)).
Proof.
  induction l as [|y l IH]; intros r; [reflexivity|].
  cbn [List.length seq combine map fst snd]. now rewrite IH.
Qed.

Lemma l1_caches_predictors (l : list Cpu) :
  forall r,
    l1_caches (map (fun rc => set_branchPred (fst rc) (snd rc))
                   (combine (seq r (List.length l)) l))
    = l1_caches l.
Proof.
  induction l as [|y l IH]; intros r; [reflexivity|].
  cbn [List.length seq combine map fst snd l1_caches flat_map].
  fold (l1_caches l).
  fold (l1_caches (map (fun rc => set_branchPred (fst rc) (snd rc))
                       (combine (seq (S r) (List.length l)) l))).
  now rewrite IH.
Qed.

Lemma l1_caches_map (f : Cpu -> Cpu) (l : list Cpu) :
  (forall x, icache (f x) = icache x /\ dcache (f x) = dcache x) ->
  l1_caches (map f l) = l1_caches l.
Proof.
  intros H. induction l as [|y l IH]; [reflexivity|].
  cbn [map l1_caches flat_map]. fold (l1_caches l).
  fold (l1_caches (map f l)). destruct (H y) as (-> & ->).
  now rewrite IH.
Qed.

Lemma for_cpus_branchPred (cls : BranchPredClass) (c : CpuClusterRiscV.t)
      (n : Z) (w : World) :
  Z.of_nat (List.length (CpuClusterRiscV.cpus c)) = n ->
  exists cs w',
    SimpleSeSystem.for_cpus
      c n (bp <- new (K_BranchPred cls) ;; ret (set_branchPred bp)) w
    = (Ok (CpuClusterRiscV.set_cpus c cs), w')
    /\ (forall l0 a b mi sp,
           Forall2 (settled a b mi sp) l0 (CpuClusterRiscV.cpus c) ->
           Forall2 (settled a b mi sp) l0 cs)
    /\ map branchPred cs
       = map Some (seq (next_ref w) (List.length (CpuClusterRiscV.cpus c)))
    /\ objects w'
       = objects w
         ++ map (fun r => (r, K_BranchPred cls))
                (seq (next_ref w) (List.length (CpuClusterRiscV.cpus c)))
    /\ bindings w' = bindings w
    /\ _clusters w' = _clusters w
    /\ _num_cpus w' = _num_cpus w
    /\ l1_caches cs = l1_caches (CpuClusterRiscV.cpus c).
Proof.
  intros Hn. rewrite for_cpus_prefix by lia.
  rewrite <- Hn, Nat2Z.id, firstn_all, skipn_all.
  destruct (branchPred_loop cls (CpuClusterRiscV.cpus c) w)
    as (w' & E & O & B & C & N).
  rewrite (bind_Ok _ _ _ _ _ E). rewrite app_nil_r.
  eexists _, w'. split; [reflexivity|].
  split; [|split; [|repeat split; auto using l1_caches_predictors]].
  - intros l0 a b mi sp F. now apply settled_predictors.
  - apply branchPred_predictors.
Qed.

Lemma for_cpus_pure (c : CpuClusterRiscV.t) (n : Z) (f : Cpu -> Cpu)
      (w : World) :
  Z.of_nat (List.length (CpuClusterRiscV.cpus c)) = n ->
  SimpleSeSystem.for_cpus c n (ret f) w
  = (Ok (CpuClusterRiscV.set_cpus c (map f (CpuClusterRiscV.cpus c))), w).
Proof.
  intros Hn. rewrite for_cpus_prefix by lia.
  rewrite <- Hn, Nat2Z.id, firstn_all, skipn_all.
  now rewrite (bind_Ok _ _ _ _ _ (mapM_pure f _ w)), app_nil_r.
Qed.

Lemma settled_refs a b mi sp (l0 l : list Cpu) :
  Forall2 (settled a b mi sp) l0 l ->
  map cpu_ref l = map cpu_ref l0 /\ map cpu_id l = map cpu_id l0.
Proof.
  induction 1 as [|x y l0 l (H & _) _ (IH1 & IH2)]; [now split|].
  cbn [map]. rewrite IH1, IH2, H. now split.
Qed.

Lemma Forall2_diag {A : Type} (R : A -> A -> Prop) (l : list A) :
  Forall (fun x => R x x) l -> Forall2 R l l.
Proof. induction 1; constructor; auto. Qed.

Lemma map_refs {B : Type} (g : ObjRef -> B) (l l' : list Cpu) :
  map cpu_ref l = map cpu_ref l' ->
  map (fun cpu => g (cpu_ref cpu)) l = map (fun cpu => g (cpu_ref cpu)) l'.
Proof.
  intros H. rewrite <- (map_map cpu_ref g l), <- (map_map cpu_ref g l').
  now rewrite H.
Qed.

Lemma addL1_addL2 (c : CpuClusterRiscV.t) (l0 : list Cpu) a b mi sp
      (w : World) :
  Forall2 (settled a b mi sp) l0 (CpuClusterRiscV.cpus c) ->
  CpuClusterRiscV.toL2Bus c = None -> CpuClusterRiscV.l2 c = None ->
  exists c2 w2,
    (c' <- CpuClusterRiscV.addL1 c ;;
     CpuClusterRiscV.addL2 c' (CpuClusterRiscV.clk_domain c')) w
    = (Ok c2, w2)
    /\ c2 = CpuClusterRiscV.mk
              (CpuClusterRiscV.self c) (CpuClusterRiscV._cpu_type c)
              (CpuClusterRiscV._l1i_type c) (CpuClusterRiscV._l1d_type c)
              (CpuClusterRiscV._l2_type c) (CpuClusterRiscV.voltage_domain c)
              (CpuClusterRiscV.clk_domain c) (CpuClusterRiscV.cpus c2)
              (CpuClusterRiscV.toL2Bus c2) (CpuClusterRiscV.l2 c2)
    /\ Forall2 (settled (CpuClusterRiscV._l1i_type c)
                        (CpuClusterRiscV._l1d_type c) mi sp)
               l0 (CpuClusterRiscV.cpus c2)
    /\ map branchPred (CpuClusterRiscV.cpus c2)
       = map branchPred (CpuClusterRiscV.cpus c)
    /\ match CpuClusterRiscV._l2_type c with
       | Some cls =>
           exists xbar r2,
           CpuClusterRiscV.toL2Bus c2 = Some xbar
           /\ CpuClusterRiscV.l2 c2 = Some (mkCache r2 cls)
           /\ bindings w2
              = bindings w
                ++ map (fun cpu => ((cpu_ref cpu, cached_ports),
                                    (xbar, cpu_side_ports))) l0
                ++ [((xbar, mem_side_ports), (r2, cpu_side))]
       | None =>
           CpuClusterRiscV.toL2Bus c2 = None
           /\ CpuClusterRiscV.l2 c2 = None
           /\ bindings w2 = bindings w
       end
    /\ objects w2
       = objects w ++ map cache_object (l1_caches (CpuClusterRiscV.cpus c2))
         ++ l2_objects c2
    /\ _clusters w2 = _clusters w
    /\ _num_cpus w2 = _num_cpus w.
Proof.
  intros F Hbus Hl2.
  destruct (addL1_settles c l0 a b mi sp w F)
    as (cs & wa & Ea & Fa & Pa & Ba & Oa & Ca & Na).
  rewrite (bind_Ok _ _ _ _ _ Ea).
  destruct (addL2_explicit (CpuClusterRiscV.set_cpus c cs)
                           (CpuClusterRiscV.clk_domain
                              (CpuClusterRiscV.set_cpus c cs)) wa)
    as (wb & Eb & Bb & Ob & Cb & Nb).
  revert Eb Bb Ob.
  cbn [CpuClusterRiscV._l2_type CpuClusterRiscV.set_cpus
       CpuClusterRiscV.cpus].
  destruct (settled_refs _ _ _ _ _ _ Fa) as (Hrefs & _).
  destruct (CpuClusterRiscV._l2_type c) as [cls|] eqn:Ht; intros Eb Bb Ob;
    rewrite Eb; eexists _, wb; (split; [reflexivity|]);
    unfold CpuClusterRiscV.set_l2, CpuClusterRiscV.set_cpus;
    cbn [CpuClusterRiscV.set_l2 CpuClusterRiscV.set_cpus
         CpuClusterRiscV.self CpuClusterRiscV._cpu_type
         CpuClusterRiscV._l1i_type CpuClusterRiscV._l1d_type
         CpuClusterRiscV._l2_type CpuClusterRiscV.voltage_domain
         CpuClusterRiscV.clk_domain CpuClusterRiscV.cpus
         CpuClusterRiscV.toL2Bus CpuClusterRiscV.l2]; rewrite ?Ht.
  - split; [reflexivity|]. split; [exact Fa|]. split; [exact Pa|].
    split.
    { exists (next_ref wa), (S (next_ref wa)).
      split; [reflexivity|]. split; [reflexivity|].
      rewrite Bb, Ba. do 2 f_equal.
      now apply (map_refs (fun x => ((x, cached_ports),
                                     (next_ref wa, cpu_side_ports)))). }
    split; [unfold l2_objects; cbn [CpuClusterRiscV.toL2Bus
              CpuClusterRiscV.l2 CpuClusterRiscV.clk_domain cache_object
              cache_ref cache_class];
            now rewrite Ob, Oa, <- app_assoc|].
    split; congruence.
  - rewrite Hbus, Hl2. split; [reflexivity|]. split; [exact Fa|].
    split; [exact Pa|].
    split; [rewrite Bb, Ba, app_nil_r; now repeat split|].
    split; [unfold l2_objects; cbn [CpuClusterRiscV.toL2Bus
              CpuClusterRiscV.l2]; now rewrite Ob, Oa, !app_nil_r|].
    split; congruence.
Qed.

Lemma bind_assoc {A B C : Type} (m : M A) (f : A -> M B) (g : B -> M C)
      (w : World) :
  bind (bind m f) g w = bind m (fun x => bind (f x) g) w.
Proof. unfold bind. destruct (m w) as [[a|e] w1]; reflexivity. Qed.

Lemma set_cpus_eta (c : CpuClusterRiscV.t) :
  c = CpuClusterRiscV.set_cpus c (CpuClusterRiscV.cpus c).
Proof. now destruct c. Qed.

Section AssembledSystem.

Context {G : Gem5}.

Lemma SimpleSeSystem_init_explicit (args : Args) (w : World) :
  0 < num_cores args ->
  exists sys w' l0 rb,
    SimpleSeSystem.__init__ args w = (Ok sys, w')
    /\ SimpleSeSystem.self sys = next_ref w
    /\ SimpleSeSystem.mem_mode sys
       = memory_mode (entry_0 (cpu_types w (cpu args)))
    /\ CpuClusterRiscV._cpu_type (SimpleSeSystem.cpu_cluster sys)
       = entry_0 (cpu_types w (cpu args))
    /\ Forall (fresh_core
                 (entry_0 (cpu_types w (cpu args)))
                 (CpuClusterRiscV.clk_domain (SimpleSeSystem.cpu_cluster sys))
                 0) l0
    /\ map cpu_id l0 = range (num_cores args)
    /\ NoDup (map cpu_ref l0)
    /\ Forall2 (settled
                  (if builds_caches w args
                   then entry_1 (cpu_types w (cpu args)) else None)
                  (if builds_caches w args
                   then entry_2 (cpu_types w (cpu args)) else None)
                  (if maxinsts args =? 0 then None
                   else Some (maxinsts args))
                  (if simpoint_profile args
                   then Some (simpoint_interval args) else None))
               l0 (CpuClusterRiscV.cpus (SimpleSeSystem.cpu_cluster sys))
    /\ map branchPred
           (CpuClusterRiscV.cpus (SimpleSeSystem.cpu_cluster sys))
       = (if sets_branchPred w args
          then map Some (seq rb (List.length l0))
          else map (fun _ => None) l0)
    /\ (sets_branchPred w args = true ->
        incl (map (fun r => (r, K_BranchPred O3_ARM_v7a_BP))
                  (seq rb (List.length l0)))
             (constructed_during w w'))
    /\ (exists d, objects w' = objects w ++ d)
    /\ match (if builds_caches w args
              then entry_3 (cpu_types w (cpu args)) else None) with
       | Some cls =>
           exists xbar r2,
           CpuClusterRiscV.toL2Bus (SimpleSeSystem.cpu_cluster sys)
           = Some xbar
           /\ CpuClusterRiscV.l2 (SimpleSeSystem.cpu_cluster sys)
              = Some (mkCache r2 cls)
       | None =>
           CpuClusterRiscV.toL2Bus (SimpleSeSystem.cpu_cluster sys) = None
           /\ CpuClusterRiscV.l2 (SimpleSeSystem.cpu_cluster sys) = None
       end
    /\ bound_during w w'
       = ((SimpleSeSystem.self sys, system_port),
          (SimpleSeSystem.membus sys, cpu_side_ports))
         :: match CpuClusterRiscV.toL2Bus (SimpleSeSystem.cpu_cluster sys),
                  CpuClusterRiscV.l2 (SimpleSeSystem.cpu_cluster sys) with
            | Some xbar, Some cache =>
                map (fun cpu => ((cpu_ref cpu, cached_ports),
                                 (xbar, cpu_side_ports)))
                    (CpuClusterRiscV.cpus (SimpleSeSystem.cpu_cluster sys))
                ++ [((xbar, mem_side_ports), (cache_ref cache, cpu_side));
                    ((cache_ref cache, mem_side),
                     (SimpleSeSystem.membus sys, cpu_side_ports))]
            | _, _ =>
                map (fun cpu => ((cpu_ref cpu, cached_ports),
                                 (SimpleSeSystem.membus sys, cpu_side_ports)))
                    (CpuClusterRiscV.cpus (SimpleSeSystem.cpu_cluster sys))
            end
    /\ _clusters w'
       = [CpuClusterRiscV.self (SimpleSeSystem.cpu_cluster sys)]
    /\ _num_cpus w' = num_cores args
    /\ constructed_during w w'
       = [(next_ref w, K_SimpleSeSystem);
          (S (next_ref w), K_VoltageDomain "3.3V");
          (S (S (next_ref w)), K_SrcClockDomain "1GHz" (S (next_ref w)));
          (S (S (S (next_ref w))), K_SystemXBar);
          (S (S (S (S (next_ref w)))), K_CpuClusterRiscV);
          (S (S (S (S (S (next_ref w))))), K_VoltageDomain "1.2V");
          (S (S (S (S (S (S (next_ref w)))))),
           K_SrcClockDomain (cpu_freq args)
                            (S (S (S (S (S (next_ref w)))))))]
         ++ map (fun core =>
                   (cpu_ref core, K_Cpu (entry_0 (cpu_types w (cpu args)))))
                (CpuClusterRiscV.cpus (SimpleSeSystem.cpu_cluster sys))
         ++ map cache_object
                (l1_caches
                   (CpuClusterRiscV.cpus (SimpleSeSystem.cpu_cluster sys)))
         ++ l2_objects (SimpleSeSystem.cpu_cluster sys)
         ++ (if sets_branchPred w args
             then map (fun x => (x, K_BranchPred O3_ARM_v7a_BP))
                      (seq rb (List.length l0))
             else []).
Proof.
  intros Hn. unfold SimpleSeSystem.__init__. do 7 step.
  match goal with
  | |- context [bind (CpuClusterRiscV.__init__ ?n ?ck ?v ?cls ?ti ?td ?t2)
                       _ ?W] =>
      destruct (init_explicit n ck v cls ti td t2 W Hn eq_refl)
        as (w1 & E & O1 & B1 & C1 & N1 & _)
  end.
  rewrite (bind_Ok _ _ _ _ _ E). clear E.
  revert O1 B1 C1 N1. world_simpl. cbn [List.length app Z.of_nat].
  intros O1 B1 C1 N1.
  set (r := next_ref w) in *. set (e := cpu_types w (cpu args)) in *.
  set (l0 := map (init_core 0)
                 (fresh_cpus (entry_0 e) _ _ 0 (range (num_cores args)))).
  set (c0 := CpuClusterRiscV.mk _ _ _ _ _ _ _ l0 None None).
  assert (F0 : Forall (fresh_core (entry_0 e)
                                  (CpuClusterRiscV.clk_domain c0) 0) l0)
    by apply fresh_cpus_fresh.
  assert (S0 : Forall2 (settled None None None None) l0 l0).
  { apply Forall2_diag. eapply Forall_impl; [|exact F0].
    intros x. apply settled_fresh. }
  assert (I0 : map cpu_id l0 = range (num_cores args)).
  { unfold l0. rewrite map_map.
    rewrite (map_ext _ cpu_id) by reflexivity.
    rewrite fresh_cpus_ids. apply range_from_zero. }
  assert (R0 : map cpu_ref l0
               = seq (S (S (S (S (S (S (S r)))))))
                     (List.length (range (num_cores args)))).
  { unfold l0. rewrite map_map.
    rewrite (map_ext _ cpu_ref) by reflexivity.
    apply fresh_cpus_refs. }
  assert (D0 : NoDup (map cpu_ref l0))
    by (rewrite R0; apply seq_NoDup).
  assert (K0 : l1_caches l0 = []).
  { clear -F0. induction F0 as [|x l H _ IH]; [reflexivity|].
    cbn [l1_caches flat_map]. fold (l1_caches l). rewrite IH.
    destruct H as (_ & _ & _ & _ & _ & -> & -> & _). reflexivity. }
  assert (L0 : Z.of_nat (List.length l0) = num_cores args).
  { rewrite <- (length_map cpu_id), I0. apply range_length. lia. }
  assert (P0 : map branchPred l0 = map (fun _ => None) l0).
  { clear -F0. induction F0 as [|x l H _ IH]; [reflexivity|].
    cbn [map]. rewrite IH. f_equal. eapply fresh_core_branchPred, H. }
  change (CpuClusterRiscV.memoryMode c0) with (memory_mode (entry_0 e)).
  unfold builds_caches, sets_branchPred. fold e.
  set (tm := (memory_mode (entry_0 e) =? "timing")%string).
  set (isac := cpu_name_eqb (cpu args) ac).
  match goal with
  | |- context [bind ?m _ w1] =>
      assert (H1 : exists c1 w2,
                 m w1 = (Ok c1, w2)
                 /\ c1 = CpuClusterRiscV.mk
                           (CpuClusterRiscV.self c0) (entry_0 e)
                           (entry_1 e) (entry_2 e) (entry_3 e)
                           (CpuClusterRiscV.voltage_domain c0)
                           (CpuClusterRiscV.clk_domain c0)
                           (CpuClusterRiscV.cpus c1)
                           (CpuClusterRiscV.toL2Bus c1)
                           (CpuClusterRiscV.l2 c1)
                 /\ Forall2 (settled
                               (if tm || isac then entry_1 e else None)
                               (if tm || isac then entry_2 e else None)
                               None None) l0 (CpuClusterRiscV.cpus c1)
                 /\ (exists rb d,
                        map branchPred (CpuClusterRiscV.cpus c1)
                        = (if negb tm && isac
                           then map Some (seq rb (List.length l0))
                           else map (fun _ => None) l0)
                        /\ objects w2 = objects w1 ++ d
                        /\ (negb tm && isac = true ->
                            incl (map (fun x =>
                                         (x, K_BranchPred O3_ARM_v7a_BP))
                                      (seq rb (List.length l0))) d)
                        /\ d = map cache_object
                                   (l1_caches (CpuClusterRiscV.cpus c1))
                               ++ l2_objects c1
                               ++ (if negb tm && isac
                                   then map (fun x =>
                                               (x,
                                                K_BranchPred O3_ARM_v7a_BP))
                                            (seq rb (List.length l0))
                                   else []))
                 /\ match (if tm || isac then entry_3 e else None) with
                    | Some cls =>
                        exists xbar r2,
                        CpuClusterRiscV.toL2Bus c1 = Some xbar
                        /\ CpuClusterRiscV.l2 c1 = Some (mkCache r2 cls)
                        /\ bindings w2
                           = bindings w1
                             ++ map (fun cpu =>
                                       ((cpu_ref cpu, cached_ports),
                                        (xbar, cpu_side_ports))) l0
                             ++ [((xbar, mem_side_ports), (r2, cpu_side))]
                    | None =>
                        CpuClusterRiscV.toL2Bus c1 = None
                        /\ CpuClusterRiscV.l2 c1 = None
                        /\ bindings w2 = bindings w1
                    end
                 /\ _clusters w2 = _clusters w1
                 /\ _num_cpus w2 = _num_cpus w1)
  end.
  { destruct tm; [|destruct isac]; cbn [orb negb andb].
    - destruct (addL1_addL2 c0 l0 None None None None w1 S0 eq_refl eq_refl)
        as (c2 & w2 & E2 & Hc & F2 & P2 & HL & O2 & C2 & N2).
      exists c2, w2. split; [exact E2|]. split; [exact Hc|].
      split; [exact F2|].
      split; [eexists 0%nat, _; split; [rewrite P2; exact P0|];
              split; [exact O2|]; split; [discriminate|];
              now rewrite app_nil_r|].
      split; [exact HL|]. now split.
    - destruct (addL1_addL2 c0 l0 None None None None w1 S0 eq_refl eq_refl)
        as (c2 & w2 & E2 & Hc & F2 & P2 & HL & O2 & C2 & N2).
      assert (Hlen : List.length (CpuClusterRiscV.cpus c2)
                     = List.length l0)
        by (symmetry; eapply Forall2_length; exact F2).
      destruct (for_cpus_branchPred O3_ARM_v7a_BP c2 (num_cores args) w2)
        as (cs & w3 & E3 & F3 & P3 & O3 & B3 & C3 & N3 & K3).
      { now rewrite Hlen. }
      exists (CpuClusterRiscV.set_cpus c2 cs), w3.
      split.
      { etransitivity;
          [symmetry;
           apply (bind_assoc
                    (CpuClusterRiscV.addL1 c0)
                    (fun c => CpuClusterRiscV.addL2
                                c (CpuClusterRiscV.clk_domain c)))|].
        rewrite (bind_Ok _ _ _ _ _ E2). exact E3. }
      split; [rewrite Hc; reflexivity|].
      split; [apply F3; exact F2|].
      split.
      { eexists (next_ref w2), _.
        rewrite <- Hlen.
        split; [exact P3|].
        split; [rewrite O3, O2, <- !app_assoc; reflexivity|].
        split; [intros _ x Hx; apply in_or_app; right;
                apply in_or_app; now right|].
        cbn [CpuClusterRiscV.set_cpus CpuClusterRiscV.cpus].
        rewrite K3. reflexivity. }
      split.
      { cbn [CpuClusterRiscV.set_cpus CpuClusterRiscV.toL2Bus
             CpuClusterRiscV.l2]. rewrite B3. exact HL. }
      split; congruence.
    - exists c0, w1. split; [reflexivity|]. split; [reflexivity|].
      split; [exact S0|].
      split; [exists 0%nat, []; split; [exact P0|];
              split; [now rewrite app_nil_r|]; split; [discriminate|];
              change (CpuClusterRiscV.cpus c0) with l0; now rewrite K0|].
      now repeat split. }
  destruct H1 as (c1 & w2 & E1 & Hc1 & F1 & (rb & d & P1 & O2 & I1 & Hd)
                  & HL & C2 & N2).
  rewrite (bind_Ok _ _ _ _ _ E1).
  rewrite (bind_Ok _ _ _ _ _ (connectMemSide_explicit c1 _ w2)).
  assert (Hlen1 : Z.of_nat (List.length (CpuClusterRiscV.cpus c1))
                  = num_cores args).
  { rewrite <- L0. f_equal. symmetry. eapply Forall2_length. exact F1. }
  (* the instruction limit *)
  match goal with
  | |- context [bind ?m _ ?W] =>
      assert (H2 : exists c2,
                 m W = (Ok c2, W)
                 /\ c2 = CpuClusterRiscV.set_cpus c1 (CpuClusterRiscV.cpus c2)
                 /\ Forall2 (settled
                               (if tm || isac then entry_1 e else None)
                               (if tm || isac then entry_2 e else None)
                               (if maxinsts args =? 0 then None
                                else Some (maxinsts args))
                               None) l0 (CpuClusterRiscV.cpus c2)
                 /\ map branchPred (CpuClusterRiscV.cpus c2)
                    = map branchPred (CpuClusterRiscV.cpus c1)
                 /\ l1_caches (CpuClusterRiscV.cpus c2)
                    = l1_caches (CpuClusterRiscV.cpus c1))
  end.
  { destruct (maxinsts args =? 0); cbn [negb].
    - exists c1. split; [reflexivity|]. split; [apply set_cpus_eta|].
      now repeat split.
    - rewrite for_cpus_pure by exact Hlen1. eexists.
      split; [reflexivity|]. cbn [CpuClusterRiscV.set_cpus
                                  CpuClusterRiscV.cpus].
      split; [reflexivity|]. split; [|split].
      + eapply Forall2_map_r; [exact F1|]. intros x y.
        apply settled_max_insts.
      + rewrite map_map. reflexivity.
      + apply l1_caches_map. now split. }
  destruct H2 as (c2 & E2 & Hc2 & F2 & P2 & K2).
  rewrite (bind_Ok _ _ _ _ _ E2).
  assert (Hlen2 : Z.of_nat (List.length (CpuClusterRiscV.cpus c2))
                  = num_cores args).
  { rewrite <- L0. f_equal. symmetry. eapply Forall2_length. exact F2. }
  (* the SimPoint probes *)
  match goal with
  | |- context [bind ?m _ ?W] =>
      assert (H3 : exists c3,
                 m W = (Ok c3, W)
                 /\ c3 = CpuClusterRiscV.set_cpus c2 (CpuClusterRiscV.cpus c3)
                 /\ Forall2 (settled
                               (if tm || isac then entry_1 e else None)
                               (if tm || isac then entry_2 e else None)
                               (if maxinsts args =? 0 then None
                                else Some (maxinsts args))
                               (if simpoint_profile args
                                then Some (simpoint_interval args)
                                else None)) l0 (CpuClusterRiscV.cpus c3)
                 /\ map branchPred (CpuClusterRiscV.cpus c3)
                    = map branchPred (CpuClusterRiscV.cpus c2)
                 /\ l1_caches (CpuClusterRiscV.cpus c3)
                    = l1_caches (CpuClusterRiscV.cpus c2))
  end.
  { destruct (simpoint_profile args).
    - rewrite for_cpus_pure by exact Hlen2. eexists.
      split; [reflexivity|]. cbn [CpuClusterRiscV.set_cpus
                                  CpuClusterRiscV.cpus].
      split; [reflexivity|]. split; [|split].
      + eapply Forall2_map_r; [exact F2|]. intros x y.
        apply settled_simpoint.
      + rewrite map_map. reflexivity.
      + apply l1_caches_map. now split.
    - exists c2. split; [reflexivity|]. split; [apply set_cpus_eta|].
      now repeat split. }
  destruct H3 as (c3 & E3 & Hc3 & F3 & P3 & K3).
  rewrite (bind_Ok _ _ _ _ _ E3).
  assert (Hc3' : c3 = CpuClusterRiscV.mk
                         (CpuClusterRiscV.self c0) (entry_0 e)
                         (entry_1 e) (entry_2 e) (entry_3 e)
                         (CpuClusterRiscV.voltage_domain c0)
                         (CpuClusterRiscV.clk_domain c0)
                         (CpuClusterRiscV.cpus c3)
                         (CpuClusterRiscV.toL2Bus c1)
                         (CpuClusterRiscV.l2 c1))
    by (rewrite Hc3, Hc2, Hc1; reflexivity).
  pose proof (f_equal CpuClusterRiscV.self Hc3') as Hself.
  pose proof (f_equal CpuClusterRiscV._cpu_type Hc3') as Hcpu.
  pose proof (f_equal CpuClusterRiscV.clk_domain Hc3') as Hclk.
  pose proof (f_equal CpuClusterRiscV.toL2Bus Hc3') as Hbus.
  pose proof (f_equal CpuClusterRiscV.l2 Hc3') as Hl2.
  cbn [CpuClusterRiscV.self CpuClusterRiscV._cpu_type
       CpuClusterRiscV.clk_domain CpuClusterRiscV.toL2Bus CpuClusterRiscV.l2]
    in Hself, Hcpu, Hclk, Hbus, Hl2.
  clear Hc3' Hc3 Hc2 E1 E2 E3.
  destruct (settled_refs _ _ _ _ _ _ F1) as (R1 & _).
  destruct (settled_refs _ _ _ _ _ _ F3) as (R3 & _).
  rewrite <- !app_assoc in O1. cbn [app] in O1.
  eexists _, _, l0, rb. split; [reflexivity|].
  cbn [SimpleSeSystem.self SimpleSeSystem.mem_mode
       SimpleSeSystem.cpu_cluster SimpleSeSystem.membus].
  unfold CpuClusterRiscV.memoryMode, constructed_during, bound_during.
  world_simpl. rewrite Hself, Hcpu, Hclk, Hbus, Hl2.
  split; [reflexivity|]. split; [reflexivity|]. split; [reflexivity|].
  split; [exact F0|]. split; [exact I0|]. split; [exact D0|].
  split; [exact F3|].
  split; [rewrite P3, P2; exact P1|].
  split.
  { intros Hbp. rewrite O2, O1, <- app_assoc, skipn_length_app.
    intros x Hx. apply in_or_app. right. now apply I1. }
  split; [eexists; rewrite O2, O1, <- app_assoc; reflexivity|].
  split; [match goal with
          | |- match ?x with _ => _ end =>
              destruct x as [cls|];
              [destruct HL as (xbar & r2 & Hx & Hr & B2); rewrite Hx, Hr;
               now exists xbar, r2
              |destruct HL as (Hx & Hr & B2); rewrite Hx, Hr; now split]
          end|].
  split.
  { destruct (if tm || isac then entry_3 e else None) as [cls|].
    - destruct HL as (xbar & r2 & Hx & Hr & B2). rewrite Hx, Hr.
      rewrite B2, B1, <- !app_assoc, skipn_length_app. cbn [app cache_ref].
      do 2 f_equal.
      apply (map_refs (fun x => ((x, cached_ports),
                                 (xbar, cpu_side_ports)))).
      now symmetry.
    - destruct HL as (Hx & Hr & B2). rewrite Hx, Hr.
      rewrite B2, B1, <- !app_assoc, skipn_length_app. cbn [app].
      f_equal.
      apply (map_refs (fun x => ((x, cached_ports),
                                 (S (S (S r)), cpu_side_ports)))).
      congruence. }
  split; [now rewrite C2, C1|]. split; [rewrite N2, N1; lia|].
  rewrite O2, O1, Hd, <- app_assoc, skipn_length_app. cbn [app].
  do 7 f_equal. rewrite K3, K2.
  replace (map (fun core => (cpu_ref core, K_Cpu (entry_0 e)))
               (CpuClusterRiscV.cpus c3))
    with (map (fun x => (x, K_Cpu (entry_0 e)))
              (map cpu_ref (CpuClusterRiscV.cpus c3)))
    by apply map_map.
  rewrite R3, R0. do 3 f_equal.
  unfold l2_objects. rewrite Hbus, Hl2, Hclk.
  now rewrite (f_equal CpuClusterRiscV.clk_domain Hc1).
Qed.


Lemma settled_core cls clk s ti td mi sp x y :
  fresh_core cls clk s x -> settled ti td mi sp x y ->
  cpu_class y = cls /\ cpu_clk_domain y = clk /\ socket_id y = Some s
  /\ workload y = None
  /\ option_map cache_class (icache y) = ti
  /\ option_map cache_class (dcache y) = td
  /\ max_insts_all_threads y = mi
  /\ simpoint_probe y = sp.
Proof.
  intros (Hc & Hk & _ & _ & Hs & _ & _ & _ & _ & _ & Hw) (H & Hi & Hd).
  rewrite H in *. cbn in *. now repeat split.
Qed.

Lemma Forall2_Forall_r {A B : Type} (R : A -> B -> Prop) (P : A -> Prop)
      (Q : B -> Prop) (l0 : list A) (l : list B) :
  Forall2 R l0 l -> Forall P l0 -> (forall x y, P x -> R x y -> Q y) ->
  Forall Q l.
Proof.
  intros F. induction F as [|x y l0 l Hxy _ IH]; intros HP HQ;
    [constructor|].
  inversion HP; subst. constructor; eauto.
Qed.

Lemma predictors_map (l : list Cpu) :
  predictors l = flat_map (@option_list ObjRef) (map branchPred l).
Proof.
  induction l as [|x l IH]; [reflexivity|].
  cbn [predictors flat_map map]. fold (predictors l). now rewrite IH.
Qed.

Lemma flat_map_Some {A : Type} (l : list A) :
  flat_map (@option_list A) (map Some l) = l.
Proof. induction l as [|x l IH]; [reflexivity|]. cbn. now rewrite IH. Qed.

Lemma flat_map_None {A B : Type} (l : list B) :
  flat_map (@option_list A) (map (fun _ => None) l) = [].
Proof. induction l as [|x l IH]; [reflexivity|]. cbn. exact IH. Qed.

End AssembledSystem.

(** X12. For at least one core, [SimpleSeSystem(args)] returns a system
    whose memory mode is that of the CPU class and whose memory side is
    wired in one of two ways.  The system port is bound to the memory bus
    first.  When the CPU type runs in timing mode or is ["ac"], and its
    entry has an L2 class, every core is bound to the cluster's crossbar,
    the crossbar to an L2 of that class, and the L2 alone to the memory
    bus; in every other case there is no L2 and no crossbar, and each core
    is bound to the memory bus itself, one binding per core.  The cores
    are [num_cores] distinct objects, and the system's bookkeeping holds
    exactly this one cluster and [num_cores] cores. *)
Theorem SimpleSeSystem_memory_side
        {G : Gem5} (args : Args) (w : World) (Hn : 0 < num_cores args) :
  exists sys w',
    SimpleSeSystem.__init__ args w = (Ok sys, w')
    /\ SimpleSeSystem.mem_mode sys
       = memory_mode (entry_0 (cpu_types w (cpu args)))
    /\ option_map cache_class
                  (CpuClusterRiscV.l2 (SimpleSeSystem.cpu_cluster sys))
       = (if builds_caches w args
          then entry_3 (cpu_types w (cpu args)) else None)
    /\ (CpuClusterRiscV.toL2Bus (SimpleSeSystem.cpu_cluster sys) = None
        <-> CpuClusterRiscV.l2 (SimpleSeSystem.cpu_cluster sys) = None)
    /\ bound_during w w'
       = ((SimpleSeSystem.self sys, system_port),
          (SimpleSeSystem.membus sys, cpu_side_ports))
         :: match CpuClusterRiscV.toL2Bus (SimpleSeSystem.cpu_cluster sys),
                  CpuClusterRiscV.l2 (SimpleSeSystem.cpu_cluster sys) with
            | Some xbar, Some cache =>
                map (fun cpu => ((cpu_ref cpu, cached_ports),
                                 (xbar, cpu_side_ports)))
                    (CpuClusterRiscV.cpus (SimpleSeSystem.cpu_cluster sys))
                ++ [((xbar, mem_side_ports), (cache_ref cache, cpu_side));
                    ((cache_ref cache, mem_side),
                     (SimpleSeSystem.membus sys, cpu_side_ports))]
            | _, _ =>
                map (fun cpu => ((cpu_ref cpu, cached_ports),
                                 (SimpleSeSystem.membus sys, cpu_side_ports)))
                    (CpuClusterRiscV.cpus (SimpleSeSystem.cpu_cluster sys))
            end
    /\ NoDup (map cpu_ref
                  (CpuClusterRiscV.cpus (SimpleSeSystem.cpu_cluster sys)))
    /\ Z.of_nat (List.length
                   (CpuClusterRiscV.cpus (SimpleSeSystem.cpu_cluster sys)))
       = num_cores args
    /\ _clusters w'
       = [CpuClusterRiscV.self (SimpleSeSystem.cpu_cluster sys)]
    /\ _num_cpus w' = num_cores args.
Proof.
  destruct (SimpleSeSystem_init_explicit args w Hn)
    as (sys & w' & l0 & rb & E & _ & Hmode & _ & _ & I0 & D0 & F & _ & _
        & _ & HL & HB & HC & HN).
  exists sys, w'. split; [exact E|]. split; [exact Hmode|].
  destruct (settled_refs _ _ _ _ _ _ F) as (R & I).
  split; [|split]; [| |split; [exact HB|]].
  - destruct (if builds_caches w args
              then entry_3 (cpu_types w (cpu args)) else None) as [cls|].
    + destruct HL as (xbar & r2 & _ & ->). reflexivity.
    + destruct HL as (_ & ->). reflexivity.
  - destruct (if builds_caches w args
              then entry_3 (cpu_types w (cpu args)) else None) as [cls|].
    + destruct HL as (xbar & r2 & -> & ->). split; discriminate.
    + destruct HL as (-> & ->). now split.
  - split; [now rewrite R|].
    split; [|now split].
    rewrite <- (length_map cpu_id), I, I0. apply range_length. lia.
Qed.

Lemma SimpleSeSystem_memory_side_witness :
  exists sys w',
    SimpleSeSystem.__init__ (G := sample_gem5)
                            (sample_args ["ls -l"; "pwd"]%string "") world0
    = (Ok sys, w')
    /\ bound_during world0 w'
       = [((0%nat, system_port), (3%nat, cpu_side_ports));
          ((7%nat, cached_ports), (13%nat, cpu_side_ports));
          ((8%nat, cached_ports), (13%nat, cpu_side_ports));
          ((13%nat, mem_side_ports), (14%nat, cpu_side));
          ((14%nat, mem_side), (3%nat, cpu_side_ports))].
Proof.
  destruct (SimpleSeSystem_memory_side
              (G := sample_gem5)
              (sample_args ["ls -l"; "pwd"]%string "") world0 eq_refl)
    as (sys & w' & E & _).
  exists sys, w'. split; [exact E|].
  vm_compute in E. injection E as _ <-. reflexivity.
Defined.

Lemma getattr_assigned (cores : list Cpu) (bps : list ObjRef) :
  map branchPred cores = map Some bps ->
  map getattr_branchPred cores = map assigned_branchPred bps.
Proof.
  revert bps. induction cores as [|x cores IH]; intros [|r bps] E;
    try discriminate; [reflexivity|].
  cbn [map] in E |- *. injection E as Ex Et.
  f_equal; [|now apply IH].
  unfold getattr_branchPred. now rewrite Ex.
Qed.

(** X13. For at least one core, every core of the system
    [SimpleSeSystem(args)] returns is of the CPU class of the chosen
    type, in the cluster's clock domain, on socket 0 and without a
    workload; it has the L1 caches of the type's classes when the type
    runs in timing mode or is ["ac"], and none otherwise; it carries the
    instruction limit when [--maxinsts] is not zero, negative limits
    included, and a SimPoint probe of the given interval when profiling
    is on.  The cores have the identifiers [0 .. num_cores - 1].  The
    constructor assigns a branch predictor exactly for ["ac"] outside
    timing mode: then every core has its own, pairwise distinct objects
    of class O3_ARM_v7a_BP constructed by the call.  In every other case
    no core is assigned one, and reading its [branchPred] finds what its
    class declares: the O3_ARM_PostK_BP of O3_PostK.py for the ["pk"]
    type. *)
Theorem SimpleSeSystem_core_settings
        {G : Gem5} (args : Args) (w : World) (Hn : 0 < num_cores args) :
  exists sys w',
    SimpleSeSystem.__init__ args w = (Ok sys, w')
    /\ map cpu_id (CpuClusterRiscV.cpus (SimpleSeSystem.cpu_cluster sys))
       = range (num_cores args)
    /\ Forall
         (fun core =>
            cpu_class core = entry_0 (cpu_types w (cpu args))
            /\ cpu_clk_domain core
               = CpuClusterRiscV.clk_domain (SimpleSeSystem.cpu_cluster sys)
            /\ socket_id core = Some 0
            /\ workload core = None
            /\ option_map cache_class (icache core)
               = (if builds_caches w args
                  then entry_1 (cpu_types w (cpu args)) else None)
            /\ option_map cache_class (dcache core)
               = (if builds_caches w args
                  then entry_2 (cpu_types w (cpu args)) else None)
            /\ max_insts_all_threads core
               = (if maxinsts args =? 0 then None
                  else Some (maxinsts args))
            /\ simpoint_probe core
               = (if simpoint_profile args
                  then Some (simpoint_interval args) else None)
            /\ (sets_branchPred w args = false ->
                getattr_branchPred core
                = class_branchPred
                    (declared_branchPred
                       (entry_0 (cpu_types w (cpu args))))))
         (CpuClusterRiscV.cpus (SimpleSeSystem.cpu_cluster sys))
    /\ (sets_branchPred w args = true ->
        exists bps,
          map getattr_branchPred
              (CpuClusterRiscV.cpus (SimpleSeSystem.cpu_cluster sys))
          = map assigned_branchPred bps
          /\ Z.of_nat (List.length bps) = num_cores args
          /\ NoDup bps
          /\ Forall (fun r => In (r, K_BranchPred O3_ARM_v7a_BP)
                                 (constructed_during w w')) bps).
Proof.
  destruct (SimpleSeSystem_init_explicit args w Hn)
    as (sys & w' & l0 & rb & E & _ & _ & _ & F0 & I0 & _ & F & P & HI & _).
  exists sys, w'. split; [exact E|].
  destruct (settled_refs _ _ _ _ _ _ F) as (_ & I).
  split; [now rewrite I|].
  assert (HP : sets_branchPred w args = false ->
               Forall (fun core => branchPred core = None)
                      (CpuClusterRiscV.cpus
                         (SimpleSeSystem.cpu_cluster sys))).
  { intros Hs. rewrite Hs in P.
    apply (Forall_map branchPred (fun b => b = None)).
    rewrite P. apply Forall_map, Forall_forall. reflexivity. }
  split.
  { apply Forall_forall. intros core Hin.
    pose proof (Forall2_Forall_r _ _ _ _ _ F F0
                  (fun x y => settled_core _ _ _ _ _ _ _ x y)) as H.
    rewrite Forall_forall in H.
    destruct (H core Hin) as (H1 & H2 & H3 & H4 & H5 & H6 & H7 & H8).
    repeat (split; [assumption|]).
    intros Hs. specialize (HP Hs). rewrite Forall_forall in HP.
    unfold getattr_branchPred. now rewrite (HP core Hin), H1. }
  intros Hs. rewrite Hs in P. exists (seq rb (List.length l0)).
  split.
  { now apply getattr_assigned. }
  split.
  { rewrite length_seq, <- (length_map cpu_id), I0. apply range_length.
    lia. }
  split; [apply seq_NoDup|].
  apply Forall_forall. intros x Hx. apply (HI Hs).
  now apply (in_map (fun r => (r, K_BranchPred O3_ARM_v7a_BP))).
Qed.

Lemma SimpleSeSystem_core_settings_witness :
  exists sys w',
    SimpleSeSystem.__init__
      (G := sample_gem5)
      (mkArgs ["ls"; "pwd"]%string ac "2GHz" 2 "2GB" "" "" "" (-5) true
              1000 false None 0) world0
    = (Ok sys, w')
    /\ map max_insts_all_threads
           (CpuClusterRiscV.cpus (SimpleSeSystem.cpu_cluster sys))
       = [Some (-5); Some (-5)]
    /\ predictors (CpuClusterRiscV.cpus (SimpleSeSystem.cpu_cluster sys))
       = [15%nat; 16%nat].
Proof.
  destruct (SimpleSeSystem_core_settings
              (G := sample_gem5)
              (mkArgs ["ls"; "pwd"]%string ac "2GHz" 2 "2GB" "" "" "" (-5)
                      true 1000 false None 0) world0 eq_refl)
    as (sys & w' & E & _).
  exists sys, w'. split; [exact E|].
  vm_compute in E. injection E as <- _. split; reflexivity.
Defined.

(** ** The generated configuration *)

Lemma bind_workloads_branchPred (cpus : list Cpu) :
  forall ps, map branchPred (bind_workloads cpus ps) = map branchPred cpus.
Proof.
  induction cpus as [|c cs IH]; intros [|p ps]; try reflexivity.
  cbn [bind_workloads map]. now rewrite IH.
Qed.

Section GeneratedConfiguration.

Context {G : Gem5}.

Lemma assign_workloads_extends args system w sys w' :
  assign_workloads args system w = (Ok sys, w') ->
  exists d, objects w' = objects w ++ d.
Proof.
  unfold assign_workloads. intros E.
  apply bind_Ok_inv in E. destruct E as (ps & w1 & E1 & E).
  apply bind_Ok_inv in E. destruct E as ([] & w2 & E2 & E).
  apply bind_Ok_inv in E. destruct E as (p0 & w3 & E3 & E).
  apply bind_Ok_inv in E. destruct E as (wl & w4 & E4 & E).
  injection E as _ <-.
  apply get_processes_loop_inv in E1.
  destruct E1 as (_ & _ & _ & O1 & _).
  destruct (negb (Z.of_nat (List.length ps) =? num_cores args));
    [discriminate E2|]. injection E2 as <-.
  unfold lift in E3. injection E3 as _ <-.
  injection E4 as _ <-. world_simpl. rewrite O1, <- app_assoc.
  eexists. reflexivity.
Qed.

End GeneratedConfiguration.

(** X14. When [--random] is positive and the generated arguments keep it
    positive, [create] sets the branch predictor of every core after the
    system is built: each core gets its own, freshly constructed object
    of the class [generate_configs] returned, in place of whatever the
    constructor had set (the predictors of the ["ac"] configuration are
    constructed but no longer referenced).  The statement is for generated
    arguments with at least one core and as many commands, all of which
    parse. *)
Theorem generated_branchPred_on_every_core
        {G : Gem5} (args : Args) (w : World)
        (Hr : 0 < random args)
        (Hr' : 0 < random (effective_args args))
        (Hn : 0 < num_cores (effective_args args))
        (Hp : commands_parse (commands_to_run (effective_args args)))
        (Hlen : Z.of_nat (List.length
                            (commands_to_run (effective_args args)))
                = num_cores (effective_args args)) :
  exists sys w' bps,
    create args w = (Ok sys, w')
    /\ map branchPred
           (CpuClusterRiscV.cpus (SimpleSeSystem.cpu_cluster sys))
       = map Some bps
    /\ Z.of_nat (List.length bps) = num_cores (effective_args args)
    /\ NoDup bps
    /\ Forall (fun r =>
                 In (r, K_BranchPred
                          (snd (generate_configs args (random args - 1))))
                    (constructed_during w w')) bps.
Proof.
  assert (Hb : (0 <? random args) = true) by now apply Z.ltb_lt.
  unfold create, effective_args in *. rewrite Hb in *.
  destruct (generate_configs args (random args - 1)) as [args' cls].
  cbn [fst snd] in *.
  assert (P : preserves objects (apply_overrides args)) by frame.
  specialize (P w).
  destruct (apply_overrides_returns args w) as (w0 & E0 & _).
  rewrite E0 in P. cbn [snd] in P. rewrite (bind_Ok _ _ _ _ _ E0).
  unfold assemble.
  destruct (SimpleSeSystem_init_explicit args' w0 Hn)
    as (sys0 & w1 & l0 & rb & E1 & _ & _ & _ & _ & I0 & _ & F & _ & _
        & (d1 & O1) & _).
  rewrite (bind_Ok _ _ _ _ _ E1).
  assert (Hb' : (0 <? random args') = true) by now apply Z.ltb_lt.
  rewrite Hb'.
  destruct (settled_refs _ _ _ _ _ _ F) as (_ & I).
  assert (Hl : Z.of_nat (List.length
                           (CpuClusterRiscV.cpus
                              (SimpleSeSystem.cpu_cluster sys0)))
               = num_cores args').
  { rewrite <- (length_map cpu_id), I, I0. apply range_length. lia. }
  destruct (for_cpus_branchPred cls (SimpleSeSystem.cpu_cluster sys0)
                                (num_cores args') w1 Hl)
    as (cs & w2 & E2 & _ & P2 & O2 & _).
  erewrite bind_Ok; [|rewrite (bind_Ok _ _ _ _ _ E2); reflexivity].
  cbv beta zeta. do 2 step.
  match goal with
  | |- context [assign_workloads args' ?s w2] =>
      destruct (assign_workloads_returns args' s w2 Hp Hlen Hn)
        as (sys & ps & w3 & E3 & Hc & _);
      destruct (assign_workloads_extends _ _ _ _ _ E3) as (d3 & O3)
  end.
  exists sys, w3,
    (seq (next_ref w1)
         (List.length (CpuClusterRiscV.cpus
                         (SimpleSeSystem.cpu_cluster sys0)))).
  split; [exact E3|]. rewrite Hc.
  cbn [SimpleSeSystem.cpu_cluster SimpleSeSystem.set_cpu_cluster
       SimpleSeSystem.set_mem_ranges CpuClusterRiscV.set_cpus
       CpuClusterRiscV.cpus].
  split; [now rewrite bind_workloads_branchPred|].
  split; [now rewrite length_seq|]. split; [apply seq_NoDup|].
  apply Forall_forall. intros x Hx. unfold constructed_during.
  rewrite O3, O2, O1, <- P, <- !app_assoc, skipn_length_app.
  apply in_or_app. right. apply in_or_app. left.
  now apply (in_map (fun r => (r, K_BranchPred cls))).
Qed.

Lemma generated_branchPred_on_every_core_witness :
  exists sys w',
    create (G := sample_gem5)
           (mkArgs ["ls"; "pwd"]%string ac "2GHz" 2 "2GB" "" "" "" 0 false
                   1000 false None 3) world0
    = (Ok sys, w')
    /\ map branchPred
           (CpuClusterRiscV.cpus (SimpleSeSystem.cpu_cluster sys))
       = [Some 17%nat; Some 18%nat]
    /\ In (17%nat, K_BranchPred (generated_BP 2)) (objects w')
    /\ In (15%nat, K_BranchPred O3_ARM_v7a_BP) (objects w').
Proof.
  destruct (generated_branchPred_on_every_core
              (G := sample_gem5)
              (mkArgs ["ls"; "pwd"]%string ac "2GHz" 2 "2GB" "" "" "" 0
                      false 1000 false None 3) world0
              eq_refl eq_refl eq_refl)
    as (sys & w' & bps & E & _).
  - constructor; [|constructor; [|constructor]].
    + exists "ls"%string, []. reflexivity.
    + exists "pwd"%string, []. reflexivity.
  - reflexivity.
  - exists sys, w'. split; [exact E|].
    vm_compute in E. injection E as <- <-.
    split; [reflexivity|]. split; vm_compute; tauto.
Defined.

(** ** Performance monitors *)

Section PerformanceMonitors.

Context {P : PMUs}.

Lemma addPMUs_inner (c : CpuClusterRiscV.t) (events : list Event)
      (cpu : Cpu) (pint : Z) (isas : list ObjRef) :
  forall pmus w,
    foldM (fun pmus i =>
             let pmu := new_ArmPMU
                          ((if pint <? 32 then ArmPPI else ArmSPI) pint) in
             let pmu := addArchEvents pmu cpu (mmu_itb cpu) (mmu_dtb cpu)
                                      (icache cpu) (dcache cpu)
                                      (CpuClusterRiscV.l2 c) in
             let pmu := fold_left addEvent events pmu in
             ret (pmus ++ [(i, pmu)])) isas pmus w
    = (Ok (pmus ++ map (fun i => (i, pmu_for c events cpu pint)) isas), w).
Proof.
  induction isas as [|i isas IH]; intros pmus w.
  - cbn [foldM map]. now rewrite app_nil_r.
  - cbn [foldM map]. erewrite bind_Ok; [|reflexivity].
    rewrite IH, <- app_assoc. unfold pmu_for.
    now destruct (pint <? 32).
Qed.

Lemma addPMUs_outer (c : CpuClusterRiscV.t) (events : list Event)
      (cps : list (Cpu * Z)) :
  forall pmus w,
    foldM (fun pmus cp =>
             let cpu := fst cp in
             let pint := snd cp in
             let int_cls := if pint <? 32 then ArmPPI else ArmSPI in
             foldM (fun pmus i =>
                      let pmu := new_ArmPMU (int_cls pint) in
                      let pmu := addArchEvents pmu cpu (mmu_itb cpu)
                                               (mmu_dtb cpu) (icache cpu)
                                               (dcache cpu)
                                               (CpuClusterRiscV.l2 c) in
                      let pmu := fold_left addEvent events pmu in
                      ret (pmus ++ [(i, pmu)]))
                   (isa cpu) pmus) cps pmus w
    = (Ok (pmus
           ++ flat_map (fun cp =>
                          map (fun i => (i, pmu_for c events (fst cp)
                                                   (snd cp)))
                              (isa (fst cp))) cps), w).
Proof.
  induction cps as [|cp cps IH]; intros pmus w.
  - cbn [foldM flat_map]. now rewrite app_nil_r.
  - cbn [foldM flat_map]. cbv zeta.
    erewrite bind_Ok; [|apply addPMUs_inner].
    now rewrite IH, <- app_assoc.
Qed.

End PerformanceMonitors.

(** X16. [addPMUs(ints, events)] insists on one interrupt number per
    core: with any other number of them it raises AssertionError before
    a single PMU is made.  Otherwise core [k] is paired with [ints[k]],
    and every ISA of every core, in order, is given a PMU of its own,
    with a private peripheral interrupt when the number is below 32
    (negative numbers included) and a shared one from 32 on, with the
    architectural events of that core, its L1 caches and the cluster's
    L2 as far as they exist, and with the given events added in the
    order of the list.  The call constructs none of the cluster's
    objects and binds no port. *)
Theorem addPMUs_one_per_isa
        {P : PMUs} (c : CpuClusterRiscV.t) (ints : list Z)
        (events : list Event) (w : World) :
  CpuClusterRiscV_addPMUs c ints events w
  = (if Nat.eqb (List.length ints) (List.length (CpuClusterRiscV.cpus c))
     then Ok (flat_map
                (fun cp => map (fun i => (i, pmu_for c events (fst cp)
                                                    (snd cp)))
                               (isa (fst cp)))
                (combine (CpuClusterRiscV.cpus c) ints))
     else Raise AssertionError,
     w)
  /\ (List.length ints = List.length (CpuClusterRiscV.cpus c) ->
      map fst (flat_map
                 (fun cp => map (fun i => (i, pmu_for c events (fst cp)
                                                     (snd cp)))
                                (isa (fst cp)))
                 (combine (CpuClusterRiscV.cpus c) ints))
      = flat_map isa (CpuClusterRiscV.cpus c)).
Proof.
  split.
  - unfold CpuClusterRiscV_addPMUs.
    destruct (Nat.eqb (List.length ints)
                      (List.length (CpuClusterRiscV.cpus c))).
    + erewrite bind_Ok; [|reflexivity]. now rewrite addPMUs_outer.
    + reflexivity.
  - generalize (CpuClusterRiscV.cpus c) as cpus. intros cpus. revert ints.
    induction cpus as [|cpu cpus IH]; intros [|pint ints] H;
      try discriminate H; [reflexivity|].
    cbn [combine flat_map fst snd]. rewrite map_app, map_map.
    cbn [fst]. rewrite map_id. f_equal. apply IH. now injection H.
Qed.

(** ** The affinities of the interrupt controller *)

Lemma string_length_append (s t : string) :
  String.length (s ++ t) = (String.length s + String.length t)%nat.
Proof. induction s as [|a s IH]; cbn; [reflexivity|now rewrite IH]. Qed.

Lemma string_append_assoc (s t u : string) :
  ((s ++ t) ++ u = s ++ t ++ u)%string.
Proof. induction s as [|a s IH]; cbn; [reflexivity|now rewrite IH]. Qed.

Lemma string_append_cancel_r (t : string) :
  forall s1 s2 : string, (s1 ++ t = s2 ++ t)%string -> s1 = s2.
Proof.
  induction s1 as [|a s1 IH]; intros [|b s2] H.
  - reflexivity.
  - apply (f_equal String.length) in H. cbn in H.
    rewrite string_length_append in H. lia.
  - apply (f_equal String.length) in H. cbn in H.
    rewrite string_length_append in H. lia.
  - cbn in H. injection H as -> H. f_equal. now apply IH.
Qed.

Lemma to_int_not_nil (z : Z) :
  Z.to_int z <> Decimal.Pos Decimal.Nil
  /\ Z.to_int z <> Decimal.Neg Decimal.Nil.
Proof.
  split; intros H; assert (Hz : z = 0)
    by (rewrite <- (DecimalZ.of_to z), H; reflexivity);
    subst z; discriminate H.
Qed.

Lemma fmt_d_inj (a b : Z) : fmt_d a = fmt_d b -> a = b.
Proof.
  unfold fmt_d. intros H.
  apply (f_equal DecimalString.NilZero.int_of_string) in H.
  destruct (to_int_not_nil a) as (A1 & A2).
  destruct (to_int_not_nil b) as (B1 & B2).
  rewrite !DecimalString.NilZero.isi in H by assumption.
  injection H as H. now apply DecimalZ.to_int_inj.
Qed.

Lemma fmt_affinity_inj (a b : Z) :
  FastmodelCluster.fmt_affinity a = FastmodelCluster.fmt_affinity b -> a = b.
Proof.
  unfold FastmodelCluster.fmt_affinity. intros H.
  cbn [String.append] in H. injection H as H.
  apply string_append_cancel_r in H. now apply fmt_d_inj.
Qed.

(** X17. The affinities the controller is told are pairwise distinct,
    for every core count: ['0.0.%d.0' % i] never prints two indices
    alike.  Every entry of [reg_base_per_redistributor] is keyed by the
    affinity of the same index, followed by ["="] and the base address in
    hexadecimal, so the two parameters name the same redistributors, in
    the same order. *)
Theorem affinities_distinct_and_keyed
        (redist_base frame_size num_cpus : Z) :
  NoDup (map FastmodelCluster.fmt_affinity (range num_cpus))
  /\ map FastmodelCluster.fmt_reg_base
         (FastmodelCluster.reg_base_table redist_base frame_size num_cpus)
     = map (fun i => (FastmodelCluster.fmt_affinity i ++ "="
                      ++ fmt_x (redist_base + frame_size * i))%string)
           (range num_cpus).
Proof.
  split.
  - apply Finite.Injective_map_NoDup.
    + intros a b. apply fmt_affinity_inj.
    + rewrite <- range_from_zero. apply NoDup_consecutive.
  - unfold FastmodelCluster.reg_base_table. rewrite map_map.
    apply map_ext. intros i.
    unfold FastmodelCluster.fmt_reg_base, FastmodelCluster.fmt_affinity.
    cbn [fst snd]. rewrite !string_append_assoc. reflexivity.
Qed.

(** ** A run without cores *)

(** X18. With no core to build ([--num-cores] zero or negative, after
    the configuration generator has had its say) [create] ends in the
    AssertionError of the cluster constructor.  By then the system, its
    voltage and clock domains, the memory bus and the bare cluster object
    exist and the system port is bound to the memory bus; no core, cache
    or process has been constructed, no command has been parsed or
    printed, the system's bookkeeping is empty, and nothing has been
    instantiated. *)
Theorem create_without_cores
        {G : Gem5} (args : Args) (w : World)
        (Hn : num_cores (effective_args args) <= 0) :
  exists w',
    create args w = (Raise AssertionError, w')
    /\ constructed_during w w'
       = [(next_ref w, K_SimpleSeSystem);
          (S (next_ref w), K_VoltageDomain "3.3V");
          (S (S (next_ref w)), K_SrcClockDomain "1GHz" (S (next_ref w)));
          (S (S (S (next_ref w))), K_SystemXBar);
          (S (S (S (S (next_ref w)))), K_CpuClusterRiscV)]
    /\ bound_during w w'
       = [((next_ref w, system_port),
           (S (S (S (next_ref w))), cpu_side_ports))]
    /\ stdout w' = stdout w
    /\ instantiated w' = instantiated w
    /\ _clusters w' = []
    /\ _num_cpus w' = 0.
Proof.
  destruct (create_unfold args) as (bp & ->).
  assert (P1 : preserves objects (apply_overrides args)) by frame.
  assert (P2 : preserves bindings (apply_overrides args)) by frame.
  assert (P3 : preserves stdout (apply_overrides args)) by frame.
  assert (P4 : preserves instantiated (apply_overrides args)) by frame.
  assert (P5 : preserves next_ref (apply_overrides args)) by frame.
  specialize (P1 w). specialize (P2 w). specialize (P3 w).
  specialize (P4 w). specialize (P5 w).
  destruct (apply_overrides_returns args w) as (w0 & E0 & _).
  rewrite E0 in P1, P2, P3, P4, P5. cbn [snd] in P1, P2, P3, P4, P5.
  rewrite (bind_Ok _ _ _ _ _ E0).
  unfold assemble, SimpleSeSystem.__init__.
  erewrite bind_Raise; [|].
  2:{ do 7 step. erewrite bind_Raise; [reflexivity|].
      apply init_rejects. exact Hn. }
  eexists. split; [reflexivity|].
  unfold constructed_during, bound_during. world_simpl.
  rewrite P1, P2, P3, P4, P5, <- !app_assoc, !skipn_length_app.
  now repeat split.
Qed.

Lemma create_without_cores_witness :
  exists w',
    create (G := sample_gem5)
           (mkArgs ["ls"]%string minor "2GHz" 0 "2GB" "" "" "" 0 false
                   1000 false None 0) world0
    = (Raise AssertionError, w')
    /\ stdout w' = []
    /\ _clusters w' = [].
Proof.
  destruct (create_without_cores
              (G := sample_gem5)
              (mkArgs ["ls"]%string minor "2GHz" 0 "2GB" "" "" "" 0 false
                      1000 false None 0) world0)
    as (w' & E & _ & _ & Hs & _ & Hc & _).
  - vm_compute. discriminate.
  - exists w'. split; [exact E|]. split; [exact Hs|exact Hc].
Defined.

(** * Private caches, cluster counts below one, and the L2 override *)

(** ** Private L1 caches, slot by slot *)



(** ** The externally-modelled cluster without a positive count *)



(** X6. A negative core count is not rejected by the constructor's own
    check either, and the controller is told no affinity at all.  From -4
    downwards the class table is read out of range: IndexError, no model
    built, the system's registration never called.  For -1, -2 and -3 the
    negative index wraps around to the three-, two- and one-core class and
    that model is built; what is left of the constructor is the call of
    the system's registration, whatever that is, with the negative
    count. *)
Theorem FastmodelCluster_negative_counts
        (register : ObjRef -> Z -> M unit)
        (system : FastmodelCluster.System) (num_cpus : Z)
        (cpu_clock cpu_voltage : string) (w : World)
        (redist_base : Z) (others : list Z)
        (Hbase : FastmodelCluster.redist_bases
                   (FastmodelCluster.realview_gic system)
                 = redist_base :: others)
        (Hneg : num_cpus < 0) :
  (num_cpus <= -4 ->
   exists w',
     FastmodelCluster.init_with register system num_cpus cpu_clock
                                cpu_voltage w
     = (Raise IndexError, w')
     /\ filter is_core_object (constructed_during w w') = []
     /\ cpu_affinities w' = ""%string
     /\ _clusters w' = _clusters w
     /\ _num_cpus w' = _num_cpus w)
  /\ (-4 < num_cpus ->
      exists c model w1,
        FastmodelCluster.init_with register system num_cpus cpu_clock
                                   cpu_voltage w
        = (register (FastmodelCluster.self c) num_cpus ;;; ret c) w1
        /\ FastmodelCluster.cpus c = [model]
        /\ getitem FastmodelCluster.CpuClasses (num_cpus - 1)
           = Ok (FastmodelCluster.model_class model)
        /\ FastmodelCluster.core_count (FastmodelCluster.model_class model)
           = num_cpus + 4
        /\ Z.of_nat (List.length (FastmodelCluster.cores model))
           = num_cpus + 4
        /\ map snd (filter is_core_object (constructed_during w w1))
           = K_FastModel (FastmodelCluster.model_class model)
             :: repeat K_FastModelCore (Z.to_nat (num_cpus + 4))
        /\ cpu_affinities w1 = ""%string
        /\ _clusters w1 = _clusters w
        /\ _num_cpus w1 = _num_cpus w).
Proof.
  unfold FastmodelCluster.init_with, constructed_during. rewrite Hbase.
  split.
  - intros Hlow.
    replace (num_cpus <=? 4) with true by (symmetry; apply Z.leb_le; lia).
    rewrite (range_nonpos num_cpus) by lia.
    rewrite (getitem_below FastmodelCluster.CpuClasses (num_cpus - 1))
      by (cbn; lia).
    do 19 step. step_raise.
    eexists. split; [reflexivity|]. world_simpl.
    rewrite <- !app_assoc, skipn_length_app.
    now repeat split.
  - intros Hhigh.
    assert (Hcases : num_cpus = -1 \/ num_cpus = -2 \/ num_cpus = -3)
      by lia.
    destruct Hcases as [-> | [-> | ->]];
      (do 27 step;
       eexists (FastmodelCluster.mk _ _ _ [_]), _, _;
       cbn [FastmodelCluster.self]; split; [reflexivity|]; world_simpl;
       rewrite <- !app_assoc, skipn_length_app;
       now repeat split).
Qed.

Lemma FastmodelCluster_negative_counts_witness :
  (exists c w',
      FastmodelCluster.init_with register_cluster realview0 (-1) "1GHz"
                                 "1.0V" world_fs
      = (Ok c, w')
      /\ map FastmodelCluster.model_class (FastmodelCluster.cpus c)
         = [FastModelCortexA76x3]
      /\ _num_cpus w' = -1)
  /\ (exists w',
         FastmodelCluster.init_with register_cluster realview0 (-4) "1GHz"
                                    "1.0V" world_fs
         = (Raise IndexError, w')).
Proof.
  split.
  - destruct (FastmodelCluster_negative_counts
                register_cluster realview0 (-1) "1GHz" "1.0V" world_fs
                0x2f100000 [] eq_refl ltac:(lia))
      as (_ & H).
    destruct (H ltac:(lia))
      as (c & model & w1 & E & Hc & G & _ & _ & _ & _ & _ & Hn).
    eexists c, _. split; [rewrite E; reflexivity|].
    rewrite Hc. cbn [map].
    change (Ok FastModelCortexA76x3
            = Ok (FastmodelCluster.model_class model)) in G.
    injection G as <-. split; [reflexivity|].
    world_simpl. rewrite Hn. reflexivity.
  - destruct (FastmodelCluster_negative_counts
                register_cluster realview0 (-4) "1GHz" "1.0V" world_fs
                0x2f100000 [] eq_refl ltac:(lia))
      as (H & _).
    destruct (H ltac:(lia)) as (w' & E & _). now exists w'.
Defined.
(** ** The L2 override *)





Section L2Override.

Context {G : Gem5}.




End L2Override.



